(** * Drift monitor: a shallow embedding of [server/monitor_drift.py]

    The controller is a single-threaded Python script: an endless loop
    ([main]) that runs one monitoring cycle ([run_monitoring_cycle]),
    measures how long it took and sleeps for the rest of a fixed interval.
    A cycle restarts a background consumer process, runs six external
    commands in order, reads two CSV artifacts, divides their row counts
    and, when the quotient exceeds a threshold, mails an alert and runs a
    retraining command.

    Everything the script does to the outside world is an effect.  The
    embedding threads an explicit [State] (the module global
    [consumer_process] and the table of child processes), collects the
    effects of a run as a list of [Event]s, and propagates Python
    exceptions as a [Raise] result.  What the outside world answers (exit
    statuses, file contents, mail transport errors, clock readings) is
    supplied by an oracle record [Env], one per cycle.

    Python floats are IEEE-754 binary64 numbers; they are modelled with the
    bit-exact specification [spec_float] of the standard library. *)

From Stdlib Require Import ZArith NArith Bool List String Lia.
From Stdlib Require Import SpecFloat.
From stdpp Require Import base option list strings gmap.

Local Open Scope string_scope.
Local Open Scope list_scope.
Local Open Scope Z_scope.

(** ** Python numbers *)

Module Float.

(** binary64: 53 bits of precision, infinities at exponent 1024. *)
Definition prec : Z := 53.
Definition emax : Z := 1024.

Definition zero : spec_float := S754_zero false.

Definition sub : spec_float -> spec_float -> spec_float := SFsub prec emax.
Definition div : spec_float -> spec_float -> spec_float := SFdiv prec emax.
Definition ltb : spec_float -> spec_float -> bool := SFltb.
Definition leb : spec_float -> spec_float -> bool := SFleb.
Definition valid : spec_float -> bool := valid_binary prec emax.

(** [float(z)]: the double nearest to the integer [z].  (Python raises
    for an int beyond the doubles; the script converts only 300.) *)
Definition of_int (z : Z) : spec_float := binary_normalize prec emax z 0 false.

(** The integer [z] as an unrounded operand [z * 2^0]; the division
    below rounds once, from the exact quotient. *)
Definition exact_int (z : Z) : spec_float :=
  match z with
  | Z0 => S754_zero false
  | Zpos p => S754_finite false p 0
  | Zneg p => S754_finite true p 0
  end.

Definition is_nan (x : spec_float) : bool :=
  match x with S754_nan => true | _ => false end.

Definition is_infinite (x : spec_float) : bool :=
  match x with S754_infinity _ => true | _ => false end.

End Float.

(** A Python number as the script handles them: [max(0, x)] yields either
    the [int] literal [0] or the [float] [x]. *)
Inductive number : Type :=
  | PyInt (z : Z)
  | PyFloat (f : spec_float).

(** ** Exceptions

    All of these derive from Python's [Exception].  [KeyboardInterrupt] and
    [SystemExit] do not; nothing the script calls raises them, they reach
    the process only through an external signal. *)
Inductive exn : Type :=
  | CalledProcessError (returncode : Z) (cmd : string)
  | ZeroDivisionError
  | OverflowError
  | ValueError
  | FileNotFoundError (path : string)
  | OSError (msg : string)
  | EmptyDataError
  | ParserError
  | SMTPException (msg : string).

Inductive Result (A : Type) : Type :=
  | Ok (a : A)
  | Raise (e : exn).
Arguments Ok {A} a.
Arguments Raise {A} e.

(** ** Data read and written by the script *)

(** What the script looks at in a [pandas.DataFrame]: its shape. *)
Record DataFrame : Type := mkDataFrame { nrows : N; ncols : N }.

Definition len (df : DataFrame) : Z := Z.of_N (nrows df).
Definition shape0 (df : DataFrame) : Z := Z.of_N (nrows df).
(** [df.empty]: some axis has length 0. *)
Definition empty (df : DataFrame) : bool := (nrows df =? 0)%N || (ncols df =? 0)%N.

(** The alert built by [send_alert_email]: both the subject and the body
    are formatted from the ratio. *)
Record MIMEText : Type := mkMIMEText {
  msg_ratio : spec_float;
  msg_From : option string;
  msg_To : option string
}.

(** The lines the script prints, one constructor per [print] statement. *)
Inductive Message : Type :=
  | MsgStartingRun
  | MsgStep (label : string)
  | MsgStartingConsumer
  | MsgStoppingConsumer
  | MsgNoOutput
  | MsgModelOK
  | MsgTotal (total_records : Z)
  | MsgFrauds (n : Z)
  | MsgRate (fraud_ratio : spec_float)
  | MsgHighRatio
  | MsgAlertSent (to : option string)
  | MsgEmailFailed (e : exn)
  | MsgStepFailed (e : exn)
  | MsgUnexpected (e : exn)
  | MsgWaiting (wait_time : number).

(** The calls made on the mail session, with their arguments. *)
Inductive SmtpCall : Type :=
  | Connect (host : string) (port : Z)
  | StartTls
  | Login (user password : option string)
  | SendMessage (msg : MIMEText)
  | Quit.

(** Observable effects, in the order they happen. *)
Inductive Event : Type :=
  | EvPrint (m : Message)
  | EvRun (command : string)
  | EvOpenAppend (path : string)
  | EvPopen (pid : nat)
  | EvSignalTerm (pid : nat)
  | EvWait (pid : nat)
  | EvExists (path : string)
  | EvReadCsv (path : string)
  | EvSmtp (call : SmtpCall)
  | EvTime
  | EvSleep (seconds : number).

(** ** Module globals *)

(** The names bound at import time that the functions read. *)
Record Module : Type := mkModule {
  FRAUD_OUTPUT : string;
  RETRAIN_THRESHOLD : spec_float;
  CHECK_INTERVAL_SECONDS : Z;
  CONSUMER_LOG : string;
  EMAIL_USER : option string;
  EMAIL_PASS : option string;
  TO_EMAIL : option string;
  SMTP_SERVER : string;
  SMTP_PORT : Z
}.

(** The literal [0.30]: the double nearest to 3/10,
    [0x1.3333333333333p-2 = 5404319552844595 * 2^-54]. *)
Definition literal_0_30 : spec_float := S754_finite false 5404319552844595 (-54).

(** [load_dotenv(path)] with the default [override=False]: a variable of
    the file is set unless the process environment already has it.  A
    missing file ([None]) changes nothing. *)
Definition load_dotenv (dotenv : option (gmap string string))
    (environ : gmap string string) : gmap string string :=
  match dotenv with
  | Some file => environ ∪ file
  | None => environ
  end.

Definition getenv (environ : gmap string string) (key : string) : option string :=
  environ !! key.

(** Lines 12-25 of the script; paths are kept relative to [BASE_DIR]. *)
Definition module_toplevel (dotenv : option (gmap string string))
    (environ : gmap string string) : Module :=
  let environ := load_dotenv dotenv environ in
  {| FRAUD_OUTPUT := "modules/fraud_cases_for_llm.csv";
     RETRAIN_THRESHOLD := literal_0_30;
     CHECK_INTERVAL_SECONDS := 300;
     CONSUMER_LOG := "logs/consumer.log";
     EMAIL_USER := getenv environ "EMAIL_USER";
     EMAIL_PASS := getenv environ "EMAIL_PASS";
     TO_EMAIL := getenv environ "TO_EMAIL";
     SMTP_SERVER := "smtp.gmail.com";
     SMTP_PORT := 587 |}.

(** ** State and oracle *)

Inductive ProcStatus : Type :=
  | Running
  | Exited (returncode : Z).

(** [consumer_process] is the module global of line 31: [None] or the
    [Popen] handle, identified by its pid.  [procs] is the operating
    system's view of the children spawned so far. *)
Record State : Type := mkState {
  consumer_process : option nat;
  procs : gmap nat ProcStatus;
  next_pid : nat
}.

(** Line 31: nothing is tracked after import. *)
Definition initial_state : State :=
  {| consumer_process := None; procs := ∅; next_pid := 0 |}.

(** The answers of the outside world during one cycle. *)
Record Env : Type := mkEnv {
  (** exit status of a shell command *)
  exit_status : string -> Z;
  (** [open(CONSUMER_LOG, "a")] and [Popen(...)] may fail *)
  open_log : option exn;
  popen : option exn;
  (** a running child found dead by [poll()], with its status *)
  died : nat -> option Z;
  (** status of a child that [wait()] collects after SIGTERM *)
  term_status : nat -> Z;
  path_exists : string -> bool;
  read_csv : string -> Result DataFrame;
  (** failure of a call on the mail session, if any *)
  smtp : SmtpCall -> option exn;
  (** the two readings of [time.time()] around the cycle *)
  time_start : spec_float;
  time_end : spec_float
}.

(** ** The effect monad: state, exceptions and an event log *)

Definition M (A : Type) : Type := State -> Result A * State * list Event.

Definition ret {A} (a : A) : M A := fun st => (Ok a, st, []).

Definition bind {A B} (m : M A) (k : A -> M B) : M B :=
  fun st =>
    match m st with
    | (Ok a, st1, t1) =>
        match k a st1 with
        | (r, st2, t2) => (r, st2, t1 ++ t2)
        end
    | (Raise e, st1, t1) => (Raise e, st1, t1)
    end.

Definition raise {A} (e : exn) : M A := fun st => (Raise e, st, []).

Definition emit (ev : Event) : M unit := fun st => (Ok tt, st, [ev]).

Definition get : M State := fun st => (Ok st, st, []).

Definition put (st : State) : M unit := fun _ => (Ok tt, st, []).

(** [try: m except Exception as e: h e] *)
Definition try_except {A} (m : M A) (h : exn -> M A) : M A :=
  fun st =>
    match m st with
    | (Raise e, st1, t1) =>
        match h e st1 with
        | (r, st2, t2) => (r, st2, t1 ++ t2)
        end
    | ok => ok
    end.

(** [with cm: body], after [cm] was entered: [exit] runs whether or not
    the body raised, and an exception of [exit] replaces the body's. *)
Definition with_exit {A} (body : M A) (exit : M unit) : M A :=
  fun st =>
    match body st with
    | (r, st1, t1) =>
        match exit st1 with
        | (Ok _, st2, t2) => (r, st2, t1 ++ t2)
        | (Raise e, st2, t2) => (Raise e, st2, t1 ++ t2)
        end
    end.

Definition lift {A} (r : Result A) : M A := fun st => (r, st, []).

Declare Scope py_scope.
Delimit Scope py_scope with py.
Notation "x <~ m ;; k" := (bind m (fun x => k))
  (at level 100, m at next level, right associativity) : py_scope.
Notation "m ;; k" := (bind m (fun _ => k))
  (at level 100, right associativity) : py_scope.
Local Open Scope py_scope.

Definition result_of {A} (x : Result A * State * list Event) : Result A := x.1.1.
Definition state_of {A} (x : Result A * State * list Event) : State := x.1.2.
Definition events_of {A} (x : Result A * State * list Event) : list Event := x.2.

Definition print (m : Message) : M unit := emit (EvPrint m).

(** An external call that either returns nothing or raises. *)
Definition external (ev : Event) (failure : option exn) : M unit :=
  emit ev ;;
  match failure with
  | Some e => raise e
  | None => ret tt
  end.

(** ** Library calls *)

(** [a / b] on Python ints: the exact quotient, rounded once to the
    nearest double; a zero divisor and a quotient beyond the doubles
    raise. *)
Definition int_truediv (a b : Z) : Result spec_float :=
  if b =? 0 then Raise ZeroDivisionError
  else
    let q := Float.div (Float.exact_int a) (Float.exact_int b) in
    if Float.is_infinite q then Raise OverflowError else Ok q.

(** [max(0, d)] for a float [d]: the second argument wins only when it
    compares greater than the first, so a NaN or a zero gives the int. *)
Definition max0 (d : spec_float) : number :=
  if Float.ltb Float.zero d then PyFloat d else PyInt 0.

(** [time.sleep]: a negative or NaN duration is a [ValueError].  (The
    [OverflowError] for durations beyond the platform timer is left out.) *)
Definition time_sleep (seconds : number) : M unit :=
  let refused :=
    match seconds with
    | PyInt z => z <? 0
    | PyFloat f => Float.ltb f Float.zero || Float.is_nan f
    end in
  if refused then raise ValueError else emit (EvSleep seconds).

Definition time_time (reading : spec_float) : M spec_float :=
  emit EvTime ;; ret reading.

Definition set_consumer_process (h : option nat) (st : State) : State :=
  {| consumer_process := h; procs := procs st; next_pid := next_pid st |}.

Definition set_proc (p : nat) (s : ProcStatus) (st : State) : State :=
  {| consumer_process := consumer_process st;
     procs := <[p := s]> (procs st);
     next_pid := next_pid st |}.

Section Operations.

Variable module : Module.
Variable env : Env.

(** [Popen.poll()]: the status of a child that has exited, else [None].
    A child found dead is reaped; one the system does not know counts as
    exited with status 0. *)
Definition poll (p : nat) : M (option Z) :=
  st <~ get ;;
  match procs st !! p with
  | Some (Exited rc) => ret (Some rc)
  | Some Running =>
      match died env p with
      | Some rc => put (set_proc p (Exited rc) st) ;; ret (Some rc)
      | None => ret None
      end
  | None => ret (Some 0)
  end.

Definition send_signal_SIGTERM (p : nat) : M unit := emit (EvSignalTerm p).

(** [Popen.wait()]: returns once the child has exited. *)
Definition wait (p : nat) : M Z :=
  emit (EvWait p) ;;
  st <~ get ;;
  let rc := term_status env p in
  put (set_proc p (Exited rc) st) ;;
  ret rc.

(** [subprocess.Popen([...], stdout=log_file, stderr=log_file)] *)
Definition Popen : M nat :=
  match popen env with
  | Some e => raise e
  | None =>
      st <~ get ;;
      let p := next_pid st in
      put {| consumer_process := consumer_process st;
             procs := <[p := Running]> (procs st);
             next_pid := S p |} ;;
      emit (EvPopen p) ;;
      ret p
  end.

(** Lines 33-51. *)
Definition send_alert_email (fraud_ratio : spec_float) : M unit :=
  let msg :=
    {| msg_ratio := fraud_ratio;
       msg_From := EMAIL_USER module;
       msg_To := TO_EMAIL module |} in
  try_except
    (let c := Connect (SMTP_SERVER module) (SMTP_PORT module) in
     external (EvSmtp c) (smtp env c) ;;
     with_exit
       (external (EvSmtp StartTls) (smtp env StartTls) ;;
        (let l := Login (EMAIL_USER module) (EMAIL_PASS module) in
         external (EvSmtp l) (smtp env l)) ;;
        external (EvSmtp (SendMessage msg)) (smtp env (SendMessage msg)))
       (external (EvSmtp Quit) (smtp env Quit)) ;;
     print (MsgAlertSent (TO_EMAIL module)))
    (fun e => print (MsgEmailFailed e)).

(** Lines 53-55: [check=True] turns a non-zero exit into an exception. *)
Definition run_pipeline_step (label command : string) : M unit :=
  print (MsgStep label) ;;
  emit (EvRun command) ;;
  let rc := exit_status env command in
  if rc =? 0 then ret tt else raise (CalledProcessError rc command).

(** Lines 57-65. *)
Definition start_consumer_background : M unit :=
  external (EvOpenAppend (CONSUMER_LOG module)) (open_log env) ;;
  print MsgStartingConsumer ;;
  p <~ Popen ;;
  st <~ get ;;
  put (set_consumer_process (Some p) st).

(** Lines 67-72.  The handle is truthy whenever it is not [None]. *)
Definition stop_consumer_background : M unit :=
  st <~ get ;;
  match consumer_process st with
  | None => ret tt
  | Some p =>
      rc <~ poll p ;;
      match rc with
      | None =>
          print MsgStoppingConsumer ;;
          send_signal_SIGTERM p ;;
          wait p ;;
          ret tt
      | Some _ => ret tt
      end
  end.

Definition exists_ (path : string) : M bool :=
  emit (EvExists path) ;; ret (path_exists env path).

Definition pd_read_csv (path : string) : M DataFrame :=
  emit (EvReadCsv path) ;; lift (read_csv env path).

Definition non_fraud_transactions : string := "modules/non_fraud_transactions.csv".

(** Lines 93-112, the part of the [try] suite after the pipeline. *)
Definition evaluate_model : M unit :=
  found <~ exists_ (FRAUD_OUTPUT module) ;;
  if negb found then print MsgNoOutput
  else
    df <~ pd_read_csv (FRAUD_OUTPUT module) ;;
    if empty df then print MsgModelOK
    else
      total <~ pd_read_csv non_fraud_transactions ;;
      let total_records := shape0 total in
      fraud_ratio <~ lift (int_truediv (len df) total_records) ;;
      print (MsgTotal total_records) ;;
      print (MsgFrauds (len df)) ;;
      print (MsgRate fraud_ratio) ;;
      if Float.ltb (RETRAIN_THRESHOLD module) fraud_ratio then
        print MsgHighRatio ;;
        send_alert_email fraud_ratio ;;
        run_pipeline_step "Retraining autoencoder model"
                          "python3 modules/train_autoencoder.py"
      else ret tt.

(** Lines 78-112: the suite of the [try] statement. *)
Definition try_suite : M unit :=
  stop_consumer_background ;;
  run_pipeline_step "Generating data" "python3 modules/datagen.py" ;;
  start_consumer_background ;;
  run_pipeline_step "Merging parquet files" "python3 modules/combine.py" ;;
  run_pipeline_step "Enriching with historical features"
                    "python3 modules/transformation.py" ;;
  run_pipeline_step "Applying rule-based fraud detection"
    "python3 modules/rule_based_fraud_detection.py denormalized_transactions/denoised_enriched_transactions.csv" ;;
  run_pipeline_step "Generating account-level history"
                    "python3 modules/history.py denormalized_transactions" ;;
  run_pipeline_step "Running autoencoder fraud detection"
                    "python3 modules/model.py" ;;
  evaluate_model.

(** Lines 114-117: the two [except] clauses, tried in order. *)
Definition except_clauses (e : exn) : M unit :=
  match e with
  | CalledProcessError _ _ => print (MsgStepFailed e)
  | _ => print (MsgUnexpected e)
  end.

(** Lines 74-117. *)
Definition run_monitoring_cycle : M unit :=
  print MsgStartingRun ;;
  try_except try_suite except_clauses.

(** Line 124: [max(0, CHECK_INTERVAL_SECONDS - elapsed)]; the int is
    converted to a float for the subtraction. *)
Definition wait_time_after (elapsed : spec_float) : number :=
  max0 (Float.sub (Float.of_int (CHECK_INTERVAL_SECONDS module)) elapsed).

(** Lines 121-126: one pass through the body of [while True]. *)
Definition main_body : M unit :=
  start_time <~ time_time (time_start env) ;;
  run_monitoring_cycle ;;
  now <~ time_time (time_end env) ;;
  let elapsed := Float.sub now start_time in
  let wait_time := wait_time_after elapsed in
  print (MsgWaiting wait_time) ;;
  time_sleep wait_time.

End Operations.

(** Lines 119-126.  The loop never ends by itself; [main module envs] is its
    run through the first [length envs] passes, pass [i] meeting the
    outside world [envs !! i]. *)
Fixpoint main (module : Module) (envs : list Env) : M unit :=
  match envs with
  | [] => ret tt
  | env :: rest => main_body module env ;; main module rest
  end.

(** ** Reading a run *)

(** The commands of the pipeline in the order lines 82-90 run them. *)
Definition pipeline_commands : list string :=
  [ "python3 modules/datagen.py";
    "python3 modules/combine.py";
    "python3 modules/transformation.py";
    "python3 modules/rule_based_fraud_detection.py denormalized_transactions/denoised_enriched_transactions.csv";
    "python3 modules/history.py denormalized_transactions";
    "python3 modules/model.py" ].

Definition retrain_command : string := "python3 modules/train_autoencoder.py".

(** An oracle under which the pipeline gets as far as the evaluation:
    every command exits with status 0 and the consumer can be started. *)
Definition reaches_evaluation (env : Env) : Prop :=
  Forall (fun c => exit_status env c = 0) pipeline_commands /\
  open_log env = None /\ popen env = None.

(** The alert is dispatched when the mail session is opened: the first
    effect of [send_alert_email]. *)
Definition is_alert (ev : Event) : bool :=
  match ev with
  | EvSmtp (Connect _ _) => true
  | _ => false
  end.

Definition is_sent_message (ev : Event) : bool :=
  match ev with
  | EvSmtp (SendMessage _) => true
  | _ => false
  end.

Definition is_retrain (ev : Event) : bool :=
  match ev with
  | EvRun c => String.eqb c retrain_command
  | _ => false
  end.

(** Effects of the evaluation of lines 93-112. *)
Definition is_evaluation (ev : Event) : bool :=
  match ev with
  | EvExists _ | EvReadCsv _ => true
  | EvPrint (MsgNoOutput | MsgModelOK | MsgTotal _ | MsgFrauds _
             | MsgRate _ | MsgHighRatio) => true
  | _ => false
  end.

(** The report of a failed cycle: one of the two [except] clauses ran. *)
Definition is_failure_report (ev : Event) : bool :=
  match ev with
  | EvPrint (MsgStepFailed _ | MsgUnexpected _) => true
  | _ => false
  end.

Definition is_cycle_start (ev : Event) : bool :=
  match ev with
  | EvPrint MsgStartingRun => true
  | _ => false
  end.

Definition count (p : Event -> bool) (t : list Event) : nat :=
  length (filter (fun ev => p ev = true) t).

Definition printed (m : Message -> bool) (t : list Event) : bool :=
  existsb (fun ev => match ev with EvPrint x => m x | _ => false end) t.

(** The four outcomes of an evaluation, read off what the cycle printed:
    each is announced by a line of its own. *)
Inductive Verdict : Type :=
  | NoOutput
  | Empty
  | Normal
  | Drifted.

Definition verdict (t : list Event) : option Verdict :=
  if printed (fun m => match m with MsgHighRatio => true | _ => false end) t
  then Some Drifted
  else if printed (fun m => match m with MsgRate _ => true | _ => false end) t
  then Some Normal
  else if printed (fun m => match m with MsgModelOK => true | _ => false end) t
  then Some Empty
  else if printed (fun m => match m with MsgNoOutput => true | _ => false end) t
  then Some NoOutput
  else None.

(** Whether a child is running, as the operating system sees it. *)
Definition is_running (st : State) (p : nat) : bool :=
  match procs st !! p with
  | Some Running => true
  | _ => false
  end.

(** ** The shape of a cycle

    The events of a cycle fall into classes by the lines that cause them;
    the two relations below list the ways the evaluation and the whole
    [try] suite can end, with the events of each. *)

(** Effects of [stop_consumer_background]. *)
Definition is_supervisor (ev : Event) : bool :=
  match ev with
  | EvPrint MsgStoppingConsumer | EvSignalTerm _ | EvWait _ => true
  | _ => false
  end.

(** Effects of lines 79-90: the supervisor and the six pipeline steps. *)
Definition is_pipeline (ev : Event) : bool :=
  match ev with
  | EvPrint (MsgStep _ | MsgStartingConsumer | MsgStoppingConsumer) => true
  | EvRun c => existsb (String.eqb c) pipeline_commands
  | EvOpenAppend _ | EvPopen _ | EvSignalTerm _ | EvWait _ => true
  | _ => false
  end.

(** Effects of [send_alert_email] after the session was opened. *)
Definition is_mail (ev : Event) : bool :=
  match ev with
  | EvSmtp (Connect _ _) => false
  | EvSmtp _ => true
  | EvPrint (MsgAlertSent _ | MsgEmailFailed _) => true
  | _ => false
  end.

(** What the [except] clauses print for an exception. *)
Definition failure_report (e : exn) : Event :=
  EvPrint match e with
          | CalledProcessError _ _ => MsgStepFailed e
          | _ => MsgUnexpected e
          end.

Definition report (r : Result unit) : list Event :=
  match r with
  | Ok _ => []
  | Raise e => [failure_report e]
  end.

(** The ways [evaluate_model] can end: its result and its events, by
    what the oracle answers. *)
Inductive Evaluation (module : Module) (env : Env) :
    Result unit -> list Event -> Prop :=
  | eval_no_output :
      path_exists env (FRAUD_OUTPUT module) = false ->
      Evaluation module env (Ok tt)
        [EvExists (FRAUD_OUTPUT module); EvPrint MsgNoOutput]
  | eval_unreadable e :
      path_exists env (FRAUD_OUTPUT module) = true ->
      read_csv env (FRAUD_OUTPUT module) = Raise e ->
      Evaluation module env (Raise e)
        [EvExists (FRAUD_OUTPUT module); EvReadCsv (FRAUD_OUTPUT module)]
  | eval_empty df :
      path_exists env (FRAUD_OUTPUT module) = true ->
      read_csv env (FRAUD_OUTPUT module) = Ok df ->
      empty df = true ->
      Evaluation module env (Ok tt)
        [EvExists (FRAUD_OUTPUT module); EvReadCsv (FRAUD_OUTPUT module);
         EvPrint MsgModelOK]
  | eval_no_ratio df e :
      path_exists env (FRAUD_OUTPUT module) = true ->
      read_csv env (FRAUD_OUTPUT module) = Ok df ->
      empty df = false ->
      (read_csv env non_fraud_transactions = Raise e \/
       exists total, read_csv env non_fraud_transactions = Ok total /\
                     int_truediv (len df) (shape0 total) = Raise e) ->
      Evaluation module env (Raise e)
        [EvExists (FRAUD_OUTPUT module); EvReadCsv (FRAUD_OUTPUT module);
         EvReadCsv non_fraud_transactions]
  | eval_normal df total fraud_ratio :
      path_exists env (FRAUD_OUTPUT module) = true ->
      read_csv env (FRAUD_OUTPUT module) = Ok df ->
      empty df = false ->
      read_csv env non_fraud_transactions = Ok total ->
      int_truediv (len df) (shape0 total) = Ok fraud_ratio ->
      Float.ltb (RETRAIN_THRESHOLD module) fraud_ratio = false ->
      Evaluation module env (Ok tt)
        [EvExists (FRAUD_OUTPUT module); EvReadCsv (FRAUD_OUTPUT module);
         EvReadCsv non_fraud_transactions;
         EvPrint (MsgTotal (shape0 total)); EvPrint (MsgFrauds (len df));
         EvPrint (MsgRate fraud_ratio)]
  | eval_drifted df total fraud_ratio mail r :
      path_exists env (FRAUD_OUTPUT module) = true ->
      read_csv env (FRAUD_OUTPUT module) = Ok df ->
      empty df = false ->
      read_csv env non_fraud_transactions = Ok total ->
      int_truediv (len df) (shape0 total) = Ok fraud_ratio ->
      Float.ltb (RETRAIN_THRESHOLD module) fraud_ratio = true ->
      forallb is_mail mail = true ->
      (count is_sent_message mail <= 1)%nat ->
      ((forall c, smtp env c = None) -> count is_sent_message mail = 1%nat) ->
      r = (if exit_status env retrain_command =? 0 then Ok tt
           else Raise (CalledProcessError (exit_status env retrain_command)
                         retrain_command)) ->
      Evaluation module env r
        ([EvExists (FRAUD_OUTPUT module); EvReadCsv (FRAUD_OUTPUT module);
          EvReadCsv non_fraud_transactions;
          EvPrint (MsgTotal (shape0 total)); EvPrint (MsgFrauds (len df));
          EvPrint (MsgRate fraud_ratio); EvPrint MsgHighRatio;
          EvSmtp (Connect (SMTP_SERVER module) (SMTP_PORT module))]
         ++ mail ++
         [EvPrint (MsgStep "Retraining autoencoder model");
          EvRun retrain_command]).

(** The commands a run executed, in order. *)
Definition runs (t : list Event) : list string :=
  omap (fun ev => match ev with EvRun c => Some c | _ => None end) t.

(** The ways the [try] suite can end: a step fails, the consumer cannot
    be started, or the evaluation is reached. *)
Inductive Suite (module : Module) (env : Env) :
    Result unit -> list Event -> Prop :=
  | suite_step_failed pre i c :
      forallb is_pipeline pre = true ->
      pipeline_commands !! i = Some c ->
      Forall (fun c' => exit_status env c' = 0) (take i pipeline_commands) ->
      exit_status env c <> 0 ->
      runs pre = take (S i) pipeline_commands ->
      Suite module env (Raise (CalledProcessError (exit_status env c) c)) pre
  | suite_start_failed pre e :
      forallb is_pipeline pre = true ->
      open_log env = Some e \/ popen env = Some e ->
      Forall (fun c' => exit_status env c' = 0) (take 1 pipeline_commands) ->
      runs pre = take 1 pipeline_commands ->
      Suite module env (Raise e) pre
  | suite_evaluated pre r t :
      forallb is_pipeline pre = true ->
      reaches_evaluation env ->
      runs pre = pipeline_commands ->
      Evaluation module env r t ->
      Suite module env r (pre ++ t).

(** A sample outside world: every command succeeds, the consumer starts
    and dies only when told to, and no artifact exists. *)
Definition quiet_env : Env :=
  {| exit_status := fun _ => 0;
     open_log := None;
     popen := None;
     died := fun _ => None;
     term_status := fun _ => -15;
     path_exists := fun _ => false;
     read_csv := fun p => Raise (FileNotFoundError p);
     smtp := fun _ => None;
     time_start := Float.of_int 1000;
     time_end := Float.of_int 1100 |}.

(** The module as loaded with no [.env] file and an empty environment. *)
Definition bare_module : Module := module_toplevel None ∅.

(** An outside world in which the pipeline succeeds and both artifacts
    can be looked for: the fraud predictions have [fraud_rows] rows, the
    evaluated transactions are read as [total], and the mail transport
    fails as [mail_failure] says. *)
Definition sample_env (fraud_rows : N) (total : Result DataFrame)
    (mail_failure : SmtpCall -> option exn) : Env :=
  {| exit_status := fun _ => 0;
     open_log := None;
     popen := None;
     died := fun _ => None;
     term_status := fun _ => -15;
     path_exists := fun _ => true;
     read_csv := fun path =>
       if String.eqb path "modules/fraud_cases_for_llm.csv"
       then Ok {| nrows := fraud_rows; ncols := 12 |}
       else if String.eqb path non_fraud_transactions then total
       else Raise (FileNotFoundError path);
     smtp := mail_failure;
     time_start := Float.of_int 1000;
     time_end := Float.of_int 1100 |}.

(** An outside world in which one command exits with status 1. *)
Definition failing_env (command : string) : Env :=
  {| exit_status := fun c => if String.eqb c command then 1 else 0;
     open_log := None;
     popen := None;
     died := fun _ => None;
     term_status := fun _ => -15;
     path_exists := fun _ => true;
     read_csv := fun path => Raise (FileNotFoundError path);
     smtp := fun _ => None;
     time_start := Float.of_int 1000;
     time_end := Float.of_int 1100 |}.

(** ** Notions for the rounding facts *)

(** A result of rounding that is not zero: infinite or finite, with the
    sign [sx]. *)
Definition nonzero_result (sx : bool) (r : spec_float) : Prop :=
  r = S754_infinity sx \/ exists m e, r = S754_finite sx m e.

(** The signed mantissa of a finite number, scaled to the exponent [ez]. *)
Definition aligned (x : spec_float) (ez : Z) : Z :=
  match x with
  | S754_finite s m e => cond_Zopp s (Z.pos (shl_align m e ez).1)
  | _ => 0
  end.

(** ** Further notions *)

(** Lines 86-112: what the [try] suite does once the consumer is started. *)
Definition scoring_suite (module : Module) (env : Env) : M unit :=
  run_pipeline_step env "Merging parquet files" "python3 modules/combine.py" ;;
  run_pipeline_step env "Enriching with historical features"
                    "python3 modules/transformation.py" ;;
  run_pipeline_step env "Applying rule-based fraud detection"
    "python3 modules/rule_based_fraud_detection.py denormalized_transactions/denoised_enriched_transactions.csv" ;;
  run_pipeline_step env "Generating account-level history"
                    "python3 modules/history.py denormalized_transactions" ;;
  run_pipeline_step env "Running autoencoder fraud detection"
                    "python3 modules/model.py" ;;
  evaluate_model module env.

(** The state a successful [start_consumer_background] leaves. *)
Definition started (st : State) : State :=
  {| consumer_process := Some (next_pid st);
     procs := <[next_pid st := Running]> (procs st);
     next_pid := S (next_pid st) |}.

(** Whether the oracle lets a cycle start its consumer: the data
    generation succeeds, the log can be opened and the child spawned. *)
Definition consumer_starts (env : Env) : bool :=
  (exit_status env "python3 modules/datagen.py" =? 0) &&
  bool_decide (open_log env = None) && bool_decide (popen env = None).

(** Only the tracked child may be running. *)
Definition single_consumer (st : State) : Prop :=
  forall p, is_running st p = true -> consumer_process st = Some p.

Definition is_popen (ev : Event) : bool :=
  match ev with
  | EvPopen _ => true
  | _ => false
  end.

Definition is_signal (ev : Event) : bool :=
  match ev with
  | EvSignalTerm _ => true
  | _ => false
  end.

Definition is_quit (ev : Event) : bool :=
  match ev with
  | EvSmtp Quit => true
  | _ => false
  end.

Definition is_sleep (ev : Event) : bool :=
  match ev with
  | EvSleep _ => true
  | _ => false
  end.

Definition is_clock (ev : Event) : bool :=
  match ev with
  | EvTime => true
  | _ => false
  end.

(** The events of [stop_consumer_background] when it stops the child [p]. *)
Definition stopping (p : nat) : list Event :=
  [EvPrint MsgStoppingConsumer; EvSignalTerm p; EvWait p].

(** The alert [send_alert_email] composes for a ratio. *)
Definition alert_for (module : Module) (fraud_ratio : spec_float) : MIMEText :=
  {| msg_ratio := fraud_ratio;
     msg_From := EMAIL_USER module;
     msg_To := TO_EMAIL module |}.

(** The calls of a mail session that goes through, in order. *)
Definition full_session (module : Module) (fraud_ratio : spec_float) :
    list SmtpCall :=
  [Connect (SMTP_SERVER module) (SMTP_PORT module);
   StartTls;
   Login (EMAIL_USER module) (EMAIL_PASS module);
   SendMessage (alert_for module fraud_ratio);
   Quit].

(** The calls made on the mail session during a run, in order. *)
Definition smtp_calls (t : list Event) : list SmtpCall :=
  omap (fun ev => match ev with EvSmtp c => Some c | _ => None end) t.

(** The effects of a pipeline step: its announcement and its command. *)
Definition is_step (ev : Event) : bool :=
  match ev with
  | EvPrint (MsgStep _) => true
  | EvRun c => existsb (String.eqb c) pipeline_commands
  | _ => false
  end.

(** Events that leave the child processes alone. *)
Definition is_inert (ev : Event) : bool :=
  negb (is_supervisor ev) && negb (is_popen ev).


(** The two lines [send_alert_email] can end with. *)
Definition is_mail_report (ev : Event) : bool :=
  match ev with
  | EvPrint (MsgAlertSent _ | MsgEmailFailed _) => true
  | _ => false
  end.

(** The exception the [except] clause of [send_alert_email] gets to see:
    that of the connection; else that of leaving the [with] block, which
    replaces one raised inside it; else the first raised inside it. *)
Definition session_failure (module : Module) (env : Env)
    (fraud_ratio : spec_float) : option exn :=
  match smtp env (Connect (SMTP_SERVER module) (SMTP_PORT module)) with
  | Some e => Some e
  | None =>
      match smtp env Quit with
      | Some e => Some e
      | None =>
          match smtp env StartTls with
          | Some e => Some e
          | None =>
              let l := Login (EMAIL_USER module) (EMAIL_PASS module) in
              match smtp env l with
              | Some e => Some e
              | None => smtp env (SendMessage (alert_for module fraud_ratio))
              end
          end
      end
  end.

(** A transport on which only the closing [QUIT] fails. *)
Definition quit_fails (c : SmtpCall) : option exn :=
  match c with
  | Quit => Some (SMTPException "421 service not available")
  | _ => None
  end.

(** The line printed before the consumer is spawned. *)
Definition is_consumer_line (ev : Event) : bool :=
  match ev with
  | EvPrint MsgStartingConsumer => true
  | _ => false
  end.

(** Effects of the loop of [main] around a cycle. *)
Definition is_scheduler (ev : Event) : bool :=
  match ev with
  | EvTime | EvSleep _ | EvPrint (MsgWaiting _) => true
  | _ => false
  end.

(** An outside world that differs from [env] in the exit statuses. *)
Definition with_exit_status (status : string -> Z) (env : Env) : Env :=
  {| exit_status := status;
     open_log := open_log env;
     popen := popen env;
     died := died env;
     term_status := term_status env;
     path_exists := path_exists env;
     read_csv := read_csv env;
     smtp := smtp env;
     time_start := time_start env;
     time_end := time_end env |}.

(** An outside world in which no child can be spawned. *)
Definition no_child_env : Env :=
  {| exit_status := fun _ => 0;
     open_log := None;
     popen := Some (OSError "fork failed");
     died := fun _ => None;
     term_status := fun _ => -15;
     path_exists := fun _ => false;
     read_csv := fun p => Raise (FileNotFoundError p);
     smtp := fun _ => None;
     time_start := Float.of_int 1000;
     time_end := Float.of_int 1100 |}.

(** An outside world in which the artifacts exist but hold nothing that
    can be parsed. *)
Definition unreadable_env : Env :=
  {| exit_status := fun _ => 0;
     open_log := None;
     popen := None;
     died := fun _ => None;
     term_status := fun _ => -15;
     path_exists := fun _ => true;
     read_csv := fun _ => Raise EmptyDataError;
     smtp := fun _ => None;
     time_start := Float.of_int 1000;
     time_end := Float.of_int 1100 |}.

(** 40 flagged rows out of 100, a transport that works, and a
    retraining that exits with status 2. *)
Definition retrain_fails_env : Env :=
  with_exit_status
    (fun c => if String.eqb c retrain_command then 2 else 0)
    (sample_env 40 (Ok {| nrows := 100; ncols := 12 |}) (fun _ => None)).

(** Whether the verdict of a run is [Drifted]. *)
Definition drifted (t : list Event) : bool :=
  match verdict t with
  | Some Drifted => true
  | _ => false
  end.

(** Effects of a cycle outside its evaluation: the pipeline, the report
    of a failure and the line that opens the cycle. *)
Definition is_outside (ev : Event) : bool :=
  is_pipeline ev || is_failure_report ev || is_cycle_start ev.

(** The calls of [calls] up to and including the first that fails. *)
Fixpoint until_failure (env : Env) (calls : list SmtpCall) : list SmtpCall :=
  match calls with
  | [] => []
  | c :: rest =>
      c :: match smtp env c with
           | Some _ => []
           | None => until_failure env rest
           end
  end.

(** ** The script where output and sleep can fail

    The embedding above takes every [print] to succeed and the timer to
    accept every wait.  [print] writes to [sys.stdout], which can refuse
    a line ([BrokenPipeError], an [OSError]; [UnicodeEncodeError], a
    [ValueError]), and [time.sleep] raises [OverflowError] for a wait
    the platform timer cannot hold.  Here both are answers of the
    platform; everything else is as above. *)

Module Fallible.

Record Platform : Type := mkPlatform {
  (** the exception of writing a line to [sys.stdout], if any *)
  stdout : Message -> option exn;
  (** whether a duration is beyond the platform timer *)
  timer_overflow : number -> bool
}.

Section Script.

Variable platform : Platform.
Variable module : Module.
Variable env : Env.

(** A line that is refused is not written. *)
Definition print (m : Message) : M unit :=
  match stdout platform m with
  | Some e => raise e
  | None => emit (EvPrint m)
  end.

(** [time.sleep]: the duration is converted first, which refuses a NaN
    ([ValueError]) and a duration beyond the timer ([OverflowError]);
    then a negative one is refused ([ValueError]). *)
Definition time_sleep (seconds : number) : M unit :=
  let invalid :=
    match seconds with
    | PyInt _ => false
    | PyFloat f => Float.is_nan f
    end in
  let negative :=
    match seconds with
    | PyInt z => z <? 0
    | PyFloat f => Float.ltb f Float.zero
    end in
  if invalid then raise ValueError
  else if timer_overflow platform seconds then raise OverflowError
  else if negative then raise ValueError
  else emit (EvSleep seconds).

(** Lines 33-51. *)
Definition send_alert_email (fraud_ratio : spec_float) : M unit :=
  let msg :=
    {| msg_ratio := fraud_ratio;
       msg_From := EMAIL_USER module;
       msg_To := TO_EMAIL module |} in
  try_except
    (let c := Connect (SMTP_SERVER module) (SMTP_PORT module) in
     external (EvSmtp c) (smtp env c) ;;
     with_exit
       (external (EvSmtp StartTls) (smtp env StartTls) ;;
        (let l := Login (EMAIL_USER module) (EMAIL_PASS module) in
         external (EvSmtp l) (smtp env l)) ;;
        external (EvSmtp (SendMessage msg)) (smtp env (SendMessage msg)))
       (external (EvSmtp Quit) (smtp env Quit)) ;;
     print (MsgAlertSent (TO_EMAIL module)))
    (fun e => print (MsgEmailFailed e)).

(** Lines 53-55. *)
Definition run_pipeline_step (label command : string) : M unit :=
  print (MsgStep label) ;;
  emit (EvRun command) ;;
  let rc := exit_status env command in
  if rc =? 0 then ret tt else raise (CalledProcessError rc command).

(** Lines 57-65. *)
Definition start_consumer_background : M unit :=
  external (EvOpenAppend (CONSUMER_LOG module)) (open_log env) ;;
  print MsgStartingConsumer ;;
  p <~ Popen env ;;
  st <~ get ;;
  put (set_consumer_process (Some p) st).

(** Lines 67-72. *)
Definition stop_consumer_background : M unit :=
  st <~ get ;;
  match consumer_process st with
  | None => ret tt
  | Some p =>
      rc <~ poll env p ;;
      match rc with
      | None =>
          print MsgStoppingConsumer ;;
          send_signal_SIGTERM p ;;
          wait env p ;;
          ret tt
      | Some _ => ret tt
      end
  end.

(** Lines 93-112. *)
Definition evaluate_model : M unit :=
  found <~ exists_ env (FRAUD_OUTPUT module) ;;
  if negb found then print MsgNoOutput
  else
    df <~ pd_read_csv env (FRAUD_OUTPUT module) ;;
    if empty df then print MsgModelOK
    else
      total <~ pd_read_csv env non_fraud_transactions ;;
      let total_records := shape0 total in
      fraud_ratio <~ lift (int_truediv (len df) total_records) ;;
      print (MsgTotal total_records) ;;
      print (MsgFrauds (len df)) ;;
      print (MsgRate fraud_ratio) ;;
      if Float.ltb (RETRAIN_THRESHOLD module) fraud_ratio then
        print MsgHighRatio ;;
        send_alert_email fraud_ratio ;;
        run_pipeline_step "Retraining autoencoder model"
                          "python3 modules/train_autoencoder.py"
      else ret tt.

(** Lines 78-112. *)
Definition try_suite : M unit :=
  stop_consumer_background ;;
  run_pipeline_step "Generating data" "python3 modules/datagen.py" ;;
  start_consumer_background ;;
  run_pipeline_step "Merging parquet files" "python3 modules/combine.py" ;;
  run_pipeline_step "Enriching with historical features"
                    "python3 modules/transformation.py" ;;
  run_pipeline_step "Applying rule-based fraud detection"
    "python3 modules/rule_based_fraud_detection.py denormalized_transactions/denoised_enriched_transactions.csv" ;;
  run_pipeline_step "Generating account-level history"
                    "python3 modules/history.py denormalized_transactions" ;;
  run_pipeline_step "Running autoencoder fraud detection"
                    "python3 modules/model.py" ;;
  evaluate_model.

(** Lines 114-117: the [print] of a handler is under no [try]. *)
Definition except_clauses (e : exn) : M unit :=
  match e with
  | CalledProcessError _ _ => print (MsgStepFailed e)
  | _ => print (MsgUnexpected e)
  end.

(** Lines 74-117: the [print] of line 75 is before the [try]. *)
Definition run_monitoring_cycle : M unit :=
  print MsgStartingRun ;;
  try_except try_suite except_clauses.

(** Lines 121-126: nothing in [main] is under a [try]. *)
Definition main_body : M unit :=
  start_time <~ time_time (time_start env) ;;
  run_monitoring_cycle ;;
  now <~ time_time (time_end env) ;;
  let elapsed := Float.sub now start_time in
  let wait_time := wait_time_after module elapsed in
  print (MsgWaiting wait_time) ;;
  time_sleep wait_time.

End Script.

(** Lines 119-126: an exception of a pass ends the loop. *)
Fixpoint main (platform : Platform) (module : Module) (envs : list Env) :
    M unit :=
  match envs with
  | [] => ret tt
  | env :: rest => main_body platform module env ;; main platform module rest
  end.

(** A standard output that is closed: every write fails. *)
Definition closed_stdout : Platform :=
  {| stdout := fun _ => Some (OSError "Broken pipe");
     timer_overflow := fun _ => false |}.

(** A standard output whose reader goes away once the first cycle has
    begun: the opening line is written, every later write fails. *)
Definition broken_pipe : Platform :=
  {| stdout := fun m =>
       match m with
       | MsgStartingRun => None
       | _ => Some (OSError "Broken pipe")
       end;
     timer_overflow := fun _ => false |}.

(** A platform on which nothing of the two fails. *)
Definition reliable : Platform :=
  {| stdout := fun _ => None; timer_overflow := fun _ => false |}.

End Fallible.

(** * Properties *)

(** ** The monad and the event log *)

Lemma bind_Ok {A B} (m : M A) (k : A -> M B) st a st1 t1 r st2 t2 :
  m st = (Ok a, st1, t1) -> k a st1 = (r, st2, t2) ->
  bind m k st = (r, st2, t1 ++ t2).
Proof. intros H1 H2. unfold bind. rewrite H1, H2. reflexivity. Qed.

Lemma bind_Raise {A B} (m : M A) (k : A -> M B) st e st1 t1 :
  m st = (Raise e, st1, t1) -> bind m k st = (Raise e, st1, t1).
Proof. intros H. unfold bind. rewrite H. reflexivity. Qed.

Lemma count_nil p : count p [] = 0%nat.
Proof. reflexivity. Qed.

Lemma count_cons p ev t :
  count p (ev :: t) = ((if p ev then 1 else 0) + count p t)%nat.
Proof.
  unfold count. rewrite filter_cons.
  destruct (decide (p ev = true)) as [E|E].
  - rewrite E. reflexivity.
  - destruct (p ev); [contradiction|reflexivity].
Qed.

Lemma count_app p t1 t2 : count p (t1 ++ t2) = (count p t1 + count p t2)%nat.
Proof. unfold count. rewrite filter_app, length_app. reflexivity. Qed.

Lemma count_none p t :
  forallb (fun ev => negb (p ev)) t = true -> count p t = 0%nat.
Proof.
  induction t as [|ev t IH]; simpl; [reflexivity|].
  intros [Hev Ht]%andb_prop. rewrite count_cons, (IH Ht).
  destruct (p ev); [discriminate|reflexivity].
Qed.

Lemma forallb_weaken (p q : Event -> bool) t :
  (forall ev, p ev = true -> q ev = true) ->
  forallb p t = true -> forallb q t = true.
Proof.
  intros Hpq. rewrite !forallb_forall. intros H ev Hin. apply Hpq, H, Hin.
Qed.

Lemma printed_app m t1 t2 : printed m (t1 ++ t2) = printed m t1 || printed m t2.
Proof. apply existsb_app. Qed.

(** ** Facts on binary64 arithmetic *)

Section Binary64.

Local Abbreviation prec := Float.prec.
Local Abbreviation emax := Float.emax.
Local Abbreviation emin := (emin prec emax).
Local Abbreviation fexp := (fexp prec emax).

Lemma digits2_pos_bounds (m : positive) :
  2 ^ (Z.pos (digits2_pos m) - 1) <= Z.pos m < 2 ^ Z.pos (digits2_pos m).
Proof.
  induction m as [m IH|m IH|]; simpl digits2_pos.
  - rewrite Pos2Z.inj_succ, Z.pow_succ_r by lia.
    replace (Z.succ (Z.pos (digits2_pos m)) - 1)
      with (Z.succ (Z.pos (digits2_pos m) - 1)) by lia.
    rewrite Z.pow_succ_r by lia. lia.
  - rewrite Pos2Z.inj_succ, Z.pow_succ_r by lia.
    replace (Z.succ (Z.pos (digits2_pos m)) - 1)
      with (Z.succ (Z.pos (digits2_pos m) - 1)) by lia.
    rewrite Z.pow_succ_r by lia. lia.
  - simpl. lia.
Qed.

Lemma shr_1_m (mrs : shr_record) :
  0 <= shr_m mrs -> shr_m (shr_1 mrs) = shr_m mrs / 2.
Proof.
  destruct mrs as [m r s]. simpl.
  destruct m as [|[p|p|]|p]; simpl; intros H; try lia; try reflexivity.
  - rewrite Pos2Z.inj_xI. Z.div_mod_to_equations. lia.
  - rewrite Pos2Z.inj_xO. Z.div_mod_to_equations. lia.
Qed.

Lemma iter_shr_1_m (p : positive) :
  forall mrs, 0 <= shr_m mrs ->
    shr_m (SpecFloat.iter_pos shr_1 p mrs) = shr_m mrs / 2 ^ Z.pos p.
Proof.
  induction p as [p IH|p IH|]; intros mrs H; simpl SpecFloat.iter_pos.
  - assert (H1 : 0 <= shr_m (shr_1 mrs)).
    { rewrite shr_1_m by assumption. apply Z.div_pos; lia. }
    assert (H2 : 0 <= shr_m (SpecFloat.iter_pos shr_1 p (shr_1 mrs))).
    { rewrite IH by assumption. apply Z.div_pos; [assumption|]. 
      apply Z.pow_pos_nonneg; lia. }
    rewrite IH, IH, shr_1_m by assumption.
    rewrite !Z.div_div by (try apply Z.pow_pos_nonneg; lia).
    f_equal.
    replace (Z.pos p~1) with (Z.succ (Z.pos p + Z.pos p)) by lia.
    rewrite Z.pow_succ_r, Z.pow_add_r by lia. lia.
  - assert (H2 : 0 <= shr_m (SpecFloat.iter_pos shr_1 p mrs)).
    { rewrite IH by assumption. apply Z.div_pos; [assumption|]. 
      apply Z.pow_pos_nonneg; lia. }
    rewrite IH, IH by assumption.
    rewrite !Z.div_div by (try apply Z.pow_pos_nonneg; lia).
    f_equal.
    replace (Z.pos p~0) with (Z.pos p + Z.pos p) by lia.
    rewrite Z.pow_add_r by lia. lia.
  - rewrite shr_1_m by assumption. reflexivity.
Qed.

Lemma shr_record_of_loc_m m l : shr_m (shr_record_of_loc m l) = m.
Proof. destruct l as [|[]]; reflexivity. Qed.

(** Shifting a positive mantissa down to its format exponent leaves it
    positive, as long as the exponent does not lie below the least one. *)
Lemma shr_fexp_pos (m : positive) (e : Z) (l : location) :
  emin <= e ->
  0 < shr_m (shr_fexp prec emax (Z.pos m) e l).1 /\
  emin <= (shr_fexp prec emax (Z.pos m) e l).2.
Proof.
  intros He. unfold shr_fexp, shr. simpl Zdigits2.
  destruct (fexp (Z.pos (digits2_pos m) + e) - e) as [|p|p] eqn:Hn; simpl;
    rewrite ?shr_record_of_loc_m; try lia.
  rewrite iter_shr_1_m by (rewrite shr_record_of_loc_m; lia).
  rewrite shr_record_of_loc_m.
  split; [|lia].
  assert (Hp : Z.pos p = Z.pos (digits2_pos m) - prec).
  { unfold SpecFloat.fexp in Hn. unfold SpecFloat.emin in *. lia. }
  pose proof (digits2_pos_bounds m) as [Hlo _].
  apply Z.div_str_pos. split; [apply Z.pow_pos_nonneg; lia|].
  eapply Z.le_trans; [|exact Hlo].
  apply Z.pow_le_mono_r; [lia|]. unfold Float.prec in Hp. lia.
Qed.

Lemma round_nearest_even_pos m l : 0 < m -> 0 < round_nearest_even m l.
Proof.
  intros H. destruct l as [|[]]; simpl; try lia.
  destruct (Z.even m); lia.
Qed.

Lemma binary_round_aux_pos sx (m : positive) e l :
  emin <= e -> nonzero_result sx (binary_round_aux prec emax sx (Z.pos m) e l).
Proof.
  intros He. unfold binary_round_aux.
  pose proof (shr_fexp_pos m e l He) as [Hm1 He1].
  destruct (shr_fexp prec emax (Z.pos m) e l) as [mrs1 e1]. simpl in Hm1, He1.
  pose proof (round_nearest_even_pos _ (loc_of_shr_record mrs1) Hm1) as Hr.
  destruct (round_nearest_even (shr_m mrs1) (loc_of_shr_record mrs1))
    as [|m2|m2]; try lia.
  pose proof (shr_fexp_pos m2 e1 loc_Exact He1) as [Hm2 He2].
  destruct (shr_fexp prec emax (Z.pos m2) e1 loc_Exact) as [mrs2 e2].
  simpl in Hm2, He2.
  destruct (shr_m mrs2) as [|m3|m3]; try lia.
  destruct (e2 <=? emax - prec); [right; eauto | left; reflexivity].
Qed.

Lemma binary_round_pos sx (m : positive) e :
  emin <= e -> nonzero_result sx (binary_round prec emax sx m e).
Proof.
  intros He. unfold binary_round, shl_align.
  destruct (fexp (Z.pos (digits2_pos m) + e) - e) as [|p|p] eqn:Hn;
    apply binary_round_aux_pos; try assumption.
  unfold SpecFloat.fexp. lia.
Qed.

Lemma binary_round_aux_neg m e l :
  SFltb Float.zero (binary_round_aux prec emax true m e l) = false.
Proof.
  unfold binary_round_aux.
  destruct (shr_fexp prec emax m e l) as [mrs1 e1].
  destruct (shr_fexp prec emax _ e1 loc_Exact) as [mrs2 e2].
  destruct (shr_m mrs2); try reflexivity.
  destruct (e2 <=? emax - prec); reflexivity.
Qed.

Lemma binary_round_neg m e :
  SFltb Float.zero (binary_round prec emax true m e) = false.
Proof.
  unfold binary_round.
  destruct (shl_align m e _) as [mz ez]. apply binary_round_aux_neg.
Qed.

Lemma nonzero_result_gt r : nonzero_result false r -> SFltb Float.zero r = true.
Proof. intros [-> | (m & e & ->)]; reflexivity. Qed.

(** The mantissa of a finite number, scaled to a smaller exponent. *)
Lemma shl_align_value (m : positive) (e ez : Z) :
  ez <= e -> Z.pos (shl_align m e ez).1 = Z.pos m * 2 ^ (e - ez).
Proof.
  intros H. unfold shl_align.
  destruct (ez - e) as [|d|d] eqn:Hd; simpl.
  - replace (e - ez) with 0 by lia. lia.
  - lia.
  - change (Pos.iter xO m d) with (shift_pos d m).
    rewrite shift_pos_correct, Z.pow_pos_fold.
    replace (e - ez) with (Z.pos d) by lia. lia.
Qed.

(** Validity of a finite number, spelled out. *)
Lemma valid_finite s m e :
  Float.valid (S754_finite s m e) = true ->
  emin <= e /\ Z.pos (digits2_pos m) <= prec /\
  (emin < e -> Z.pos (digits2_pos m) = prec).
Proof.
  unfold Float.valid, valid_binary, bounded, canonical_mantissa.
  intros [Hc _]%andb_prop. apply Z.eqb_eq in Hc.
  unfold SpecFloat.fexp, SpecFloat.emin in *. lia.
Qed.

(** Among valid numbers the one with the smaller exponent is the
    smaller. *)
Lemma canonical_lt s1 m1 e1 s2 m2 e2 :
  Float.valid (S754_finite s1 m1 e1) = true ->
  Float.valid (S754_finite s2 m2 e2) = true ->
  e1 < e2 ->
  Z.pos m1 < Z.pos m2 * 2 ^ (e2 - e1).
Proof.
  intros (He1 & Hd1 & _)%valid_finite (He2 & _ & Hd2)%valid_finite Hlt.
  specialize (Hd2 ltac:(lia)).
  pose proof (digits2_pos_bounds m1) as [_ Hhi].
  pose proof (digits2_pos_bounds m2) as [Hlo _].
  rewrite Hd2 in Hlo.
  assert (H1 : 2 ^ Z.pos (digits2_pos m1) <= 2 ^ prec).
  { apply Z.pow_le_mono_r; lia. }
  assert (H2 : 2 ^ 1 <= 2 ^ (e2 - e1)).
  { apply Z.pow_le_mono_r; lia. }
  change (2 ^ prec) with (2 ^ (prec - 1) * 2 ^ 1) in H1.
  nia.
Qed.

(** Comparing two valid finite numbers is comparing their mantissas
    scaled to the smaller exponent. *)
Lemma SFcompare_aligned s1 m1 e1 s2 m2 e2 :
  let x := S754_finite s1 m1 e1 in
  let y := S754_finite s2 m2 e2 in
  Float.valid x = true -> Float.valid y = true ->
  SFcompare x y = Some (aligned x (Z.min e1 e2) ?= aligned y (Z.min e1 e2)).
Proof.
  intros x y Hx Hy. subst x y. unfold aligned.
  rewrite !shl_align_value by lia.
  assert (P1 : 0 < Z.pos m1 * 2 ^ (e1 - Z.min e1 e2)).
  { apply Z.mul_pos_pos; [lia|]. apply Z.pow_pos_nonneg; lia. }
  assert (P2 : 0 < Z.pos m2 * 2 ^ (e2 - Z.min e1 e2)).
  { apply Z.mul_pos_pos; [lia|]. apply Z.pow_pos_nonneg; lia. }
  assert (Hcmp : (match e1 ?= e2 with
                  | Eq => Pos.compare_cont Eq m1 m2
                  | Lt => Lt
                  | Gt => Gt
                  end) =
                 (Z.pos m1 * 2 ^ (e1 - Z.min e1 e2)
                  ?= Z.pos m2 * 2 ^ (e2 - Z.min e1 e2))).
  { destruct (Z.compare_spec e1 e2) as [Heq | Hlt | Hgt].
    - subst e2. rewrite Z.min_id, Z.sub_diag. simpl Z.pow.
      rewrite !Z.mul_1_r. reflexivity.
    - pose proof (canonical_lt _ _ _ _ _ _ Hx Hy Hlt) as H.
      rewrite Z.min_l, Z.sub_diag by lia. simpl (2 ^ 0). rewrite Z.mul_1_r.
      symmetry. apply Z.compare_lt_iff. exact H.
    - pose proof (canonical_lt _ _ _ _ _ _ Hy Hx Hgt) as H.
      rewrite Z.min_r, Z.sub_diag by lia. simpl (2 ^ 0). rewrite Z.mul_1_r.
      symmetry. apply Z.compare_gt_iff. exact H. }
  destruct s1, s2; simpl SFcompare; simpl cond_Zopp; f_equal.
  - rewrite Z.compare_opp,
      (Z.compare_antisym (Z.pos m1 * _) (Z.pos m2 * _)), <- Hcmp.
    destruct (e1 ?= e2); reflexivity.
  - symmetry. apply Z.compare_lt_iff. lia.
  - symmetry. apply Z.compare_gt_iff. lia.
  - exact Hcmp.
Qed.

Lemma sub_finite_sign s1 m1 e1 s2 m2 e2 :
  let x := S754_finite s1 m1 e1 in
  let y := S754_finite s2 m2 e2 in
  Float.valid x = true -> Float.valid y = true ->
  SFltb Float.zero (Float.sub x y) =
    match SFcompare y x with Some Lt => true | _ => false end.
Proof.
  intros x y Hx Hy.
  pose proof (SFcompare_aligned _ _ _ _ _ _ Hy Hx) as Hcmp.
  fold x y in Hcmp. rewrite Hcmp, (Z.min_comm e2 e1). clear Hcmp.
  apply valid_finite in Hx as (He1 & _), Hy as (He2 & _).
  subst x y. unfold Float.sub, SFsub, aligned, binary_normalize.
  set (ez := Z.min e1 e2).
  set (a := cond_Zopp s1 (Z.pos (shl_align m1 e1 ez).1)).
  set (b := cond_Zopp s2 (Z.pos (shl_align m2 e2 ez).1)).
  destruct (Z.compare_spec b a) as [Heq | Hlt | Hgt].
  - replace (a - b) with 0 by lia. reflexivity.
  - destruct (a - b) as [|p|p] eqn:Hd; try lia.
    apply nonzero_result_gt, binary_round_pos. lia.
  - destruct (a - b) as [|p|p] eqn:Hd; try lia.
    apply binary_round_neg.
Qed.

(** A valid number minus a smaller valid number is positive: the
    difference is not rounded to zero. *)
Lemma sub_positive (x y : spec_float) :
  Float.valid x = true -> Float.valid y = true ->
  Float.ltb y x = true -> Float.ltb Float.zero (Float.sub x y) = true.
Proof.
  intros Hx Hy Hlt. unfold Float.ltb in *.
  destruct x as [sx|sx| |sx mx ex], y as [sy|sy| |sy my ey];
    try (rewrite sub_finite_sign by assumption; exact Hlt);
    try destruct sx; try destruct sy; try discriminate; reflexivity.
Qed.

(** A valid number minus one that is not smaller is not positive. *)
Lemma sub_not_positive (x y : spec_float) :
  Float.valid x = true -> Float.valid y = true ->
  Float.leb x y = true -> Float.ltb Float.zero (Float.sub x y) = false.
Proof.
  intros Hx Hy Hle. unfold Float.ltb, Float.leb in *.
  destruct x as [sx|sx| |sx mx ex], y as [sy|sy| |sy my ey];
    try (rewrite sub_finite_sign by assumption;
         pose proof (SFcompare_aligned _ _ _ _ _ _ Hx Hy) as H1;
         pose proof (SFcompare_aligned _ _ _ _ _ _ Hy Hx) as H2;
         unfold SFleb in Hle; rewrite H1 in Hle; rewrite H2;
         rewrite (Z.min_comm ey ex), Z.compare_antisym;
         destruct (_ ?= _); simpl; (discriminate || reflexivity));
    try destruct sx; try destruct sy; try discriminate; reflexivity.
Qed.
Lemma digits2_pos_unique (m : positive) (k : Z) :
  2 ^ (k - 1) <= Z.pos m < 2 ^ k -> Z.pos (digits2_pos m) = k.
Proof.
  intros [Hlo Hhi]. pose proof (digits2_pos_bounds m) as [Dlo Dhi].
  set (d := Z.pos (digits2_pos m)) in *.
  destruct (Z.lt_trichotomy d k) as [Hlt | [Heq | Hgt]]; [exfalso|assumption|exfalso].
  - assert (2 ^ d <= 2 ^ (k - 1)) by (apply Z.pow_le_mono_r; lia). lia.
  - assert (0 <= k).
    { destruct (Z.le_gt_cases 0 k) as [|Hneg]; [assumption|].
      rewrite (Z.pow_neg_r 2 k) in Hhi by assumption. lia. }
    assert (2 ^ k <= 2 ^ (d - 1)) by (apply Z.pow_le_mono_r; lia). lia.
Qed.

Lemma digits2_pos_mono (m1 m2 : positive) :
  (m1 <= m2)%positive -> Z.pos (digits2_pos m1) <= Z.pos (digits2_pos m2).
Proof.
  intros Hle.
  pose proof (digits2_pos_bounds m1) as [Lo1 _].
  pose proof (digits2_pos_bounds m2) as [_ Hi2].
  destruct (Z.le_gt_cases (Z.pos (digits2_pos m1)) (Z.pos (digits2_pos m2)))
    as [|Hgt]; [assumption|exfalso].
  assert (2 ^ Z.pos (digits2_pos m2) <= 2 ^ (Z.pos (digits2_pos m1) - 1))
    by (apply Z.pow_le_mono_r; lia).
  lia.
Qed.

(** Shifting down to the format exponent yields a canonical mantissa. *)
Lemma shr_fexp_canonical (m : positive) (e : Z) (l : location) :
  emin <= e <= fexp (Z.pos (digits2_pos m) + e) ->
  exists q,
    shr_m (shr_fexp prec emax (Z.pos m) e l).1 = Z.pos q /\
    canonical_mantissa prec emax q (shr_fexp prec emax (Z.pos m) e l).2 = true.
Proof.
  intros [He Hf]. unfold shr_fexp, shr, canonical_mantissa. simpl Zdigits2.
  destruct (fexp (Z.pos (digits2_pos m) + e) - e) as [|p|p] eqn:Hn; simpl;
    rewrite ?shr_record_of_loc_m; try lia.
  - exists m. split; [reflexivity|]. apply Z.eqb_eq. lia.
  - rewrite iter_shr_1_m by (rewrite shr_record_of_loc_m; lia).
    rewrite shr_record_of_loc_m.
    assert (Hp : Z.pos p = Z.pos (digits2_pos m) - prec).
    { unfold SpecFloat.fexp in Hn. unfold SpecFloat.emin in *. lia. }
    pose proof (digits2_pos_bounds m) as [Hlo Hhi].
    assert (P : 0 < 2 ^ Z.pos p) by (apply Z.pow_pos_nonneg; lia).
    assert (Hlo' : 2 ^ (prec - 1) <= Z.pos m / 2 ^ Z.pos p).
    { apply Z.div_le_lower_bound; [assumption|].
      rewrite Z.mul_comm, <- Z.pow_add_r by (unfold Float.prec; lia).
      replace (prec - 1 + Z.pos p) with (Z.pos (digits2_pos m) - 1) by lia.
      assumption. }
    assert (Hhi' : Z.pos m / 2 ^ Z.pos p < 2 ^ prec).
    { apply Z.div_lt_upper_bound; [assumption|].
      rewrite <- Z.pow_add_r by (unfold Float.prec; lia).
      replace (Z.pos p + prec) with (Z.pos (digits2_pos m)) by lia.
      assumption. }
    assert (Hpos : 0 < 2 ^ (prec - 1)) by (apply Z.pow_pos_nonneg; unfold Float.prec; lia).
    destruct (Z.pos m / 2 ^ Z.pos p) as [|q|q] eqn:Hq; try lia.
    exists q. split; [reflexivity|].
    rewrite (digits2_pos_unique q prec) by lia.
    apply Z.eqb_eq. unfold SpecFloat.fexp, SpecFloat.emin in *. lia.
Qed.

Lemma round_nearest_even_cases m l :
  round_nearest_even m l = m \/ round_nearest_even m l = m + 1.
Proof.
  destruct l as [|[]]; simpl; auto. destruct (Z.even m); auto.
Qed.

Lemma canonical_fexp q e :
  canonical_mantissa prec emax q e = true ->
  emin <= e /\ fexp (Z.pos (digits2_pos q) + e) = e.
Proof.
  unfold canonical_mantissa. intros H%Z.eqb_eq. split; [|assumption].
  unfold SpecFloat.fexp, SpecFloat.emin in *. lia.
Qed.

Lemma fexp_mono a b : a <= b -> fexp a <= fexp b.
Proof. unfold SpecFloat.fexp. lia. Qed.

Lemma binary_round_aux_valid sx (m : positive) e l :
  emin <= e <= fexp (Z.pos (digits2_pos m) + e) ->
  Float.valid (binary_round_aux prec emax sx (Z.pos m) e l) = true.
Proof.
  intros He. unfold binary_round_aux.
  destruct (shr_fexp_canonical m e l He) as (q1 & Hm1 & Hc1).
  destruct (shr_fexp prec emax (Z.pos m) e l) as [mrs1 e1]. simpl in Hm1, Hc1.
  rewrite Hm1.
  apply canonical_fexp in Hc1 as [He1 Hf1].
  assert (Hq2 : exists q2, round_nearest_even (Z.pos q1) (loc_of_shr_record mrs1)
                           = Z.pos q2 /\ (q1 <= q2)%positive).
  { destruct (round_nearest_even_cases (Z.pos q1) (loc_of_shr_record mrs1))
      as [-> | ->].
    - exists q1. split; [reflexivity|lia].
    - exists (q1 + 1)%positive. split; [reflexivity|lia]. }
  destruct Hq2 as (q2 & -> & Hle).
  assert (He2 : emin <= e1 <= fexp (Z.pos (digits2_pos q2) + e1)).
  { split; [assumption|]. rewrite <- Hf1 at 1. apply fexp_mono.
    pose proof (digits2_pos_mono q1 q2 Hle). lia. }
  destruct (shr_fexp_canonical q2 e1 loc_Exact He2) as (q3 & Hm3 & Hc3).
  destruct (shr_fexp prec emax (Z.pos q2) e1 loc_Exact) as [mrs3 e3].
  simpl in Hm3, Hc3. rewrite Hm3.
  destruct (e3 <=? emax - prec) eqn:Hb; [|reflexivity].
  unfold Float.valid, valid_binary, bounded. rewrite Hc3, Hb. reflexivity.
Qed.

Lemma binary_round_valid sx (m : positive) e :
  emin <= e -> Float.valid (binary_round prec emax sx m e) = true.
Proof.
  intros He. unfold binary_round.
  pose proof (shl_align_value m e (fexp (Z.pos (digits2_pos m) + e))) as Hv.
  unfold shl_align in *.
  destruct (fexp (Z.pos (digits2_pos m) + e) - e) as [|p|p] eqn:Hn;
    simpl in *; apply binary_round_aux_valid; try lia.
  split; [unfold SpecFloat.fexp; lia|].
  specialize (Hv ltac:(lia)).
  pose proof (digits2_pos_bounds m) as [Hlo Hhi].
  set (k := e - fexp (Z.pos (digits2_pos m) + e)) in *.
  assert (Hk : 0 < k) by lia.
  assert (P : 0 < 2 ^ k) by (apply Z.pow_pos_nonneg; lia).
  rewrite (digits2_pos_unique (Pos.iter xO m p) (Z.pos (digits2_pos m) + k)).
  - replace (Z.pos (digits2_pos m) + k + fexp (Z.pos (digits2_pos m) + e))
      with (Z.pos (digits2_pos m) + e) by lia.
    lia.
  - rewrite Hv. split.
    + replace (Z.pos (digits2_pos m) + k - 1)
        with (Z.pos (digits2_pos m) - 1 + k) by lia.
      rewrite Z.pow_add_r by lia. nia.
    + rewrite Z.pow_add_r by lia. nia.
Qed.

(** The difference of two valid numbers is a valid number. *)
Lemma sub_valid (x y : spec_float) :
  Float.valid x = true -> Float.valid y = true ->
  Float.valid (Float.sub x y) = true.
Proof.
  intros Hx Hy.
  destruct x as [sx|sx| |sx mx ex], y as [sy|sy| |sy my ey];
    try (destruct sx, sy; reflexivity); try assumption; try reflexivity.
  pose proof (valid_finite _ _ _ Hx) as (He1 & _).
  pose proof (valid_finite _ _ _ Hy) as (He2 & _).
  unfold Float.sub, SFsub, binary_normalize.
  destruct (_ - _) as [|p|p]; [reflexivity| |];
    apply binary_round_valid; lia.
Qed.

End Binary64.

(** ** The supervisor (lines 57-72) *)

Section Supervisor.

Variable module : Module.
Variable env : Env.

(** [stop] always returns; it leaves the handle as it was. *)
Lemma stop_consumer_background_returns st :
  exists st' t,
    stop_consumer_background env st = (Ok tt, st', t) /\
    consumer_process st' = consumer_process st /\
    forallb is_supervisor t = true.
Proof.
  unfold stop_consumer_background, poll, wait, send_signal_SIGTERM, print,
    emit, bind, get, put, ret.
  destruct (consumer_process st) as [p|] eqn:Hc; simpl.
  - destruct (procs st !! p) as [[|rc]|] eqn:Hp; simpl.
    + destruct (died env p) as [rc|]; simpl; eauto 10.
    + eauto 10.
    + eauto 10.
  - eauto 10.
Qed.

Lemma stop_untracked st :
  consumer_process st = None ->
  stop_consumer_background env st = (Ok tt, st, []).
Proof.
  intros H. unfold stop_consumer_background, bind, get, ret. simpl.
  rewrite H. reflexivity.
Qed.

Lemma stop_exited st p :
  consumer_process st = Some p -> is_running st p = false ->
  stop_consumer_background env st = (Ok tt, st, []).
Proof.
  intros H Hr. unfold stop_consumer_background, poll, bind, get, ret. simpl.
  rewrite H. unfold is_running in Hr.
  destruct (procs st !! p) as [[|rc]|] eqn:Hp; simpl;
    try discriminate; reflexivity.
Qed.

(** A tracked child that is running is stopped: found dead and reaped,
    or signalled and awaited. *)
Lemma stop_running st p :
  consumer_process st = Some p -> procs st !! p = Some Running ->
  exists rc t,
    stop_consumer_background env st = (Ok tt, set_proc p (Exited rc) st, t).
Proof.
  intros Hc Hp.
  unfold stop_consumer_background, poll, wait, send_signal_SIGTERM, print,
    emit, bind, get, put, ret.
  rewrite Hc; simpl. rewrite Hp.
  destruct (died env p) as [rc|]; simpl; eauto.
Qed.

Lemma start_consumer_background_ok st :
  open_log env = None -> popen env = None ->
  start_consumer_background module env st =
    (Ok tt,
     {| consumer_process := Some (next_pid st);
        procs := <[next_pid st := Running]> (procs st);
        next_pid := S (next_pid st) |},
     [EvOpenAppend (CONSUMER_LOG module); EvPrint MsgStartingConsumer;
      EvPopen (next_pid st)]).
Proof.
  intros Ho Hp.
  unfold start_consumer_background, Popen, external, print, emit, bind, get,
    put, ret.
  rewrite Ho, Hp. reflexivity.
Qed.

(** [start] either tracks a fresh running child or raises and leaves the
    state alone. *)
Lemma start_consumer_background_cases st :
  (open_log env = None /\ popen env = None) \/
  (exists e t,
     start_consumer_background module env st = (Raise e, st, t) /\
     (open_log env = Some e \/ popen env = Some e) /\
     t = firstn (length t)
           [EvOpenAppend (CONSUMER_LOG module); EvPrint MsgStartingConsumer]).
Proof.
  unfold start_consumer_background, Popen, external, print, emit, bind, get,
    put, ret, raise.
  destruct (open_log env) as [e|] eqn:Ho.
  - right. exists e. eexists. simpl. split; [reflexivity|]. split; [auto|].
    reflexivity.
  - destruct (popen env) as [e|] eqn:Hp.
    + right. exists e. eexists. simpl. split; [reflexivity|]. split; [auto|].
      reflexivity.
    + left. auto.
Qed.

End Supervisor.

(** C8 (as stated, refuted): after [start()] then [stop()] from the state
    right after import, the handle is still tracked; it is not reset to
    [None]. *)
Lemma C8_handle_still_tracked :
  consumer_process
    (state_of ((start_consumer_background bare_module quiet_env ;;
                stop_consumer_background quiet_env) initial_state))
  <> None.
Proof. vm_compute. discriminate. Qed.

(** C8 (amended): when the consumer can be started, [start()] followed by
    [stop()] returns normally; the handle of the new child stays tracked
    and that child is no longer running.  [stop()] with no handle tracked,
    or with a tracked child that has exited, changes nothing, has no
    effect and does not raise. *)
Theorem C8_start_then_stop (module : Module) (env : Env) (st : State) :
  open_log env = None -> popen env = None ->
  let r := (start_consumer_background module env ;;
            stop_consumer_background env) st in
  result_of r = Ok tt /\
  consumer_process (state_of r) = Some (next_pid st) /\
  is_running (state_of r) (next_pid st) = false /\
  (forall env' st',
     consumer_process st' = None \/
     (exists p, consumer_process st' = Some p /\ is_running st' p = false) ->
     stop_consumer_background env' st' = (Ok tt, st', [])).
Proof.
  intros Ho Hp r. subst r.
  set (st1 := {| consumer_process := Some (next_pid st);
                 procs := <[next_pid st := Running]> (procs st);
                 next_pid := S (next_pid st) |}).
  destruct (stop_running env st1 (next_pid st)) as (rc & t & Hstop).
  { reflexivity. }
  { simpl. apply lookup_insert_eq. }
  rewrite (bind_Ok _ _ _ _ _ _ _ _ _
             (start_consumer_background_ok module env st Ho Hp) Hstop).
  unfold result_of, state_of, is_running. simpl.
  repeat apply conj; try reflexivity.
  - rewrite lookup_insert_eq. reflexivity.
  - intros env' st' [Hn | (p & Hc & Hr)].
    + apply stop_untracked, Hn.
    + eapply stop_exited; eauto.
Qed.

Lemma C8_start_then_stop_witness :
  let r := (start_consumer_background bare_module quiet_env ;;
            stop_consumer_background quiet_env) initial_state in
  result_of r = Ok tt /\
  consumer_process (state_of r) = Some 0%nat /\
  is_running (state_of r) 0%nat = false /\
  stop_consumer_background quiet_env initial_state = (Ok tt, initial_state, []).
Proof.
  destruct (C8_start_then_stop bare_module quiet_env initial_state
              eq_refl eq_refl) as (H1 & H2 & H3 & H4).
  repeat apply conj; try assumption.
  apply H4. left. reflexivity.
Defined.

(** ** Configuration (lines 12-25) *)

(** C9 (as stated, refuted): the threshold and the interval are not read
    from the environment.  With both set, in the process environment and
    in the [.env] file, the module still holds 0.30 and 300. *)
Lemma C9_threshold_interval_not_read :
  let settings : gmap string string :=
    {[ "RETRAIN_THRESHOLD" := "0.5"; "CHECK_INTERVAL_SECONDS" := "60";
       "threshold" := "0.5"; "interval" := "60" ]} in
  RETRAIN_THRESHOLD (module_toplevel (Some settings) settings) = literal_0_30 /\
  CHECK_INTERVAL_SECONDS (module_toplevel (Some settings) settings) = 300.
Proof. split; reflexivity. Qed.

Lemma load_dotenv_lookup dotenv environ key :
  load_dotenv dotenv environ !! key =
    match environ !! key with
    | Some v => Some v
    | None => file ← dotenv; file !! key
    end.
Proof.
  destruct dotenv as [file|]; simpl.
  - rewrite lookup_union. destruct (environ !! key), (file !! key); reflexivity.
  - destruct (environ !! key); reflexivity.
Qed.

(** C9 (amended): the drift threshold and the cycle interval are the
    constants 0.30 (the double nearest to 30/100) and 300 whatever the
    environment holds; the mail user, password and recipient are read at
    import from the process environment, which takes precedence over the
    [.env] file, and are unset when neither defines them. *)
Theorem C9_configuration (dotenv : option (gmap string string))
    (environ : gmap string string) :
  let m := module_toplevel dotenv environ in
  let setting key :=
    match environ !! key with
    | Some v => Some v
    | None => file ← dotenv; file !! key
    end in
  RETRAIN_THRESHOLD m = literal_0_30 /\
  Float.div (Float.exact_int 30) (Float.exact_int 100) = literal_0_30 /\
  CHECK_INTERVAL_SECONDS m = 300 /\
  EMAIL_USER m = setting "EMAIL_USER" /\
  EMAIL_PASS m = setting "EMAIL_PASS" /\
  TO_EMAIL m = setting "TO_EMAIL".
Proof.
  repeat apply conj; try reflexivity; apply load_dotenv_lookup.
Qed.

(** ** One cycle (lines 74-117) *)

(** Two runs of the model: 30 flagged rows out of 100 end after the three
    lines of the evaluation; a failing second step ends the cycle with the
    report of lines 114-115. *)
Example cycle_30_of_100 :
  events_of (evaluate_model bare_module
               (sample_env 30 (Ok {| nrows := 100; ncols := 12 |})
                  (fun _ => None))
               initial_state) =
    [EvExists "modules/fraud_cases_for_llm.csv";
     EvReadCsv "modules/fraud_cases_for_llm.csv";
     EvReadCsv "modules/non_fraud_transactions.csv";
     EvPrint (MsgTotal 100); EvPrint (MsgFrauds 30);
     EvPrint (MsgRate literal_0_30)].
Proof. reflexivity. Qed.

Example cycle_failing_step :
  run_monitoring_cycle bare_module (failing_env "python3 modules/combine.py")
    initial_state =
    (Ok tt,
     {| consumer_process := Some 0%nat;
        procs := {[ 0%nat := Running ]};
        next_pid := 1 |},
     [EvPrint MsgStartingRun;
      EvPrint (MsgStep "Generating data"); EvRun "python3 modules/datagen.py";
      EvOpenAppend "logs/consumer.log"; EvPrint MsgStartingConsumer; EvPopen 0;
      EvPrint (MsgStep "Merging parquet files");
      EvRun "python3 modules/combine.py";
      EvPrint (MsgStepFailed
                 (CalledProcessError 1 "python3 modules/combine.py"))]).
Proof. reflexivity. Qed.

(** The second pass of the loop stops the consumer the first one left
    behind. *)
Example main_two_passes :
  filter (fun ev => is_supervisor ev = true \/ is_cycle_start ev = true)
    (events_of (main bare_module
                  [failing_env "python3 modules/combine.py"; quiet_env]
                  initial_state)) =
    [EvPrint MsgStartingRun; EvPrint MsgStartingRun;
     EvPrint MsgStoppingConsumer; EvSignalTerm 0; EvWait 0].
Proof. vm_compute. reflexivity. Qed.

Lemma supervisor_is_pipeline ev : is_supervisor ev = true -> is_pipeline ev = true.
Proof.
  destruct ev as [[]| | | | | | | | | |]; simpl; intros H;
    try discriminate; reflexivity.
Qed.

Lemma supervisor_runs t : forallb is_supervisor t = true -> runs t = [].
Proof.
  unfold runs. induction t as [|ev t IH]; simpl; [reflexivity|].
  intros [Hev Ht]%andb_prop.
  destruct ev as [[]| | | | | | | | | |]; simpl in *;
    try discriminate; apply IH, Ht.
Qed.

Lemma pipeline_command_not_retrain c :
  existsb (String.eqb c) pipeline_commands = true ->
  String.eqb c retrain_command = false.
Proof.
  intros (x & Hin & Heq)%existsb_exists. apply String.eqb_eq in Heq. subst x.
  unfold pipeline_commands in Hin. simpl in Hin.
  repeat (destruct Hin as [<- | Hin]; [reflexivity|]). contradiction.
Qed.

Lemma pipeline_commands_NoDup : NoDup pipeline_commands.
Proof. apply (bool_decide_unpack _). vm_compute. reflexivity. Qed.

Lemma runs_elem c t : EvRun c ∈ t <-> c ∈ runs t.
Proof.
  unfold runs. rewrite list_elem_of_omap. split.
  - intros H. exists (EvRun c). auto.
  - intros (ev & Hin & Hev). destruct ev; try discriminate.
    injection Hev as ->. assumption.
Qed.

Lemma runs_cycle t r : runs (EvPrint MsgStartingRun :: t ++ report r) = runs t.
Proof.
  unfold runs. simpl. rewrite omap_app.
  destruct r as [|[]]; simpl; apply app_nil_r.
Qed.

Lemma lookup_take_elem (l : list string) n c :
  c ∈ take n l -> exists j, (j < n)%nat /\ l !! j = Some c.
Proof.
  intros (j & Hj)%list_elem_of_lookup_1.
  apply lookup_take_Some in Hj as [Hj Hlt]. eauto.
Qed.

(** Events of the pipeline are none of the reactions. *)
Lemma pipeline_not (p : Event -> bool) ev :
  p ∈ [is_alert; is_retrain; is_evaluation; is_failure_report; is_cycle_start;
       is_sent_message] ->
  is_pipeline ev = true -> p ev = false.
Proof.
  intros Hp Hev.
  repeat (apply elem_of_cons in Hp as [-> | Hp];
          [destruct ev as [[]| | | | | | | | | |]; simpl in *;
           solve [ discriminate | reflexivity
                 | apply pipeline_command_not_retrain, Hev ] |]).
  inversion Hp.
Qed.

Lemma count_pipeline (p : Event -> bool) pre :
  p ∈ [is_alert; is_retrain; is_evaluation; is_failure_report; is_cycle_start;
       is_sent_message] ->
  forallb is_pipeline pre = true -> count p pre = 0%nat.
Proof.
  intros Hp Hpre. apply count_none.
  eapply forallb_weaken, Hpre. intros ev Hev.
  rewrite (pipeline_not p ev Hp Hev). reflexivity.
Qed.

Lemma mail_not (p : Event -> bool) ev :
  p ∈ [is_alert; is_retrain; is_evaluation; is_failure_report; is_cycle_start] ->
  is_mail ev = true -> p ev = false.
Proof.
  intros Hp Hev.
  repeat (apply elem_of_cons in Hp as [-> | Hp];
          [destruct ev as [[]| | | | | | | |[]| |]; simpl in *;
           solve [ discriminate | reflexivity ] |]).
  inversion Hp.
Qed.

Lemma count_mail (p : Event -> bool) mail :
  p ∈ [is_alert; is_retrain; is_evaluation; is_failure_report; is_cycle_start] ->
  forallb is_mail mail = true -> count p mail = 0%nat.
Proof.
  intros Hp Hmail. apply count_none.
  eapply forallb_weaken, Hmail. intros ev Hev.
  rewrite (mail_not p ev Hp Hev). reflexivity.
Qed.

(** The verdict is read off the lines of the evaluation only. *)
Lemma printed_silent m t :
  (forall x, m x = true -> is_evaluation (EvPrint x) = true) ->
  forallb (fun ev => negb (is_evaluation ev)) t = true ->
  printed m t = false.
Proof.
  intros Hm. unfold printed. induction t as [|ev t IH]; simpl; [reflexivity|].
  intros [Hev Ht]%andb_prop. rewrite (IH Ht), orb_false_r.
  destruct ev as [x| | | | | | | | | |]; try reflexivity.
  destruct (m x) eqn:E; [|reflexivity].
  rewrite (Hm x E) in Hev. discriminate.
Qed.

Lemma verdict_frame pre t post :
  forallb (fun ev => negb (is_evaluation ev)) pre = true ->
  forallb (fun ev => negb (is_evaluation ev)) post = true ->
  verdict (pre ++ t ++ post) = verdict t.
Proof.
  intros Hpre Hpost. unfold verdict.
  rewrite !printed_app.
  rewrite !(printed_silent _ pre), !(printed_silent _ post); try assumption;
    try (intros []; simpl; intros; (discriminate || reflexivity)).
  rewrite !orb_false_r. reflexivity.
Qed.

Lemma verdict_silent t :
  forallb (fun ev => negb (is_evaluation ev)) t = true -> verdict t = None.
Proof.
  intros Ht. unfold verdict.
  rewrite !(printed_silent _ t); try assumption; try reflexivity;
    intros []; simpl; intros; (discriminate || reflexivity).
Qed.

Lemma report_silent r :
  forallb (fun ev => negb (is_evaluation ev)) (report r) = true.
Proof. destruct r as [|[]]; reflexivity. Qed.

Lemma pipeline_silent pre :
  forallb is_pipeline pre = true ->
  forallb (fun ev => negb (is_evaluation ev)) pre = true.
Proof.
  apply forallb_weaken. intros ev Hev.
  rewrite (pipeline_not is_evaluation ev);
    [reflexivity|repeat constructor|assumption].
Qed.

(** The verdict of a cycle is that of its evaluation. *)
Lemma verdict_cycle pre t r :
  forallb is_pipeline pre = true ->
  verdict (EvPrint MsgStartingRun :: (pre ++ t) ++ report r) = verdict t.
Proof.
  intros Hpre. rewrite <- app_assoc.
  change (EvPrint MsgStartingRun :: pre ++ t ++ report r)
    with ((EvPrint MsgStartingRun :: pre) ++ t ++ report r).
  apply verdict_frame; [|apply report_silent].
  simpl. apply pipeline_silent, Hpre.
Qed.

Lemma verdict_aborted pre r :
  forallb is_pipeline pre = true ->
  verdict (EvPrint MsgStartingRun :: pre ++ report r) = None.
Proof.
  intros Hpre. apply verdict_silent. simpl.
  rewrite forallb_app, (pipeline_silent pre Hpre), report_silent. reflexivity.
Qed.

Lemma count_cycle p pre t r :
  p ∈ [is_alert; is_retrain; is_evaluation; is_sent_message] ->
  forallb is_pipeline pre = true ->
  count p (EvPrint MsgStartingRun :: (pre ++ t) ++ report r) = count p t.
Proof.
  intros Hp Hpre. rewrite count_cons, !count_app.
  repeat (apply elem_of_cons in Hp as [-> | Hp];
          [rewrite (count_pipeline _ pre) by (assumption || (repeat constructor));
           destruct r as [|[]]; simpl; rewrite ?count_cons, ?count_nil;
           simpl; lia|]).
  inversion Hp.
Qed.

Lemma count_cycle_reports pre t r :
  forallb is_pipeline pre = true ->
  count is_failure_report (EvPrint MsgStartingRun :: (pre ++ t) ++ report r) =
    (count is_failure_report t + length (report r))%nat.
Proof.
  intros Hpre. rewrite count_cons, !count_app.
  rewrite (count_pipeline _ pre) by (assumption || (repeat constructor)).
  destruct r as [|[]]; simpl; rewrite ?count_cons, ?count_nil; simpl; lia.
Qed.

Lemma last_cycle t e :
  last (EvPrint MsgStartingRun :: t ++ report (Raise e)) =
    Some (failure_report e).
Proof.
  change (EvPrint MsgStartingRun :: t ++ ?r)
    with ((EvPrint MsgStartingRun :: t) ++ r).
  apply last_snoc.
Qed.

Lemma int_truediv_Ok a b q :
  int_truediv a b = Ok q ->
  b <> 0 /\ q = Float.div (Float.exact_int a) (Float.exact_int b).
Proof.
  unfold int_truediv. destruct (Z.eqb_spec b 0); [discriminate|].
  destruct (Float.is_infinite _); [discriminate|].
  intros [= <-]. auto.
Qed.

Lemma time_sleep_max0 d st :
  time_sleep (max0 d) st = (Ok tt, st, [EvSleep (max0 d)]).
Proof.
  unfold max0, time_sleep, Float.ltb, Float.zero.
  destruct d as [[]|[]| |[] m e]; reflexivity.
Qed.

Section Cycle.

Variable module : Module.
Variable env : Env.

Lemma run_pipeline_step_ok label c st :
  exit_status env c = 0 ->
  run_pipeline_step env label c st =
    (Ok tt, st, [EvPrint (MsgStep label); EvRun c]).
Proof.
  intros H. unfold run_pipeline_step, print, emit, bind, ret. simpl.
  rewrite H. reflexivity.
Qed.

Lemma run_pipeline_step_failed label c st :
  exit_status env c <> 0 ->
  run_pipeline_step env label c st =
    (Raise (CalledProcessError (exit_status env c) c), st,
     [EvPrint (MsgStep label); EvRun c]).
Proof.
  intros H. unfold run_pipeline_step, print, emit, bind, ret, raise. simpl.
  destruct (Z.eqb_spec (exit_status env c) 0); [contradiction|reflexivity].
Qed.

(** The dispatcher never raises and leaves the state alone: it opens the
    session once, and whatever the transport answers ends in one of its
    two [print]s. *)
Lemma send_alert_email_returns ratio st :
  exists mail,
    send_alert_email module env ratio st =
      (Ok tt, st,
       EvSmtp (Connect (SMTP_SERVER module) (SMTP_PORT module)) :: mail) /\
    forallb is_mail mail = true /\
    (count is_sent_message mail <= 1)%nat /\
    ((forall c, smtp env c = None) -> count is_sent_message mail = 1%nat).
Proof.
  unfold send_alert_email, try_except, with_exit, external, print, emit,
    bind, ret, raise.
  destruct (smtp env (Connect _ _)) eqn:Hc; simpl.
  { eexists; split; [reflexivity|]. repeat apply conj; try (cbv; lia).
    intros Hall. rewrite Hall in Hc. discriminate. }
  destruct (smtp env StartTls) eqn:H1; simpl;
  [| destruct (smtp env (Login _ _)) eqn:H2; simpl;
     [| destruct (smtp env (SendMessage _)) eqn:H3; simpl ] ];
  destruct (smtp env Quit) eqn:H4; simpl;
  (eexists; split; [reflexivity|]; repeat apply conj; try (cbv; lia);
   intros Hall; rewrite ?Hall in *; try discriminate; try reflexivity).
Qed.

Lemma evaluate_model_spec st :
  exists r t,
    evaluate_model module env st = (r, st, t) /\ Evaluation module env r t.
Proof.
  unfold evaluate_model, exists_, pd_read_csv, lift, print, emit, bind, ret.
  destruct (path_exists env (FRAUD_OUTPUT module)) eqn:Hex; simpl.
  2:{ eexists _, _; split; [reflexivity|]. now apply eval_no_output. }
  destruct (read_csv env (FRAUD_OUTPUT module)) as [df|e] eqn:Hdf; simpl.
  2:{ eexists _, _; split; [reflexivity|]. now apply eval_unreadable. }
  destruct (empty df) eqn:Hem; simpl.
  { eexists _, _; split; [reflexivity|]. eapply eval_empty; eauto. }
  destruct (read_csv env non_fraud_transactions) as [total|e] eqn:Htot; simpl.
  2:{ eexists _, _; split; [reflexivity|]. eapply eval_no_ratio; eauto. }
  destruct (int_truediv (len df) (shape0 total)) as [fraud_ratio|e] eqn:Hdiv;
    simpl.
  2:{ eexists _, _; split; [reflexivity|]. eapply eval_no_ratio; eauto. }
  destruct (Float.ltb (RETRAIN_THRESHOLD module) fraud_ratio) eqn:Hlt; simpl.
  2:{ eexists _, _; split; [reflexivity|]. eapply eval_normal; eauto. }
  destruct (send_alert_email_returns fraud_ratio st)
    as (mail & Hsend & Hmail & Hle & Hall).
  rewrite Hsend.
  unfold run_pipeline_step, print, emit, bind, ret, raise. simpl.
  fold retrain_command.
  destruct (exit_status env retrain_command =? 0) eqn:Hrc; simpl;
    (eexists _, _; split; [reflexivity|]);
    (eapply (eval_drifted module env df total fraud_ratio mail); eauto;
     rewrite Hrc; reflexivity).
Qed.

Ltac run_steps :=
  repeat first
    [ eapply bind_Ok;
      [ first [ eapply run_pipeline_step_ok; eassumption
              | eapply start_consumer_background_ok; eassumption
              | eassumption ] | ]
    | eapply bind_Raise;
      first [ eapply run_pipeline_step_failed; eassumption | eassumption ] ].

Ltac step_failed i Hsup Hruns :=
  eexists _, _, _; split; [run_steps|];
  apply (suite_step_failed _ _ _ i);
  [ rewrite ?forallb_app, Hsup; reflexivity
  | reflexivity
  | repeat constructor; assumption
  | assumption
  | unfold runs in *; rewrite ?omap_app, Hruns; reflexivity ].

(** Every run of the [try] suite ends in one of the three ways of
    [Suite]. *)
Lemma try_suite_spec st :
  exists r st1 t,
    try_suite module env st = (r, st1, t) /\ Suite module env r t.
Proof.
  destruct (stop_consumer_background_returns env st)
    as (st0 & t0 & Hstop & _ & Hsup).
  pose proof (supervisor_runs _ Hsup) as Hruns.
  apply (forallb_weaken _ _ _ supervisor_is_pipeline) in Hsup.
  unfold try_suite.
  destruct (Z.eq_dec (exit_status env "python3 modules/datagen.py") 0)
    as [E0|E0]; [|step_failed 0%nat Hsup Hruns].
  destruct (start_consumer_background_cases module env st0)
    as [[Ho Hp] | (e & t & Hstart & He & Ht)].
  2:{ eexists _, _, _. split; [run_steps|].
      apply suite_start_failed; [|assumption| |].
      - rewrite !forallb_app, Hsup. simpl.
        rewrite Ht. destruct (length t) as [|[|[|]]]; reflexivity.
      - repeat constructor; assumption.
      - unfold runs in *. rewrite !omap_app, Hruns, Ht.
        destruct (length t) as [|[|[|]]]; reflexivity. }
  destruct (Z.eq_dec (exit_status env "python3 modules/combine.py") 0)
    as [E1|E1]; [|step_failed 1%nat Hsup Hruns].
  destruct (Z.eq_dec (exit_status env "python3 modules/transformation.py") 0)
    as [E2|E2]; [|step_failed 2%nat Hsup Hruns].
  destruct (Z.eq_dec (exit_status env "python3 modules/rule_based_fraud_detection.py denormalized_transactions/denoised_enriched_transactions.csv") 0)
    as [E3|E3]; [|step_failed 3%nat Hsup Hruns].
  destruct (Z.eq_dec (exit_status env "python3 modules/history.py denormalized_transactions") 0)
    as [E4|E4]; [|step_failed 4%nat Hsup Hruns].
  destruct (Z.eq_dec (exit_status env "python3 modules/model.py") 0)
    as [E5|E5]; [|step_failed 5%nat Hsup Hruns].
  set (st1 := {| consumer_process := Some (next_pid st0);
                 procs := <[next_pid st0 := Running]> (procs st0);
                 next_pid := S (next_pid st0) |}).
  destruct (evaluate_model_spec st1) as (r & t & Heval & Hev).
  eexists _, _, _. split; [run_steps; exact Heval|].
  rewrite !app_assoc. apply suite_evaluated; [| | |assumption].
  - rewrite !forallb_app, Hsup. reflexivity.
  - unfold reaches_evaluation, pipeline_commands.
    repeat constructor; assumption.
  - unfold runs in *. rewrite !omap_app, Hruns. reflexivity.
Qed.

Lemma except_clauses_report e st :
  except_clauses e st = (Ok tt, st, [failure_report e]).
Proof. destruct e; reflexivity. Qed.

(** A cycle always returns normally; an exception of the suite is turned
    into a report, the last thing the cycle prints. *)
Lemma run_monitoring_cycle_spec st :
  exists r st1 t,
    try_suite module env st = (r, st1, t) /\
    Suite module env r t /\
    run_monitoring_cycle module env st =
      (Ok tt, st1, EvPrint MsgStartingRun :: t ++ report r).
Proof.
  destruct (try_suite_spec st) as (r & st1 & t & Hrun & Hsuite).
  exists r, st1, t. repeat apply conj; try assumption.
  unfold run_monitoring_cycle, try_except, print, emit, bind.
  rewrite Hrun. destruct r as [[]|e]; simpl.
  - rewrite app_nil_r. reflexivity.
  - rewrite except_clauses_report. reflexivity.
Qed.

(** With a pipeline that succeeds, the suite ends as the evaluation
    does. *)
Lemma suite_reaching_evaluation r t :
  reaches_evaluation env -> Suite module env r t ->
  exists pre t',
    t = pre ++ t' /\ forallb is_pipeline pre = true /\
    Evaluation module env r t'.
Proof.
  intros (Hall & Ho & Hp) Hsuite.
  inversion Hsuite as [pre i c _ Hi _ Hc _ | pre e _ He _ _
                      | pre r' t' Hpre _ _ Hev];
    subst.
  - rewrite Forall_forall in Hall. exfalso.
    apply Hc, Hall. eapply list_elem_of_lookup_2, Hi.
  - exfalso. destruct He as [He|He]; congruence.
  - eauto.
Qed.

Lemma cycle_evaluated st :
  reaches_evaluation env ->
  exists pre r t st1,
    forallb is_pipeline pre = true /\
    Evaluation module env r t /\
    result_of (try_suite module env st) = r /\
    run_monitoring_cycle module env st =
      (Ok tt, st1, EvPrint MsgStartingRun :: (pre ++ t) ++ report r).
Proof.
  intros Hreach.
  destruct (run_monitoring_cycle_spec st)
    as (r & st1 & t & Hrun & Hsuite & Hcycle).
  destruct (suite_reaching_evaluation r t Hreach Hsuite)
    as (pre & t' & -> & Hpre & Hev).
  exists pre, r, t', st1. rewrite Hrun. auto.
Qed.

Lemma suite_no_cycle_start r t :
  Suite module env r t -> count is_cycle_start t = 0%nat.
Proof.
  intros Hsuite.
  inversion Hsuite as [pre i c Hpre _ _ _ _ | pre e Hpre _ _ _
                      | pre r' t' Hpre _ _ Hev]; subst;
    rewrite ?count_app, (count_pipeline _ _)
      by (assumption || (repeat constructor));
    try reflexivity.
  inversion Hev; subst; try reflexivity.
  rewrite !count_app, (count_mail _ mail) by (assumption || (repeat constructor)).
  reflexivity.
Qed.

(** One pass of the loop: the cycle, then the wait computed from the two
    clock readings, printed and slept. *)
Lemma main_body_spec st :
  exists st1 t,
    run_monitoring_cycle module env st = (Ok tt, st1, t) /\
    let wait_time :=
      wait_time_after module (Float.sub (time_end env) (time_start env)) in
    main_body module env st =
      (Ok tt, st1,
       EvTime :: t ++
       [EvTime; EvPrint (MsgWaiting wait_time); EvSleep wait_time]).
Proof.
  destruct (run_monitoring_cycle_spec st) as (r & st1 & t & _ & _ & Hcycle).
  eexists _, _. split; [exact Hcycle|].
  unfold main_body, wait_time_after, time_time, print, emit, bind, ret.
  rewrite Hcycle, time_sleep_max0. simpl. rewrite <- app_assoc. reflexivity.
Qed.

End Cycle.

(** ** The claims about a cycle *)

Ltac eval_cases Hev :=
  inversion Hev as [Hex | e' Hex Hrd | df' Hex Hrd Hem | df' e' Hex Hrd Hem Hno
                   | df' total' ratio' Hex Hrd Hem Htot Hdiv Hlt
                   | df' total' ratio' mail r' Hex Hrd Hem Htot Hdiv Hlt
                       Hmail Hle Hall Hr'];
  subst.

(** C1 (as stated, refuted): with five flagged rows and no evaluated row the
    division is performed and raises [ZeroDivisionError]; the cycle reports
    an unexpected error, which is not the report of a missing output. *)
Lemma C1_division_by_zero_raised :
  let env := sample_env 5 (Ok {| nrows := 0; ncols := 12 |}) (fun _ => None) in
  let x := run_monitoring_cycle bare_module env initial_state in
  result_of (try_suite bare_module env initial_state) = Raise ZeroDivisionError /\
  last (events_of x) = Some (EvPrint (MsgUnexpected ZeroDivisionError)) /\
  verdict (events_of x) <> Some NoOutput.
Proof. vm_compute. repeat apply conj; (reflexivity || discriminate). Qed.

(** C1 (amended): when the fraud artifact exists and is not empty and the
    total artifact can be read, a ratio that is printed is the quotient
    flaggedCount / totalCount, rounded to a double, and totalCount is not
    zero.  There is no guard for a zero totalCount: the division raises
    [ZeroDivisionError], which the cycle's catch-all clause reports as an
    unexpected error; the cycle returns normally, with no verdict, no alert
    and no retraining. *)
Theorem C1_unguarded_division (module : Module) (env : Env) (st : State)
    (df total : DataFrame) :
  reaches_evaluation env ->
  path_exists env (FRAUD_OUTPUT module) = true ->
  read_csv env (FRAUD_OUTPUT module) = Ok df ->
  empty df = false ->
  read_csv env non_fraud_transactions = Ok total ->
  let x := run_monitoring_cycle module env st in
  (forall fraud_ratio,
     EvPrint (MsgRate fraud_ratio) ∈ events_of x ->
     nrows total <> 0%N /\
     fraud_ratio = Float.div (Float.exact_int (len df))
                             (Float.exact_int (shape0 total))) /\
  (nrows total = 0%N ->
     result_of (try_suite module env st) = Raise ZeroDivisionError /\
     result_of x = Ok tt /\
     last (events_of x) = Some (EvPrint (MsgUnexpected ZeroDivisionError)) /\
     verdict (events_of x) = None /\
     count is_alert (events_of x) = 0%nat /\
     count is_retrain (events_of x) = 0%nat).
Proof.
  intros Hreach Hex0 Hrd0 Hem0 Htot0 x. subst x.
  destruct (cycle_evaluated module env st Hreach)
    as (pre & r & t & st1 & Hpre & Hev & Hr & ->).
  rewrite Hr. unfold result_of, events_of; simpl fst; simpl snd.
  rewrite (verdict_cycle pre t r Hpre).
  rewrite !(count_cycle _ pre t r) by (assumption || (repeat constructor)).
  split.
  - intros fraud_ratio Hin.
    assert (Ht : EvPrint (MsgRate fraud_ratio) ∈ t).
    { apply elem_of_cons in Hin as [Hin | Hin]; [discriminate|].
      apply elem_of_app in Hin as [Hin | Hin].
      - apply elem_of_app in Hin as [Hin | Hin]; [|assumption].
        rewrite forallb_forall in Hpre.
        apply list_elem_of_In, Hpre in Hin. discriminate.
      - destruct r as [|e]; simpl in Hin; [inversion Hin|].
        apply list_elem_of_singleton in Hin. destruct e; discriminate. }
    clear Hin.
    eval_cases Hev; try congruence;
      try (repeat (apply elem_of_cons in Ht as [Ht | Ht]; [discriminate|]);
           inversion Ht; fail).
    + (* the ratio stays at or below the threshold *)
      rewrite Hrd0 in Hrd; injection Hrd as <-.
      rewrite Htot0 in Htot; injection Htot as <-.
      repeat (apply elem_of_cons in Ht as [Ht | Ht]; [try discriminate|]);
        [|inversion Ht].
      injection Ht as ->.
      apply int_truediv_Ok in Hdiv as [Hnz ->]. split; [|reflexivity].
      unfold shape0 in Hnz. lia.
    + (* the ratio exceeds the threshold *)
      rewrite Hrd0 in Hrd; injection Hrd as <-.
      rewrite Htot0 in Htot; injection Htot as <-.
      simpl in Ht.
      repeat (apply elem_of_cons in Ht as [Ht | Ht]; [try discriminate|]).
      * injection Ht as ->.
        apply int_truediv_Ok in Hdiv as [Hnz ->]. split; [|reflexivity].
        unfold shape0 in Hnz. lia.
      * apply elem_of_app in Ht as [Ht | Ht].
        -- rewrite forallb_forall in Hmail.
           apply list_elem_of_In, Hmail in Ht. discriminate.
        -- repeat (apply elem_of_cons in Ht as [Ht | Ht]; [discriminate|]).
           inversion Ht.
  - intros Hzero.
    assert (Hdiv0 : int_truediv (len df) (shape0 total) = Raise ZeroDivisionError).
    { unfold shape0. rewrite Hzero. reflexivity. }
    eval_cases Hev; try congruence.
    assert (e' = ZeroDivisionError) as ->.
    { destruct Hno as [Hno | (total' & Hno & Hd)]; congruence. }
    repeat apply conj; try reflexivity.
    apply (last_cycle (pre ++ _) ZeroDivisionError).
Qed.

Lemma C1_unguarded_division_witness :
  let env := sample_env 5 (Ok {| nrows := 0; ncols := 12 |}) (fun _ => None) in
  let x := run_monitoring_cycle bare_module env initial_state in
  result_of x = Ok tt /\
  last (events_of x) = Some (EvPrint (MsgUnexpected ZeroDivisionError)) /\
  count is_alert (events_of x) = 0%nat /\
  count is_retrain (events_of x) = 0%nat.
Proof.
  intros env x.
  assert (Hreach : reaches_evaluation env) by (repeat constructor).
  destruct (C1_unguarded_division bare_module env initial_state
              {| nrows := 5; ncols := 12 |} {| nrows := 0; ncols := 12 |}
              Hreach eq_refl eq_refl eq_refl eq_refl) as [_ H].
  destruct (H eq_refl) as (_ & H1 & H2 & _ & H3 & H4).
  repeat apply conj; assumption.
Defined.

(** C5 (as stated, refuted): a fraud artifact of zero bytes is present and
    has no rows, yet it is not benign: [pd.read_csv] raises
    [EmptyDataError] on it, the [try] suite ends with that exception,
    there is no verdict and the cycle reports an unexpected error. *)
Lemma C5_empty_file_is_an_error :
  let x := run_monitoring_cycle bare_module unreadable_env initial_state in
  path_exists unreadable_env (FRAUD_OUTPUT bare_module) = true /\
  read_csv unreadable_env (FRAUD_OUTPUT bare_module) = Raise EmptyDataError /\
  result_of (try_suite bare_module unreadable_env initial_state) =
    Raise EmptyDataError /\
  verdict (events_of x) = None /\
  last (events_of x) = Some (EvPrint (MsgUnexpected EmptyDataError)) /\
  count is_failure_report (events_of x) = 1%nat.
Proof. vm_compute. repeat apply conj; reflexivity. Qed.

(** C5 (amended): with a pipeline that succeeds, a missing fraud artifact,
    or one that is read as a table with no rows, ends the [try] suite
    without any exception: the verdict is [NoOutput], respectively
    [Empty], no alert is dispatched, the retraining is not run and no
    failure is reported.  A present artifact on which [pd.read_csv]
    raises, as it does on a file of zero bytes, is not benign: the
    exception ends the suite and the cycle reports it, with no verdict,
    no alert and no retraining. *)
Theorem C5_benign_artifact (module : Module) (env : Env) (st : State) :
  reaches_evaluation env ->
  let x := run_monitoring_cycle module env st in
  (path_exists env (FRAUD_OUTPUT module) = false \/
   (exists df, read_csv env (FRAUD_OUTPUT module) = Ok df /\ nrows df = 0%N) ->
   result_of (try_suite module env st) = Ok tt /\
   result_of x = Ok tt /\
   verdict (events_of x) =
     Some (if path_exists env (FRAUD_OUTPUT module) then Empty else NoOutput) /\
   count is_alert (events_of x) = 0%nat /\
   count is_retrain (events_of x) = 0%nat /\
   count is_failure_report (events_of x) = 0%nat) /\
  (forall e,
     path_exists env (FRAUD_OUTPUT module) = true ->
     read_csv env (FRAUD_OUTPUT module) = Raise e ->
     result_of (try_suite module env st) = Raise e /\
     result_of x = Ok tt /\
     verdict (events_of x) = None /\
     last (events_of x) = Some (failure_report e) /\
     count is_failure_report (events_of x) = 1%nat /\
     count is_alert (events_of x) = 0%nat /\
     count is_retrain (events_of x) = 0%nat).
Proof.
  intros Hreach x. subst x.
  destruct (cycle_evaluated module env st Hreach)
    as (pre & r & t & st1 & Hpre & Hev & Hr & ->).
  rewrite Hr. unfold result_of, events_of; simpl fst; simpl snd.
  rewrite (verdict_cycle pre t r Hpre).
  rewrite ?(count_cycle_reports pre t r), !(count_cycle _ pre t r)
    by (assumption || (repeat constructor)).
  split.
  - intros Hart.
    eval_cases Hev;
      destruct Hart as [Hno' | (df0 & Hrd0 & Hrows)];
      try congruence;
      try (rewrite Hex; repeat apply conj; reflexivity);
      try (rewrite Hrd in Hrd0; injection Hrd0 as ->;
           unfold empty in Hem; rewrite Hrows in Hem; discriminate).
  - intros e Hex0 Hrd0.
    eval_cases Hev; try congruence.
    assert (e' = e) as -> by congruence.
    repeat apply conj; try reflexivity.
    apply (last_cycle (pre ++ _) e).
Qed.

Lemma C5_benign_artifact_witness :
  let x := run_monitoring_cycle bare_module quiet_env initial_state in
  let y := run_monitoring_cycle bare_module
             (sample_env 0 (Raise EmptyDataError) (fun _ => None))
             initial_state in
  let z := run_monitoring_cycle bare_module unreadable_env initial_state in
  (verdict (events_of x) = Some NoOutput /\
   count is_alert (events_of x) = 0%nat /\
   count is_retrain (events_of x) = 0%nat) /\
  (verdict (events_of y) = Some Empty /\
   count is_alert (events_of y) = 0%nat /\
   count is_retrain (events_of y) = 0%nat) /\
  (verdict (events_of z) = None /\
   last (events_of z) = Some (EvPrint (MsgUnexpected EmptyDataError))).
Proof.
  intros x y z. split; [|split].
  - assert (Hreach : reaches_evaluation quiet_env) by (repeat constructor).
    destruct (C5_benign_artifact bare_module quiet_env initial_state Hreach)
      as [H _].
    destruct (H (or_introl eq_refl)) as (_ & _ & H1 & H2 & H3 & _).
    repeat apply conj; assumption.
  - assert (Hreach : reaches_evaluation
                       (sample_env 0 (Raise EmptyDataError) (fun _ => None)))
      by (repeat constructor).
    destruct (C5_benign_artifact bare_module _ initial_state Hreach)
      as [H _].
    destruct (H (or_intror (ex_intro _ {| nrows := 0; ncols := 12 |}
                              (conj eq_refl eq_refl))))
      as (_ & _ & H1 & H2 & H3 & _).
    repeat apply conj; assumption.
  - assert (Hreach : reaches_evaluation unreadable_env)
      by (repeat constructor).
    destruct (C5_benign_artifact bare_module unreadable_env initial_state
                Hreach) as [_ H].
    destruct (H EmptyDataError eq_refl eq_refl) as (_ & _ & H1 & H2 & _).
    split; assumption.
Defined.

(** C10: when the fraud artifact exists and is not empty but reading the
    total artifact raises, the exception leaves the [try] suite and is
    reported by the cycle, which returns normally; there is exactly one
    failure report and no verdict, no alert and no retraining. *)
Theorem C10_total_unreadable (module : Module) (env : Env) (st : State)
    (df : DataFrame) (e : exn) :
  reaches_evaluation env ->
  path_exists env (FRAUD_OUTPUT module) = true ->
  read_csv env (FRAUD_OUTPUT module) = Ok df ->
  empty df = false ->
  read_csv env non_fraud_transactions = Raise e ->
  let x := run_monitoring_cycle module env st in
  result_of (try_suite module env st) = Raise e /\
  result_of x = Ok tt /\
  last (events_of x) = Some (failure_report e) /\
  count is_failure_report (events_of x) = 1%nat /\
  verdict (events_of x) = None /\
  count is_alert (events_of x) = 0%nat /\
  count is_retrain (events_of x) = 0%nat.
Proof.
  intros Hreach Hex0 Hrd0 Hem0 Htot0 x. subst x.
  destruct (cycle_evaluated module env st Hreach)
    as (pre & r & t & st1 & Hpre & Hev & Hr & ->).
  rewrite Hr. unfold result_of, events_of; simpl fst; simpl snd.
  rewrite (verdict_cycle pre t r Hpre).
  rewrite ?(count_cycle_reports pre t r), !(count_cycle _ pre t r)
    by (assumption || (repeat constructor)).
  eval_cases Hev; try congruence.
  assert (e' = e) as ->.
  { destruct Hno as [Hno | (total & Hno & _)]; congruence. }
  repeat apply conj; try reflexivity.
  apply (last_cycle (pre ++ _) e).
Qed.

Lemma C10_total_unreadable_witness :
  let missing := FileNotFoundError non_fraud_transactions in
  let x := run_monitoring_cycle bare_module
             (sample_env 5 (Raise missing) (fun _ => None)) initial_state in
  result_of x = Ok tt /\
  last (events_of x) = Some (EvPrint (MsgUnexpected missing)) /\
  verdict (events_of x) = None /\
  count is_alert (events_of x) = 0%nat /\
  count is_retrain (events_of x) = 0%nat.
Proof.
  intros missing x.
  assert (Hreach : reaches_evaluation
                     (sample_env 5 (Raise missing) (fun _ => None)))
    by (repeat constructor).
  destruct (C10_total_unreadable bare_module _ initial_state
              {| nrows := 5; ncols := 12 |} missing
              Hreach eq_refl eq_refl eq_refl eq_refl)
    as (_ & H1 & H2 & _ & H3 & H4 & H5).
  repeat apply conj; assumption.
Defined.

(** C3: at the threshold 0.30 the comparison is strict.  Once a ratio is
    computed, the verdict is [Drifted] exactly when the ratio is greater
    than the threshold and [Normal] exactly when it is not; 30 flagged
    rows out of 100 give the ratio 0.30 itself and the verdict [Normal],
    with no alert and no retraining, and 31 out of 100 give [Drifted],
    with one alert and one retraining. *)
Theorem C3_strict_threshold (dotenv : option (gmap string string))
    (environ : gmap string string) (env : Env) (st : State)
    (df total : DataFrame) (fraud_ratio : spec_float) :
  let module := module_toplevel dotenv environ in
  reaches_evaluation env ->
  path_exists env (FRAUD_OUTPUT module) = true ->
  read_csv env (FRAUD_OUTPUT module) = Ok df ->
  empty df = false ->
  read_csv env non_fraud_transactions = Ok total ->
  int_truediv (len df) (shape0 total) = Ok fraud_ratio ->
  let t := events_of (run_monitoring_cycle module env st) in
  (verdict t = Some Drifted <-> Float.ltb literal_0_30 fraud_ratio = true) /\
  (verdict t = Some Normal <-> Float.ltb literal_0_30 fraud_ratio = false) /\
  (nrows df = 30%N -> nrows total = 100%N ->
   fraud_ratio = literal_0_30 /\ verdict t = Some Normal /\
   count is_alert t = 0%nat /\ count is_retrain t = 0%nat) /\
  (nrows df = 31%N -> nrows total = 100%N ->
   verdict t = Some Drifted /\
   count is_alert t = 1%nat /\ count is_retrain t = 1%nat).
Proof.
  intros module Hreach Hex0 Hrd0 Hem0 Htot0 Hdiv0 t. subst t.
  assert (H30 : nrows df = 30%N -> nrows total = 100%N ->
                fraud_ratio = literal_0_30).
  { intros E1 E2. unfold len, shape0 in Hdiv0. rewrite E1, E2 in Hdiv0.
    vm_compute in Hdiv0. injection Hdiv0 as <-. reflexivity. }
  assert (H31 : nrows df = 31%N -> nrows total = 100%N ->
                Float.ltb literal_0_30 fraud_ratio = true).
  { intros E1 E2. unfold len, shape0 in Hdiv0. rewrite E1, E2 in Hdiv0.
    vm_compute in Hdiv0. injection Hdiv0 as <-. reflexivity. }
  destruct (cycle_evaluated module env st Hreach)
    as (pre & r & t & st1 & Hpre & Hev & Hr & ->).
  unfold events_of; simpl snd.
  rewrite (verdict_cycle pre t r Hpre).
  rewrite !(count_cycle _ pre t r) by (assumption || (repeat constructor)).
  eval_cases Hev; try congruence;
    try (destruct Hno as [Hno | (total' & Hno & Hd)]; congruence);
    rewrite Hrd0 in Hrd; injection Hrd as <-;
    rewrite Htot0 in Htot; injection Htot as <-;
    rewrite Hdiv0 in Hdiv; injection Hdiv as <-;
    change (RETRAIN_THRESHOLD module) with literal_0_30 in Hlt.
  - (* the ratio does not exceed the threshold *)
    rewrite Hlt. split; [split; discriminate|].
    split; [split; reflexivity|].
    split; intros E1 E2.
    + repeat apply conj; auto.
    + rewrite (H31 E1 E2) in Hlt. discriminate.
  - (* the ratio exceeds the threshold *)
    rewrite Hlt. split; [split; reflexivity|].
    split; [split; discriminate|].
    split; intros E1 E2.
    + rewrite (H30 E1 E2) in Hlt. discriminate.
    + rewrite !count_app, !(count_mail _ mail)
        by (assumption || (repeat constructor)).
      repeat apply conj; try reflexivity;
        destruct (exit_status env retrain_command =? 0); reflexivity.
Qed.

Lemma C3_strict_threshold_witness :
  let cycle flagged :=
    events_of (run_monitoring_cycle bare_module
                 (sample_env flagged (Ok {| nrows := 100; ncols := 12 |})
                    (fun _ => None))
                 initial_state) in
  (verdict (cycle 30%N) = Some Normal /\
   count is_alert (cycle 30%N) = 0%nat /\
   count is_retrain (cycle 30%N) = 0%nat) /\
  verdict (cycle 31%N) = Some Drifted.
Proof.
  intros cycle. split.
  - assert (Hreach : reaches_evaluation
                       (sample_env 30 (Ok {| nrows := 100; ncols := 12 |})
                          (fun _ => None)))
      by (repeat constructor).
    destruct (C3_strict_threshold None ∅ _ initial_state
                {| nrows := 30; ncols := 12 |} {| nrows := 100; ncols := 12 |}
                literal_0_30 Hreach eq_refl eq_refl eq_refl eq_refl eq_refl)
      as (_ & _ & H & _).
    destruct (H eq_refl eq_refl) as (_ & H1 & H2 & H3).
    repeat apply conj; assumption.
  - assert (Hreach : reaches_evaluation
                       (sample_env 31 (Ok {| nrows := 100; ncols := 12 |})
                          (fun _ => None)))
      by (repeat constructor).
    destruct (C3_strict_threshold None ∅ _ initial_state
                {| nrows := 31; ncols := 12 |} {| nrows := 100; ncols := 12 |}
                (S754_finite false 5584463537939415 (-54))
                Hreach eq_refl eq_refl eq_refl eq_refl eq_refl)
      as (_ & _ & _ & H).
    destruct (H eq_refl eq_refl) as (H1 & _).
    exact H1.
Defined.

(** C6: in a cycle whose verdict is [Drifted] the alert is dispatched
    exactly once and the retraining step is run exactly once, the alert
    first; at most one message is sent, and exactly one when the transport
    does not fail.  The dispatcher never raises, whatever the transport
    does, so a transport error cannot keep the retraining from running;
    the cycle returns normally even when the retraining fails. *)
Theorem C6_drifted_reaction (module : Module) (env : Env) (st : State) :
  let x := run_monitoring_cycle module env st in
  verdict (events_of x) = Some Drifted ->
  count is_alert (events_of x) = 1%nat /\
  count is_retrain (events_of x) = 1%nat /\
  (exists t1 a t2 b t3,
     events_of x = t1 ++ a :: t2 ++ b :: t3 /\
     is_alert a = true /\ is_retrain b = true) /\
  (count is_sent_message (events_of x) <= 1)%nat /\
  ((forall c, smtp env c = None) ->
   count is_sent_message (events_of x) = 1%nat) /\
  (forall ratio st', result_of (send_alert_email module env ratio st') = Ok tt) /\
  result_of x = Ok tt.
Proof.
  intros x. subst x.
  destruct (run_monitoring_cycle_spec module env st)
    as (r & st1 & t & Hrun & Hsuite & ->).
  unfold result_of, events_of; simpl fst; simpl snd.
  intros Hv.
  inversion Hsuite as [pre i c Hpre _ _ _ _ | pre e Hpre _ _ _
                      | pre r' t' Hpre _ _ Hev]; subst;
    try (rewrite verdict_aborted in Hv by assumption; discriminate).
  rewrite (verdict_cycle pre t' r Hpre) in Hv.
  rewrite !(count_cycle _ pre t' r) by (assumption || (repeat constructor)).
  eval_cases Hev; try discriminate.
  rewrite !count_app, !(count_mail _ mail) by (assumption || (repeat constructor)).
  repeat apply conj.
  - reflexivity.
  - reflexivity.
  - exists (EvPrint MsgStartingRun :: pre ++
              [EvExists (FRAUD_OUTPUT module); EvReadCsv (FRAUD_OUTPUT module);
               EvReadCsv non_fraud_transactions;
               EvPrint (MsgTotal (shape0 total')); EvPrint (MsgFrauds (len df'));
               EvPrint (MsgRate ratio'); EvPrint MsgHighRatio]),
           (EvSmtp (Connect (SMTP_SERVER module) (SMTP_PORT module))),
           (mail ++ [EvPrint (MsgStep "Retraining autoencoder model")]),
           (EvRun retrain_command),
           (report (if exit_status env retrain_command =? 0 then Ok tt
                    else Raise (CalledProcessError
                                  (exit_status env retrain_command)
                                  retrain_command))).
    split; [|split; reflexivity].
    simpl. rewrite <- !app_assoc. simpl. rewrite <- !app_assoc. reflexivity.
  - rewrite ?count_cons, ?count_nil; simpl; lia.
  - intros Hnone. rewrite (Hall Hnone). reflexivity.
  - intros ratio st'.
    destruct (send_alert_email_returns module env ratio st') as (m & -> & _).
    reflexivity.
  - reflexivity.
Qed.

Lemma C6_drifted_reaction_witness :
  let refused c :=
    match c with
    | Login _ _ => Some (SMTPException "authentication failed")
    | _ => None
    end in
  let x := run_monitoring_cycle bare_module
             (sample_env 40 (Ok {| nrows := 100; ncols := 12 |}) refused)
             initial_state in
  count is_alert (events_of x) = 1%nat /\
  count is_retrain (events_of x) = 1%nat /\
  result_of x = Ok tt.
Proof.
  intros refused x.
  assert (Hv : verdict (events_of x) = Some Drifted)
    by (vm_compute; reflexivity).
  destruct (C6_drifted_reaction bare_module _ initial_state Hv)
    as (H1 & H2 & _ & _ & _ & _ & H3).
  repeat apply conj; assumption.
Defined.

(** C4: when the step at position [k] of the pipeline exits non-zero, no
    step at a later position is run in that cycle, nothing of the
    evaluation happens, no alert is sent and the retraining is not run.
    The exception stops at the cycle: the cycle returns normally and its
    last line is the report of the failure, which names step [k] whenever
    that step was run. *)
Theorem C4_fail_fast (module : Module) (env : Env) (st : State) (k : nat)
    (cmd : string) :
  pipeline_commands !! k = Some cmd ->
  exit_status env cmd <> 0 ->
  let x := run_monitoring_cycle module env st in
  result_of x = Ok tt /\
  (forall j c, (k < j)%nat -> pipeline_commands !! j = Some c ->
               EvRun c ∉ events_of x) /\
  count is_evaluation (events_of x) = 0%nat /\
  count is_alert (events_of x) = 0%nat /\
  count is_retrain (events_of x) = 0%nat /\
  (exists e, result_of (try_suite module env st) = Raise e /\
             last (events_of x) = Some (failure_report e)) /\
  (EvRun cmd ∈ events_of x ->
   last (events_of x) =
     Some (EvPrint (MsgStepFailed
                      (CalledProcessError (exit_status env cmd) cmd)))).
Proof.
  intros Hk Hfail x. subst x.
  destruct (run_monitoring_cycle_spec module env st)
    as (r & st1 & t & Hrun & Hsuite & ->).
  rewrite Hrun. unfold result_of, events_of; simpl fst; simpl snd.
  pose proof pipeline_commands_NoDup as Hnd.
  inversion Hsuite as [pre i c Hpre Hi Hok Hc Hruns | pre e Hpre He Hok Hruns
                      | pre r' t' Hpre Hreach _ Hev]; subst.
  - (* a step failed: it is at or before position k *)
    assert (Hik : (i <= k)%nat).
    { destruct (le_lt_dec i k) as [|Hlt]; [assumption|]. exfalso.
      rewrite Forall_forall in Hok. apply Hfail, Hok.
      apply list_elem_of_lookup. exists k. apply lookup_take_Some. auto. }
    rewrite !count_cons, !count_app,
      !(count_pipeline _ t) by (assumption || (repeat constructor)).
    repeat apply conj; try reflexivity.
    + intros j c' Hkj Hj Hin.
      apply runs_elem in Hin. rewrite runs_cycle, Hruns in Hin.
      apply lookup_take_elem in Hin as (j' & Hj' & Hc').
      pose proof (NoDup_lookup _ _ _ _ Hnd Hj Hc'). lia.
    + eexists. split; [reflexivity|]. apply last_cycle.
    + intros Hin. apply runs_elem in Hin. rewrite runs_cycle, Hruns in Hin.
      apply lookup_take_elem in Hin as (j' & Hj' & Hc').
      pose proof (NoDup_lookup _ _ _ _ Hnd Hk Hc').
      assert (i = k) as -> by lia.
      assert (c = cmd) as -> by congruence.
      apply last_cycle.
  - (* the consumer could not be started: only the first step ran *)
    assert (Hk0 : k <> 0%nat).
    { intros ->. rewrite Forall_forall in Hok. apply Hfail, Hok.
      apply list_elem_of_lookup. exists 0%nat. apply lookup_take_Some. auto. }
    rewrite !count_cons, !count_app,
      !(count_pipeline _ t) by (assumption || (repeat constructor)).
    repeat apply conj; try (destruct e; reflexivity).
    + intros j c' Hkj Hj Hin.
      apply runs_elem in Hin. rewrite runs_cycle, Hruns in Hin.
      apply lookup_take_elem in Hin as (j' & Hj' & Hc').
      pose proof (NoDup_lookup _ _ _ _ Hnd Hj Hc'). lia.
    + eexists. split; [reflexivity|]. apply last_cycle.
    + intros Hin. apply runs_elem in Hin. rewrite runs_cycle, Hruns in Hin.
      apply lookup_take_elem in Hin as (j' & Hj' & Hc').
      pose proof (NoDup_lookup _ _ _ _ Hnd Hk Hc'). lia.
  - (* the evaluation was reached: then no step failed *)
    exfalso. destruct Hreach as (Hall & _). rewrite Forall_forall in Hall.
    apply Hfail, Hall. eapply list_elem_of_lookup_2, Hk.
Qed.

Lemma C4_fail_fast_witness :
  let cmd := "python3 modules/transformation.py" in
  let x := run_monitoring_cycle bare_module (failing_env cmd) initial_state in
  result_of x = Ok tt /\
  (EvRun "python3 modules/model.py" ∉ events_of x) /\
  count is_evaluation (events_of x) = 0%nat /\
  last (events_of x) = Some (EvPrint (MsgStepFailed (CalledProcessError 1 cmd))).
Proof.
  intros cmd x.
  assert (Hfail : exit_status (failing_env cmd) cmd <> 0)
    by (vm_compute; discriminate).
  destruct (C4_fail_fast bare_module (failing_env cmd) initial_state 2 cmd
              eq_refl Hfail) as (H1 & H2 & H3 & _ & _ & _ & H4).
  repeat apply conj.
  - exact H1.
  - apply (H2 5%nat); [lia | reflexivity].
  - exact H3.
  - apply H4. vm_compute. repeat constructor.
Defined.

(** With a [print] that succeeds, a cycle never lets an exception out:
    whatever the [try] suite does, an exception it raises included, the
    cycle returns normally and ends with the report of that exception;
    so the loop is never left because a cycle failed: its run through
    any number of passes returns normally and has started that many
    cycles. *)
Lemma main_never_left (module : Module) (envs : list Env) (st : State) :
  result_of (main module envs st) = Ok tt /\
  count is_cycle_start (events_of (main module envs st)) = length envs.
Proof.
  revert st. induction envs as [|env envs IH]; intros st.
  - split; reflexivity.
  - destruct (run_monitoring_cycle_spec module env st)
      as (r & st1 & t & _ & Hsuite & Hcycle).
    destruct (main_body_spec module env st) as (st1' & t' & Hcycle' & Hbody).
    rewrite Hcycle in Hcycle'. injection Hcycle' as <- <-.
    destruct (IH st1) as [IHr IHc].
    destruct (main module envs st1) as [[r2 st2] t2] eqn:Hrest.
    simpl. rewrite (bind_Ok _ _ _ _ _ _ _ _ _ Hbody Hrest).
    unfold result_of, events_of in *; simpl in *.
    split; [assumption|].
    rewrite !count_cons, !count_app, IHc,
      (suite_no_cycle_start module env r t Hsuite).
    destruct r as [[]|[]]; simpl; rewrite ?count_cons, ?count_nil;
      simpl; lia.
Qed.

(** ** The scheduler (lines 119-126) *)

(** C2: each pass of the loop sleeps for [max(0, interval - elapsed)],
    where [elapsed] is the difference of the two clock readings around
    the cycle, a valid double when the readings are.  For a valid double
    [elapsed] at or above the interval the wait is the integer 0; below
    the interval it is the double [interval - elapsed]; and whatever
    [elapsed] is, the wait is never negative. *)
Theorem C2_wait_time (dotenv : option (gmap string string))
    (environ : gmap string string) (elapsed : spec_float) :
  Float.valid elapsed = true ->
  let module := module_toplevel dotenv environ in
  let interval := Float.of_int (CHECK_INTERVAL_SECONDS module) in
  (Float.leb interval elapsed = true ->
   wait_time_after module elapsed = PyInt 0) /\
  (Float.ltb elapsed interval = true ->
   wait_time_after module elapsed = PyFloat (Float.sub interval elapsed)) /\
  (forall any,
     match wait_time_after module any with
     | PyInt z => z = 0
     | PyFloat f => Float.ltb Float.zero f = true
     end) /\
  (forall env st,
     let duration := Float.sub (time_end env) (time_start env) in
     let wait_time := wait_time_after module duration in
     (exists st1 t,
        main_body module env st =
          (Ok tt, st1,
           EvTime :: t ++
           [EvTime; EvPrint (MsgWaiting wait_time); EvSleep wait_time])) /\
     (Float.valid (time_start env) = true ->
      Float.valid (time_end env) = true ->
      Float.valid duration = true)).
Proof.
  intros Hvalid module interval.
  assert (Hinterval : Float.valid interval = true) by reflexivity.
  unfold wait_time_after, max0. fold interval.
  repeat apply conj.
  - intros Hle. rewrite (sub_not_positive interval elapsed) by assumption.
    reflexivity.
  - intros Hlt. rewrite (sub_positive interval elapsed) by assumption.
    reflexivity.
  - intros any.
    destruct (Float.ltb Float.zero (Float.sub interval any)) eqn:E;
      [exact E | reflexivity].
  - intros env st. split.
    + destruct (main_body_spec module env st) as (st1 & t & _ & Hbody).
      exists st1, t. exact Hbody.
    + intros Hs He. apply sub_valid; assumption.
Qed.

Lemma C2_wait_time_witness :
  wait_time_after bare_module (Float.of_int 100) =
    PyFloat (Float.sub (Float.of_int 300) (Float.of_int 100)) /\
  wait_time_after bare_module (Float.of_int 300) = PyInt 0 /\
  wait_time_after bare_module (Float.of_int 420) = PyInt 0.
Proof.
  repeat apply conj.
  - destruct (C2_wait_time None ∅ (Float.of_int 100) eq_refl) as (_ & H & _).
    apply H. reflexivity.
  - destruct (C2_wait_time None ∅ (Float.of_int 300) eq_refl) as (H & _).
    apply H. reflexivity.
  - destruct (C2_wait_time None ∅ (Float.of_int 420) eq_refl) as (H & _).
    apply H. reflexivity.
Defined.
(** ** More on the supervisor (lines 57-72) *)

Lemma stop_consumer_background_spec (env : Env) (st : State) :
  exists st',
    stop_consumer_background env st =
      (Ok tt, st',
       match consumer_process st with
       | Some p =>
           if is_running st p && bool_decide (died env p = None)
           then stopping p else []
       | None => []
       end) /\
    consumer_process st' = consumer_process st /\
    next_pid st' = next_pid st /\
    (forall p, consumer_process st = Some p -> is_running st' p = false) /\
    (forall q, consumer_process st <> Some q ->
               procs st' !! q = procs st !! q).
Proof.
  unfold stop_consumer_background, poll, wait, send_signal_SIGTERM, print,
    emit, bind, get, put, ret, is_running.
  destruct (consumer_process st) as [p|] eqn:Hc; simpl.
  - destruct (procs st !! p) as [[|rc]|] eqn:Hp; simpl.
    + destruct (died env p) as [rc|] eqn:Hd; simpl;
        (eexists; split; [reflexivity|]; simpl; repeat apply conj;
         [ assumption | reflexivity
         | intros p' [= <-]; rewrite lookup_insert_eq; reflexivity
         | intros q Hq; apply lookup_insert_ne; congruence ]).
    + eexists; split; [reflexivity|]. repeat apply conj; auto.
      intros p' [= <-]. rewrite Hp. reflexivity.
    + eexists; split; [reflexivity|]. repeat apply conj; auto.
      intros p' [= <-]. rewrite Hp. reflexivity.
  - eexists; split; [reflexivity|]. repeat apply conj; auto. discriminate.
Qed.

(** X1: what [stop] does, in full: it returns normally, keeping the handle;
    its only effects are the announcement, one SIGTERM and one wait, all
    for the tracked child, and only when that child is running and has
    not been found dead; afterwards the tracked child is not running and
    no other child has been touched. *)
Theorem stop_effects (env : Env) (st : State) :
  exists st',
    stop_consumer_background env st =
      (Ok tt, st',
       match consumer_process st with
       | Some p =>
           if is_running st p && bool_decide (died env p = None)
           then stopping p else []
       | None => []
       end) /\
    consumer_process st' = consumer_process st /\
    next_pid st' = next_pid st /\
    (forall p, consumer_process st = Some p -> is_running st' p = false) /\
    (forall q, consumer_process st <> Some q ->
               procs st' !! q = procs st !! q).
Proof. exact (stop_consumer_background_spec env st). Qed.

(** X2: stopping twice is stopping once: the second call finds the child
    exited and does nothing. *)
Theorem stop_twice (env env' : Env) (st : State) :
  (stop_consumer_background env ;; stop_consumer_background env') st =
    stop_consumer_background env st.
Proof.
  destruct (stop_consumer_background_spec env st)
    as (st' & Hstop & Hc & _ & Hrun & _).
  assert (Hnoop : stop_consumer_background env' st' = (Ok tt, st', [])).
  { destruct (consumer_process st) as [p|] eqn:Hp.
    - apply (stop_exited env' st' p); [congruence | apply Hrun; reflexivity].
    - apply stop_untracked. congruence. }
  rewrite (bind_Ok _ _ _ _ _ _ _ _ _ Hstop Hnoop), Hstop, app_nil_r.
  reflexivity.
Qed.

(** X3: two starts in a row leave two children running, of which only the
    second is tracked: a start that is not preceded by a stop orphans the
    consumer that was running. *)
Theorem start_twice_orphans (module : Module) (env env' : Env) (st : State) :
  open_log env = None -> popen env = None ->
  open_log env' = None -> popen env' = None ->
  let r := (start_consumer_background module env ;;
            start_consumer_background module env') st in
  result_of r = Ok tt /\
  consumer_process (state_of r) = Some (S (next_pid st)) /\
  is_running (state_of r) (S (next_pid st)) = true /\
  is_running (state_of r) (next_pid st) = true /\
  count is_popen (events_of r) = 2%nat.
Proof.
  intros Ho Hp Ho' Hp' r. subst r.
  rewrite (bind_Ok _ _ _ _ _ _ _ _ _
             (start_consumer_background_ok module env st Ho Hp)
             (start_consumer_background_ok module env' _ Ho' Hp')).
  unfold result_of, state_of, events_of, is_running. simpl.
  repeat apply conj; try reflexivity.
  - rewrite lookup_insert_eq. reflexivity.
  - rewrite lookup_insert_ne by lia. rewrite lookup_insert_eq. reflexivity.
Qed.

Lemma start_twice_orphans_witness :
  let r := (start_consumer_background bare_module quiet_env ;;
            start_consumer_background bare_module quiet_env) initial_state in
  consumer_process (state_of r) = Some 1%nat /\
  is_running (state_of r) 1%nat = true /\
  is_running (state_of r) 0%nat = true.
Proof.
  destruct (start_twice_orphans bare_module quiet_env quiet_env initial_state
              eq_refl eq_refl eq_refl eq_refl) as (_ & H1 & H2 & H3 & _).
  repeat apply conj; assumption.
Defined.

(** ** More on the alert (lines 33-51) *)

Section Alert.

Variable module : Module.
Variable env : Env.

(** Every way a mail session can go, with the events of each. *)
Ltac mail_cases :=
  unfold send_alert_email, try_except, with_exit, external, print, emit,
    bind, ret, raise;
  destruct (smtp env (Connect (SMTP_SERVER module) (SMTP_PORT module)))
    eqn:Hconnect; simpl;
  [| destruct (smtp env StartTls) eqn:Htls; simpl;
     [| destruct (smtp env (Login (EMAIL_USER module) (EMAIL_PASS module)))
          eqn:Hlogin; simpl;
        [| destruct (smtp env (SendMessage _)) eqn:Hsend; simpl ] ];
     destruct (smtp env Quit) eqn:Hquit; simpl ].

Lemma send_alert_email_calls ratio st :
  let t := events_of (send_alert_email module env ratio st) in
  (exists n, smtp_calls t = take n (full_session module ratio) \/
             smtp_calls t = take n (full_session module ratio) ++ [Quit]) /\
  (forall u p, Login u p ∈ smtp_calls t -> smtp env StartTls = None) /\
  (forall msg, SendMessage msg ∈ smtp_calls t ->
     msg = alert_for module ratio /\
     smtp env StartTls = None /\
     smtp env (Login (EMAIL_USER module) (EMAIL_PASS module)) = None) /\
  count is_quit t =
    match smtp env (Connect (SMTP_SERVER module) (SMTP_PORT module)) with
    | Some _ => 0%nat
    | None => 1%nat
    end.
Proof.
  intros t. subst t. unfold events_of, smtp_calls, full_session, alert_for.
  mail_cases;
    (repeat apply conj;
     [ first [ exists 1%nat; left; reflexivity
             | exists 2%nat; right; reflexivity
             | exists 3%nat; right; reflexivity
             | exists 4%nat; right; reflexivity
             | exists 5%nat; left; reflexivity ]
     | intros u p Hin;
       repeat (apply elem_of_cons in Hin as [Hin | Hin]; [try discriminate|]);
       first [ inversion Hin; fail | reflexivity | assumption ]
     | intros msg Hin;
       repeat (apply elem_of_cons in Hin as [Hin | Hin]; [try discriminate|]);
       first [ inversion Hin; fail
             | injection Hin as ->; repeat apply conj;
               (reflexivity || assumption) ]
     | reflexivity ]).
Qed.


(** X4: the calls on the mail session are those of lines 45-48 in order,
    up to and including the first that fails: nothing is called after a
    failed connection, and once the connection is made the calls of the
    [with] block stop at the first failure and are followed by exactly
    one QUIT.  So the calls are an initial part of the full session,
    followed by QUIT when the block was left early. *)
Theorem mail_session_order (ratio : spec_float) (st : State) :
  let t := events_of (send_alert_email module env ratio st) in
  let connect := Connect (SMTP_SERVER module) (SMTP_PORT module) in
  smtp_calls t =
    match smtp env connect with
    | Some _ => [connect]
    | None =>
        connect ::
        until_failure env
          [StartTls; Login (EMAIL_USER module) (EMAIL_PASS module);
           SendMessage (alert_for module ratio)] ++ [Quit]
    end /\
  (exists n : nat, (1 <= n)%nat /\ (n <= 5)%nat /\
     (smtp_calls t = take n (full_session module ratio) \/
      ((n < 5)%nat /\
       smtp_calls t = take n (full_session module ratio) ++ [Quit]))) /\
  count is_quit t =
    match smtp env connect with
    | Some _ => 0%nat
    | None => 1%nat
    end /\
  count is_alert t = 1%nat.
Proof.
  intros t connect. subst t connect.
  unfold events_of, smtp_calls, full_session, alert_for, until_failure.
  mail_cases;
    (repeat apply conj; try reflexivity;
     first [ exists 1%nat; split; [lia|]; split; [lia|]; left; reflexivity
           | exists 2%nat; split; [lia|]; split; [lia|]; right;
             split; [lia|]; reflexivity
           | exists 3%nat; split; [lia|]; split; [lia|]; right;
             split; [lia|]; reflexivity
           | exists 4%nat; split; [lia|]; split; [lia|]; right;
             split; [lia|]; reflexivity
           | exists 5%nat; split; [lia|]; split; [lia|]; left; reflexivity ]).
Qed.

(** X5: credentials go out only over a session on which STARTTLS succeeded,
    and a message only after the login succeeded as well; the message is
    the alert for the ratio passed in, from [EMAIL_USER] to [TO_EMAIL]. *)
Theorem mail_guarded (ratio : spec_float) (st : State) :
  let t := events_of (send_alert_email module env ratio st) in
  (forall u p, EvSmtp (Login u p) ∈ t <->
     u = EMAIL_USER module /\ p = EMAIL_PASS module /\
     smtp env (Connect (SMTP_SERVER module) (SMTP_PORT module)) = None /\
     smtp env StartTls = None) /\
  (forall msg, EvSmtp (SendMessage msg) ∈ t <->
     msg = alert_for module ratio /\
     smtp env (Connect (SMTP_SERVER module) (SMTP_PORT module)) = None /\
     smtp env StartTls = None /\
     smtp env (Login (EMAIL_USER module) (EMAIL_PASS module)) = None).
Proof.
  intros t. subst t. unfold events_of, alert_for.
  mail_cases;
    (split; [intros u p | intros msg];
     (split;
     [ intros Hin;
       repeat (apply elem_of_cons in Hin as [Hin | Hin]; [try discriminate|]);
       first [ inversion Hin; fail
             | injection Hin as -> ->; repeat apply conj;
               (reflexivity || assumption)
             | injection Hin as ->; repeat apply conj;
               (reflexivity || assumption) ]
     | first [ intros (-> & -> & ? & ?) | intros (-> & ? & ? & ?) ];
       first [ congruence | repeat constructor ] ])).
Qed.

(** X6: the dispatcher ends with exactly one report: that the alert was sent
    when no call failed, else the failure.  A failure of closing the
    session is reported in the place of one raised inside the [with]
    block, and also when the message had gone out. *)
Theorem mail_outcome (ratio : spec_float) (st : State) :
  let t := events_of (send_alert_email module env ratio st) in
  last t =
    Some (EvPrint match session_failure module env ratio with
                  | None => MsgAlertSent (TO_EMAIL module)
                  | Some e => MsgEmailFailed e
                  end) /\
  count is_mail_report t = 1%nat /\
  (session_failure module env ratio = None ->
   smtp_calls t = full_session module ratio) /\
  (forall e,
     smtp env (Connect (SMTP_SERVER module) (SMTP_PORT module)) = None ->
     smtp env Quit = Some e ->
     session_failure module env ratio = Some e).
Proof.
  intros t. subst t.
  unfold events_of, session_failure, smtp_calls, full_session, alert_for.
  mail_cases; repeat apply conj; try reflexivity; try discriminate;
    try (intros e' ? ?); congruence.
Qed.

End Alert.

(** With a transport on which only the closing [QUIT] fails, the alert
    goes out and the dispatcher still reports a failure. *)
Example mail_sent_but_reported_failed :
  let t := events_of (send_alert_email bare_module
                        (sample_env 40 (Ok {| nrows := 100; ncols := 12 |})
                                    quit_fails)
                        Float.zero initial_state) in
  count is_sent_message t = 1%nat /\
  last t =
    Some (EvPrint (MsgEmailFailed
                     (SMTPException "421 service not available"))).
Proof. vm_compute. split; reflexivity. Qed.

(** ** The [try] suite, piece by piece *)

Lemma try_suite_unfold module env :
  try_suite module env =
    (stop_consumer_background env ;;
     run_pipeline_step env "Generating data" "python3 modules/datagen.py" ;;
     start_consumer_background module env ;;
     scoring_suite module env).
Proof. reflexivity. Qed.

Lemma mail_is_inert ev : is_mail ev = true -> is_inert ev = true.
Proof.
  destruct ev as [[]| | | | | | | |[]| |]; simpl; intros H;
    try discriminate; reflexivity.
Qed.

Lemma evaluation_inert module env r t :
  Evaluation module env r t -> forallb is_inert t = true.
Proof.
  intros Hev. inversion Hev; subst; try reflexivity.
  rewrite !forallb_app. simpl.
  rewrite (forallb_weaken _ _ _ mail_is_inert) by assumption. reflexivity.
Qed.

Section Pieces.

Variable module : Module.
Variable env : Env.

Lemma evaluate_model_inert st :
  state_of (evaluate_model module env st) = st /\
  forallb is_inert (events_of (evaluate_model module env st)) = true.
Proof.
  destruct (evaluate_model_spec module env st) as (r & t & -> & Hev).
  split; [reflexivity|]. exact (evaluation_inert _ _ _ _ Hev).
Qed.

Ltac scoring_steps :=
  repeat first
    [ eapply bind_Ok; [ eapply run_pipeline_step_ok; eassumption | ]
    | eapply bind_Raise; eapply run_pipeline_step_failed; eassumption ].

Ltac scoring_failed :=
  eexists _, _; split; [scoring_steps|]; split; [reflexivity|];
  left; reflexivity.

(** The scoring steps leave the state alone and touch no process; their
    events are those of steps, followed by those of the evaluation when
    it is reached. *)
Lemma scoring_suite_spec st :
  exists r t,
    scoring_suite module env st = (r, st, t) /\
    forallb is_inert t = true /\
    (forallb is_step t = true \/
     exists pre,
       forallb is_step pre = true /\
       t = pre ++ events_of (evaluate_model module env st)).
Proof.
  unfold scoring_suite.
  destruct (Z.eq_dec (exit_status env "python3 modules/combine.py") 0)
    as [E1|E1]; [|scoring_failed].
  destruct (Z.eq_dec (exit_status env "python3 modules/transformation.py") 0)
    as [E2|E2]; [|scoring_failed].
  destruct (Z.eq_dec (exit_status env "python3 modules/rule_based_fraud_detection.py denormalized_transactions/denoised_enriched_transactions.csv") 0)
    as [E3|E3]; [|scoring_failed].
  destruct (Z.eq_dec (exit_status env "python3 modules/history.py denormalized_transactions") 0)
    as [E4|E4]; [|scoring_failed].
  destruct (Z.eq_dec (exit_status env "python3 modules/model.py") 0)
    as [E5|E5]; [|scoring_failed].
  destruct (evaluate_model_inert st) as [Hst Hinert].
  destruct (evaluate_model module env st) as [[r st'] t] eqn:Heval.
  unfold state_of, events_of in *; simpl in *. subst st'.
  eexists _, _. split; [scoring_steps; exact Heval|].
  split.
  - rewrite !forallb_app, Hinert. reflexivity.
  - right.
    exists [EvPrint (MsgStep "Merging parquet files");
            EvRun "python3 modules/combine.py";
            EvPrint (MsgStep "Enriching with historical features");
            EvRun "python3 modules/transformation.py";
            EvPrint (MsgStep "Applying rule-based fraud detection");
            EvRun "python3 modules/rule_based_fraud_detection.py denormalized_transactions/denoised_enriched_transactions.csv";
            EvPrint (MsgStep "Generating account-level history");
            EvRun "python3 modules/history.py denormalized_transactions";
            EvPrint (MsgStep "Running autoencoder fraud detection");
            EvRun "python3 modules/model.py"].
    split; reflexivity.
Qed.

(** The whole suite: the stop, then either an early end that starts no
    consumer, or the start of a consumer followed by the scoring steps. *)
Lemma try_suite_cases st :
  exists st0 t0,
    stop_consumer_background env st = (Ok tt, st0, t0) /\
    ((consumer_starts env = false /\
      exists e t,
        try_suite module env st = (Raise e, st0, t0 ++ t) /\
        forallb is_inert t = true /\
        (forall ev, ev ∈ t ->
           is_step ev = true \/ ev = EvOpenAppend (CONSUMER_LOG module) \/
           ev = EvPrint MsgStartingConsumer)) \/
     (consumer_starts env = true /\
      exists r t,
        scoring_suite module env (started st0) = (r, started st0, t) /\
        try_suite module env st =
          (r, started st0,
           t0 ++
           [EvPrint (MsgStep "Generating data");
            EvRun "python3 modules/datagen.py";
            EvOpenAppend (CONSUMER_LOG module);
            EvPrint MsgStartingConsumer;
            EvPopen (next_pid st0)] ++ t))).
Proof.
  destruct (stop_consumer_background_spec env st) as (st0 & Hstop & _).
  exists st0. eexists. split; [exact Hstop|].
  rewrite try_suite_unfold. unfold consumer_starts.
  destruct (Z.eq_dec (exit_status env "python3 modules/datagen.py") 0)
    as [E0|E0].
  2:{ left. split.
      { destruct (Z.eqb_spec (exit_status env "python3 modules/datagen.py") 0);
          [contradiction|reflexivity]. }
      eexists _, _. split.
      { eapply bind_Ok; [exact Hstop|].
        eapply bind_Raise. eapply run_pipeline_step_failed. exact E0. }
      split; [reflexivity|].
      intros ev Hin. left.
      repeat (apply elem_of_cons in Hin as [-> | Hin]; [reflexivity|]).
      inversion Hin. }
  rewrite E0. simpl.
  destruct (start_consumer_background_cases module env st0)
    as [[Ho Hp] | (e & t & Hstart & He & Ht)].
  - right. rewrite Ho, Hp. split; [reflexivity|].
    destruct (scoring_suite_spec (started st0)) as (r & t & Hscore & _).
    exists r, t. split; [exact Hscore|].
    eapply bind_Ok; [exact Hstop|].
    change (?a :: ?b :: ?c :: ?d :: ?e :: t) with ([a; b] ++ [c; d; e] ++ t).
    eapply bind_Ok; [eapply run_pipeline_step_ok; exact E0|].
    eapply bind_Ok; [eapply start_consumer_background_ok; eassumption|].
    exact Hscore.
  - left. split.
    { destruct He as [He | He]; rewrite He.
      - destruct (popen env); reflexivity.
      - destruct (open_log env); reflexivity. }
    eexists _, _. split.
    { eapply bind_Ok; [exact Hstop|].
      eapply bind_Ok; [eapply run_pipeline_step_ok; exact E0|].
      eapply bind_Raise. exact Hstart. }
    rewrite Ht. split.
    + destruct (length t) as [|[|[|]]]; reflexivity.
    + intros ev Hin.
      apply elem_of_cons in Hin as [-> | Hin]; [left; reflexivity|].
      apply elem_of_cons in Hin as [-> | Hin]; [left; reflexivity|].
      destruct (length t) as [|[|[|]]]; simpl in Hin;
        repeat (apply elem_of_cons in Hin as [-> | Hin]; [auto|]);
        inversion Hin.
Qed.

End Pieces.

(** ** More on a cycle (lines 74-117) *)

Lemma cycle_of_suite module env st r st1 t :
  try_suite module env st = (r, st1, t) ->
  run_monitoring_cycle module env st =
    (Ok tt, st1, EvPrint MsgStartingRun :: t ++ report r).
Proof.
  intros Hrun. unfold run_monitoring_cycle, try_except, print, emit, bind.
  rewrite Hrun. destruct r as [[]|e]; simpl.
  - rewrite app_nil_r. reflexivity.
  - rewrite except_clauses_report. reflexivity.
Qed.

(** Events of one class are none of another. *)
Lemma count_class (c p : Event -> bool) t :
  (forall ev, c ev = true -> p ev = false) ->
  forallb c t = true -> count p t = 0%nat.
Proof.
  intros Hcp Ht. apply count_none. eapply forallb_weaken, Ht.
  intros ev Hev. rewrite (Hcp ev Hev). reflexivity.
Qed.

Ltac by_cases :=
  let ev := fresh "ev" in
  intros ev;
  destruct ev as [[]| | | | | | | |[]| |]; simpl;
  intros; first [reflexivity | discriminate | assumption].

Lemma inert_counts t :
  forallb is_inert t = true ->
  count is_supervisor t = 0%nat /\ count is_popen t = 0%nat.
Proof.
  intros Ht.
  split; apply (count_class is_inert); (by_cases || assumption).
Qed.

Lemma report_inert r : forallb is_inert (report r) = true.
Proof. destruct r as [|[]]; reflexivity. Qed.

Lemma mail_runs mail : forallb is_mail mail = true -> runs mail = [].
Proof.
  unfold runs. induction mail as [|ev t IH]; simpl; [reflexivity|].
  intros [Hev Ht]%andb_prop.
  destruct ev as [[]| | | | | | | |[]| |]; simpl in *;
    try discriminate; apply IH, Ht.
Qed.

Section CycleState.

Variable module : Module.
Variable env : Env.

(** A cycle stops the consumer it finds; then it either ends early with
    a report and no consumer, or starts one and goes on with steps that
    leave it alone. *)
Lemma run_monitoring_cycle_cases st :
  exists st0 t0,
    stop_consumer_background env st = (Ok tt, st0, t0) /\
    forallb is_supervisor t0 = true /\
    ((consumer_starts env = false /\
      exists e t,
        run_monitoring_cycle module env st =
          (Ok tt, st0,
           EvPrint MsgStartingRun :: (t0 ++ t) ++ [failure_report e]) /\
        forallb is_inert t = true) \/
     (consumer_starts env = true /\
      exists r t,
        run_monitoring_cycle module env st =
          (Ok tt, started st0,
           EvPrint MsgStartingRun ::
           (t0 ++
            [EvPrint (MsgStep "Generating data");
             EvRun "python3 modules/datagen.py";
             EvOpenAppend (CONSUMER_LOG module);
             EvPrint MsgStartingConsumer;
             EvPopen (next_pid st0)] ++ t) ++ report r) /\
        forallb is_inert t = true)).
Proof.
  destruct (try_suite_cases module env st)
    as (st0 & t0 & Hstop & [(Hno & e & t & Hrun & Hinert & _)
                           | (Hyes & r & t & Hscore & Hrun)]).
  - exists st0, t0. split; [exact Hstop|]. split.
    { destruct (stop_consumer_background_returns env st)
        as (st' & t' & Hstop' & _ & Hsup).
      rewrite Hstop in Hstop'. injection Hstop' as _ <-. exact Hsup. }
    left. split; [exact Hno|]. exists e, t. split; [|exact Hinert].
    exact (cycle_of_suite _ _ _ _ _ _ Hrun).
  - exists st0, t0. split; [exact Hstop|]. split.
    { destruct (stop_consumer_background_returns env st)
        as (st' & t' & Hstop' & _ & Hsup).
      rewrite Hstop in Hstop'. injection Hstop' as _ <-. exact Hsup. }
    right. split; [exact Hyes|]. exists r, t. split.
    + exact (cycle_of_suite _ _ _ _ _ _ Hrun).
    + destruct (scoring_suite_spec module env (started st0))
        as (r' & t' & Hscore' & Hinert & _).
      rewrite Hscore in Hscore'. injection Hscore' as _ <-. exact Hinert.
Qed.

(** X7: where a cycle leaves the consumer depends only on whether one could
    be started, not on what the pipeline and the evaluation did after:
    if so, a fresh child is tracked and running; if not, the handle still
    names the child that was stopped. *)
Theorem consumer_after_cycle (st : State) :
  let st' := state_of (run_monitoring_cycle module env st) in
  (forall p, consumer_process st = Some p -> p <> next_pid st ->
             is_running st' p = false) /\
  if consumer_starts env
  then consumer_process st' = Some (next_pid st) /\
       is_running st' (next_pid st) = true /\
       next_pid st' = S (next_pid st)
  else consumer_process st' = consumer_process st /\
       next_pid st' = next_pid st /\
       (forall p, consumer_process st = Some p -> is_running st' p = false).
Proof.
  intros st'. subst st'.
  destruct (stop_consumer_background_spec env st)
    as (st0 & Hstop & Hc & Hn & Hrun & _).
  destruct (run_monitoring_cycle_cases st)
    as (st0' & t0 & Hstop' & _ & [(-> & e & t & -> & _)
                                 | (-> & r & t & -> & _)]);
    rewrite Hstop in Hstop'; injection Hstop' as <- _;
    unfold state_of, is_running; simpl.
  - repeat apply conj; auto. intros p Hp _. exact (Hrun p Hp).
  - rewrite Hn, lookup_insert_eq. repeat apply conj; try reflexivity.
    intros p Hp Hne. rewrite lookup_insert_ne by congruence.
    exact (Hrun p Hp).
Qed.

(** X8: in a cycle the old consumer is signalled and awaited before anything
    else happens, and nothing after that touches a child except one
    spawn at most: a cycle never signals the consumer it started. *)
Theorem stop_precedes_start (st : State) :
  let t0 := events_of (stop_consumer_background env st) in
  exists rest,
    events_of (run_monitoring_cycle module env st) =
      EvPrint MsgStartingRun :: t0 ++ rest /\
    forallb is_supervisor t0 = true /\
    count is_supervisor rest = 0%nat /\
    count is_popen rest = (if consumer_starts env then 1 else 0)%nat.
Proof.
  intros t0. subst t0.
  destruct (run_monitoring_cycle_cases st)
    as (st0 & t0 & -> & Hsup & [(-> & e & t & -> & Hinert)
                               | (-> & r & t & -> & Hinert)]);
    unfold events_of; simpl;
    destruct (inert_counts t Hinert) as [H1 H2].
  - exists (t ++ [failure_report e]).
    rewrite <- app_assoc, !count_app, H1, H2.
    repeat apply conj; try assumption; try reflexivity;
      destruct e; reflexivity.
  - exists ([EvPrint (MsgStep "Generating data");
             EvRun "python3 modules/datagen.py";
             EvOpenAppend (CONSUMER_LOG module);
             EvPrint MsgStartingConsumer;
             EvPopen (next_pid st0)] ++ t ++ report r).
    destruct (inert_counts _ (report_inert r)) as [H3 H4].
    repeat apply conj; try assumption.
    + rewrite <- !app_assoc. reflexivity.
    + rewrite !count_app, H1, H3. reflexivity.
    + rewrite !count_app, H2, H4. reflexivity.
Qed.

Lemma single_consumer_initial : single_consumer initial_state.
Proof.
  intros p. unfold is_running. simpl. rewrite lookup_empty. discriminate.
Qed.

Lemma run_monitoring_cycle_single_consumer st :
  single_consumer st ->
  single_consumer (state_of (run_monitoring_cycle module env st)).
Proof.
  intros Hinv.
  destruct (stop_consumer_background_spec env st)
    as (st0 & Hstop & Hc & Hn & Hrun & Hother).
  assert (Hnone : forall q, is_running st0 q = false).
  { intros q. destruct (is_running st0 q) eqn:Hq; [|reflexivity].
    destruct (decide (consumer_process st = Some q)) as [Hq'|Hq'].
    - rewrite (Hrun q Hq') in Hq. discriminate.
    - exfalso. apply Hq', Hinv. unfold is_running in *.
      rewrite <- (Hother q Hq'). exact Hq. }
  destruct (run_monitoring_cycle_cases st)
    as (st0' & t0 & Hstop' & _ & [(_ & e & t & -> & _)
                                 | (_ & r & t & -> & _)]);
    rewrite Hstop in Hstop'; injection Hstop' as <- _;
    unfold state_of; simpl; intros q Hq.
  - rewrite Hnone in Hq. discriminate.
  - unfold is_running in Hq. simpl in Hq.
    destruct (decide (q = next_pid st0)) as [->|Hne]; [reflexivity|].
    rewrite lookup_insert_ne in Hq by congruence.
    pose proof (Hnone q) as Hq'. unfold is_running in Hq'.
    rewrite Hq' in Hq. discriminate.
Qed.

End CycleState.

(** X9: the consumer a cycle starts is the one the next cycle stops: it is
    signalled unless it is found dead, and it is not running when that
    cycle ends. *)
Theorem next_cycle_stops_consumer (module : Module) (env env' : Env)
    (st : State) :
  consumer_starts env = true ->
  let st1 := state_of (run_monitoring_cycle module env st) in
  EvPopen (next_pid st) ∈ events_of (run_monitoring_cycle module env st) /\
  events_of (stop_consumer_background env' st1) =
    (if bool_decide (died env' (next_pid st) = None)
     then stopping (next_pid st) else []) /\
  is_running (state_of (run_monitoring_cycle module env' st1)) (next_pid st)
    = false.
Proof.
  intros Hstarts st1. subst st1.
  destruct (stop_consumer_background_spec env st)
    as (st0 & Hstop & Hc & Hn & Hrun & _).
  destruct (run_monitoring_cycle_cases module env st)
    as (st0' & t0 & Hstop' & _ & [(Hno & _) | (_ & r & t & Hcycle & _)]);
    [congruence|].
  rewrite Hstop in Hstop'. injection Hstop' as <- _.
  rewrite <- Hn, Hcycle. unfold state_of, events_of. simpl.
  split; [|split].
  - apply elem_of_cons. right. rewrite <- app_assoc.
    apply elem_of_app. right. repeat constructor.
  - destruct (stop_consumer_background_spec env' (started st0))
      as (st2 & -> & _). simpl.
    unfold is_running. simpl. rewrite lookup_insert_eq. reflexivity.
  - destruct (stop_consumer_background_spec env' (started st0))
      as (st2 & Hstop2 & Hc2 & Hn2 & Hrun2 & _).
    destruct (run_monitoring_cycle_cases module env' (started st0))
      as (st2' & t2 & Hstop2' & _ & [(_ & e' & t' & -> & _)
                                    | (_ & r' & t' & -> & _)]);
      rewrite Hstop2 in Hstop2'; injection Hstop2' as <- _; simpl.
    + apply Hrun2. reflexivity.
    + unfold is_running. simpl. rewrite Hn2. simpl.
      rewrite lookup_insert_ne by lia.
      apply (Hrun2 (next_pid st0)). reflexivity.
Qed.

Lemma next_cycle_stops_consumer_witness :
  let st1 := state_of (run_monitoring_cycle bare_module quiet_env
                         initial_state) in
  events_of (stop_consumer_background quiet_env st1) = stopping 0 /\
  is_running (state_of (run_monitoring_cycle bare_module quiet_env st1)) 0
    = false.
Proof.
  destruct (next_cycle_stops_consumer bare_module quiet_env quiet_env
              initial_state eq_refl) as (_ & H1 & H2).
  split; [exact H1 | exact H2].
Defined.

(** ** More on the ways a cycle ends *)

Lemma start_consumer_background_no_log module env st e :
  open_log env = Some e ->
  start_consumer_background module env st =
    (Raise e, st, [EvOpenAppend (CONSUMER_LOG module)]).
Proof.
  intros Ho.
  unfold start_consumer_background, external, print, emit, bind, ret, raise.
  rewrite Ho. reflexivity.
Qed.

Lemma start_consumer_background_no_child module env st e :
  open_log env = None -> popen env = Some e ->
  start_consumer_background module env st =
    (Raise e, st,
     [EvOpenAppend (CONSUMER_LOG module); EvPrint MsgStartingConsumer]).
Proof.
  intros Ho Hp.
  unfold start_consumer_background, Popen, external, print, emit, bind, ret,
    raise.
  rewrite Ho, Hp. reflexivity.
Qed.

(** X10: when the log cannot be opened or the child cannot be spawned, the
    cycle ends there with the report of that exception: the data
    generation is the only command run, and the system is left without a
    consumer, the old one stopped and the handle still naming it.  The
    start is announced only once the log is open, so a failed spawn
    leaves the announcement of a consumer that never ran. *)
Theorem consumer_start_failure (module : Module) (env : Env) (st : State)
    (e : exn) :
  exit_status env "python3 modules/datagen.py" = 0 ->
  open_log env = Some e \/ (open_log env = None /\ popen env = Some e) ->
  let x := run_monitoring_cycle module env st in
  result_of (try_suite module env st) = Raise e /\
  result_of x = Ok tt /\
  last (events_of x) = Some (failure_report e) /\
  runs (events_of x) = ["python3 modules/datagen.py"] /\
  count is_popen (events_of x) = 0%nat /\
  count is_evaluation (events_of x) = 0%nat /\
  count is_consumer_line (events_of x) =
    match open_log env with Some _ => 0%nat | None => 1%nat end /\
  consumer_process (state_of x) = consumer_process st /\
  (forall p, consumer_process st = Some p ->
             is_running (state_of x) p = false).
Proof.
  intros E0 Hfail x. subst x.
  destruct (stop_consumer_background_spec env st)
    as (st0 & Hstop & Hc & _ & Hrun & _).
  destruct (stop_consumer_background_returns env st)
    as (st0' & t0 & Hstop' & _ & Hsup).
  rewrite Hstop' in Hstop. injection Hstop as -> _.
  assert (exists t,
            try_suite module env st = (Raise e, st0, t0 ++ t) /\
            runs t = ["python3 modules/datagen.py"] /\
            count is_popen t = 0%nat /\
            count is_evaluation t = 0%nat /\
            count is_consumer_line t =
              match open_log env with Some _ => 0%nat | None => 1%nat end)
    as (t & Hrun' & Hruns & Hpopen & Heval & Hline).
  { destruct Hfail as [Ho | [Ho Hp]]; rewrite Ho.
    - exists [EvPrint (MsgStep "Generating data");
              EvRun "python3 modules/datagen.py";
              EvOpenAppend (CONSUMER_LOG module)].
      split; [|repeat apply conj; reflexivity].
      rewrite try_suite_unfold.
      eapply bind_Ok; [exact Hstop'|].
      change [?a; ?b; ?c] with ([a; b] ++ [c]).
      eapply bind_Ok; [eapply run_pipeline_step_ok; exact E0|].
      eapply bind_Raise. apply start_consumer_background_no_log, Ho.
    - exists [EvPrint (MsgStep "Generating data");
              EvRun "python3 modules/datagen.py";
              EvOpenAppend (CONSUMER_LOG module);
              EvPrint MsgStartingConsumer].
      split; [|repeat apply conj; reflexivity].
      rewrite try_suite_unfold.
      eapply bind_Ok; [exact Hstop'|].
      change [?a; ?b; ?c; ?d] with ([a; b] ++ [c; d]).
      eapply bind_Ok; [eapply run_pipeline_step_ok; exact E0|].
      eapply bind_Raise. apply start_consumer_background_no_child; assumption. }
  rewrite (cycle_of_suite _ _ _ _ _ _ Hrun'), Hrun'.
  unfold result_of, state_of, events_of; simpl fst; simpl snd.
  change [failure_report e] with (report (Raise e)).
  rewrite runs_cycle. unfold runs at 1. rewrite omap_app.
  fold (runs t0). fold (runs t). rewrite (supervisor_runs t0 Hsup), Hruns.
  rewrite !count_cons, !count_app, Hpopen, Heval, Hline.
  rewrite !(count_class is_supervisor _ t0) by (by_cases || assumption).
  repeat apply conj; try reflexivity; try assumption;
    try apply last_cycle;
    destruct (open_log env); destruct e; reflexivity.
Qed.

Lemma consumer_start_failure_witness :
  let x := run_monitoring_cycle bare_module no_child_env initial_state in
  last (events_of x) = Some (EvPrint (MsgUnexpected (OSError "fork failed"))) /\
  runs (events_of x) = ["python3 modules/datagen.py"] /\
  count is_consumer_line (events_of x) = 1%nat /\
  consumer_process (state_of x) = None.
Proof.
  destruct (consumer_start_failure bare_module no_child_env initial_state
              (OSError "fork failed")
              eq_refl (or_intror (conj eq_refl eq_refl)))
    as (_ & _ & H1 & H2 & _ & _ & H3 & H4 & _).
  repeat apply conj; assumption.
Defined.

(** X11: the commands a cycle runs are an initial part of the seven commands
    of the script in the order of the source, the data generation always
    among them: no command is skipped, run twice or run out of order. *)
Theorem commands_in_order (module : Module) (env : Env) (st : State) :
  let done := runs (events_of (run_monitoring_cycle module env st)) in
  exists n : nat,
    (1 <= n)%nat /\ (n <= 7)%nat /\
    done = take n (pipeline_commands ++ [retrain_command]) /\
    NoDup done.
Proof.
  intros done. subst done.
  assert (Hprefix :
    exists n : nat,
      (1 <= n)%nat /\ (n <= 7)%nat /\
      runs (events_of (run_monitoring_cycle module env st)) =
        take n (pipeline_commands ++ [retrain_command])).
  { destruct (run_monitoring_cycle_spec module env st)
      as (r & st1 & t & Hrun & Hsuite & ->).
    unfold events_of; simpl snd. rewrite runs_cycle.
    inversion Hsuite as [pre i c Hpre Hi Hok Hc Hruns | pre e Hpre He Hok Hruns
                        | pre r' t' Hpre Hreach Hruns Hev]; subst.
    - apply lookup_lt_Some in Hi.
      change (length pipeline_commands) with 6%nat in Hi.
      exists (S i). rewrite Hruns, take_app_le by (simpl; lia).
      repeat apply conj; (lia || reflexivity).
    - exists 1%nat. rewrite Hruns. repeat apply conj; (lia || reflexivity).
    - unfold runs at 1. rewrite omap_app. fold (runs pre). fold (runs t').
      rewrite Hruns.
      eval_cases Hev;
        try (exists 6%nat; repeat apply conj; (lia || reflexivity)).
      exists 7%nat. repeat apply conj; try lia.
      unfold runs at 1. rewrite !omap_app. fold (runs mail).
      rewrite (mail_runs mail Hmail). reflexivity. }
  destruct Hprefix as (n & H1 & H7 & Hn). exists n.
  repeat apply conj; try assumption.
  rewrite Hn.
  assert (Hnd : NoDup (pipeline_commands ++ [retrain_command]))
    by (apply (bool_decide_unpack _); vm_compute; reflexivity).
  rewrite <- (take_drop n (pipeline_commands ++ [retrain_command])) in Hnd.
  apply NoDup_app in Hnd as [Hnd _]. exact Hnd.
Qed.

(** X12: the alert and the retraining happen in a cycle exactly when its
    verdict is [Drifted]; in every other cycle nothing is sent and the
    model is left as it is. *)
Theorem reaction_only_when_drifted (module : Module) (env : Env)
    (st : State) :
  let t := events_of (run_monitoring_cycle module env st) in
  let reactions := if drifted t then 1%nat else 0%nat in
  count is_alert t = reactions /\
  count is_retrain t = reactions /\
  (count is_sent_message t <= reactions)%nat.
Proof.
  intros t reactions. subst t reactions. unfold drifted.
  destruct (run_monitoring_cycle_spec module env st)
    as (r & st1 & t & Hrun & Hsuite & ->).
  unfold events_of; simpl snd.
  inversion Hsuite as [pre i c Hpre _ _ _ _ | pre e Hpre _ _ _
                      | pre r' t' Hpre _ _ Hev]; subst;
    try (rewrite verdict_aborted by assumption;
         rewrite !count_cons, !count_app,
           !(count_pipeline _ t) by (assumption || (repeat constructor));
         repeat apply conj; try (destruct e); reflexivity).
  rewrite (verdict_cycle pre t' r Hpre).
  rewrite !(count_cycle _ pre t' r) by (assumption || (repeat constructor)).
  eval_cases Hev; try (repeat apply conj; reflexivity).
  assert (Hv : verdict
                 ([EvExists (FRAUD_OUTPUT module);
                   EvReadCsv (FRAUD_OUTPUT module);
                   EvReadCsv non_fraud_transactions;
                   EvPrint (MsgTotal (shape0 total'));
                   EvPrint (MsgFrauds (len df'));
                   EvPrint (MsgRate ratio'); EvPrint MsgHighRatio;
                   EvSmtp (Connect (SMTP_SERVER module) (SMTP_PORT module))]
                  ++ mail ++
                  [EvPrint (MsgStep "Retraining autoencoder model");
                   EvRun retrain_command]) = Some Drifted).
  { unfold verdict. rewrite printed_app. reflexivity. }
  rewrite Hv.
  rewrite !count_app, !(count_mail _ mail)
    by (assumption || (repeat constructor)).
  repeat apply conj; try reflexivity.
  rewrite !count_cons, count_nil. simpl. simpl in Hle. lia.
Qed.

(** X13: when the fraud artifact exists but cannot be read, the exception
    leaves the [try] suite and is reported by the cycle, which returns
    normally: there is no verdict, the total is not read, and neither
    the alert nor the retraining happens. *)
Theorem fraud_artifact_unreadable (module : Module) (env : Env) (st : State)
    (e : exn) :
  reaches_evaluation env ->
  path_exists env (FRAUD_OUTPUT module) = true ->
  read_csv env (FRAUD_OUTPUT module) = Raise e ->
  let x := run_monitoring_cycle module env st in
  result_of (try_suite module env st) = Raise e /\
  result_of x = Ok tt /\
  last (events_of x) = Some (failure_report e) /\
  count is_failure_report (events_of x) = 1%nat /\
  verdict (events_of x) = None /\
  count is_evaluation (events_of x) = 2%nat /\
  count is_alert (events_of x) = 0%nat /\
  count is_retrain (events_of x) = 0%nat.
Proof.
  intros Hreach Hex0 Hrd0 x. subst x.
  destruct (cycle_evaluated module env st Hreach)
    as (pre & r & t & st1 & Hpre & Hev & Hr & ->).
  rewrite Hr. unfold result_of, events_of; simpl fst; simpl snd.
  rewrite (verdict_cycle pre t r Hpre).
  rewrite ?(count_cycle_reports pre t r), !(count_cycle _ pre t r)
    by (assumption || (repeat constructor)).
  eval_cases Hev; try congruence.
  assert (e' = e) as -> by congruence.
  repeat apply conj; try reflexivity.
  apply (last_cycle (pre ++ _) e).
Qed.

Lemma fraud_artifact_unreadable_witness :
  let x := run_monitoring_cycle bare_module unreadable_env initial_state in
  result_of x = Ok tt /\
  last (events_of x) = Some (EvPrint (MsgUnexpected EmptyDataError)) /\
  verdict (events_of x) = None /\
  count is_alert (events_of x) = 0%nat.
Proof.
  intros x.
  assert (Hreach : reaches_evaluation unreadable_env) by (repeat constructor).
  destruct (fraud_artifact_unreadable bare_module unreadable_env initial_state
              EmptyDataError Hreach eq_refl eq_refl)
    as (_ & H1 & H2 & _ & H3 & _ & H4 & _).
  repeat apply conj; assumption.
Defined.

(** X14: in a drifted cycle the retraining is the last command run and its
    exit status decides how the [try] suite ends: a non-zero status is
    reported as the failure of that step, after the alert has gone out;
    a zero status ends the cycle without a report. *)
Theorem retraining_outcome (module : Module) (env : Env) (st : State) :
  let x := run_monitoring_cycle module env st in
  let status := exit_status env retrain_command in
  verdict (events_of x) = Some Drifted ->
  last (runs (events_of x)) = Some retrain_command /\
  result_of (try_suite module env st) =
    (if status =? 0 then Ok tt
     else Raise (CalledProcessError status retrain_command)) /\
  count is_failure_report (events_of x) =
    (if status =? 0 then 0%nat else 1%nat) /\
  (status <> 0 ->
   last (events_of x) =
     Some (EvPrint (MsgStepFailed
                      (CalledProcessError status retrain_command))) /\
   count is_alert (events_of x) = 1%nat).
Proof.
  intros x status. subst x status.
  destruct (run_monitoring_cycle_spec module env st)
    as (r & st1 & t & Hrun & Hsuite & ->).
  rewrite Hrun. unfold result_of, events_of; simpl fst; simpl snd.
  intros Hv. rewrite runs_cycle.
  inversion Hsuite as [pre i c Hpre _ _ _ _ | pre e Hpre _ _ _
                      | pre r' t' Hpre _ _ Hev]; subst;
    try (rewrite verdict_aborted in Hv by assumption; discriminate).
  rewrite (verdict_cycle pre t' r Hpre) in Hv.
  rewrite (count_cycle_reports pre t' r), !(count_cycle _ pre t' r)
    by (assumption || (repeat constructor)).
  eval_cases Hev; try discriminate.
  rewrite !count_app, !(count_mail _ mail)
    by (assumption || (repeat constructor)).
  repeat apply conj.
  - unfold runs. rewrite !app_assoc, omap_app. apply last_snoc.
  - reflexivity.
  - destruct (exit_status env retrain_command =? 0); reflexivity.
  - intros Hne.
    destruct (Z.eqb_spec (exit_status env retrain_command) 0);
      [contradiction|].
    split; [|reflexivity].
    apply (last_cycle (pre ++ _)
             (CalledProcessError (exit_status env retrain_command)
                retrain_command)).
Qed.

Lemma retraining_outcome_witness :
  let x := run_monitoring_cycle bare_module retrain_fails_env initial_state in
  last (events_of x) =
    Some (EvPrint (MsgStepFailed (CalledProcessError 2 retrain_command))) /\
  count is_alert (events_of x) = 1%nat.
Proof.
  intros x.
  assert (Hv : verdict (events_of x) = Some Drifted)
    by (vm_compute; reflexivity).
  destruct (retraining_outcome bare_module retrain_fails_env initial_state Hv)
    as (_ & _ & _ & H).
  apply H. vm_compute. discriminate.
Defined.

(** ** What leaves by mail *)

Lemma step_is_outside ev : is_step ev = true -> is_outside ev = true.
Proof.
  unfold is_outside.
  destruct ev as [[]| | | | | | | | | |]; simpl; intros H;
    try discriminate; rewrite ?H; reflexivity.
Qed.

Lemma supervisor_is_outside ev :
  is_supervisor ev = true -> is_outside ev = true.
Proof.
  unfold is_outside. intros H. rewrite (supervisor_is_pipeline ev H).
  reflexivity.
Qed.

Lemma report_outside r : forallb is_outside (report r) = true.
Proof. destruct r as [|[]]; reflexivity. Qed.

(** The events of a cycle are those of its evaluation, if it gets there,
    between events of the other lines. *)
Lemma cycle_evaluation module env st :
  exists pre post,
    forallb is_outside pre = true /\ forallb is_outside post = true /\
    (events_of (run_monitoring_cycle module env st) = pre ++ post \/
     exists st1,
       events_of (run_monitoring_cycle module env st) =
         pre ++ events_of (evaluate_model module env st1) ++ post).
Proof.
  destruct (stop_consumer_background_returns env st)
    as (st0' & t0' & Hstop' & _ & Hsup).
  apply (forallb_weaken _ _ _ supervisor_is_outside) in Hsup.
  destruct (try_suite_cases module env st)
    as (st0 & t0 & Hstop & [(_ & e & t & Hrun & _ & Hev)
                           | (_ & r & t & Hscore & Hrun)]);
    rewrite Hstop in Hstop'; injection Hstop' as <- <-;
    rewrite (cycle_of_suite _ _ _ _ _ _ Hrun); unfold events_of; simpl snd.
  - exists (EvPrint MsgStartingRun :: (t0 ++ t) ++ report (Raise e)), [].
    split; [|split; [reflexivity|left; symmetry; apply app_nil_r]].
    simpl. rewrite !forallb_app, Hsup. simpl.
    assert (Ht : forallb is_outside t = true).
    { apply forallb_forall. intros ev Hin%list_elem_of_In.
      destruct (Hev ev Hin) as [H | [-> | ->]];
        [apply step_is_outside, H | reflexivity | reflexivity]. }
    rewrite Ht. destruct e; reflexivity.
  - destruct (scoring_suite_spec module env (started st0))
      as (r' & t' & Hscore' & _ & Hshape).
    rewrite Hscore in Hscore'. injection Hscore' as <- <-.
    destruct Hshape as [Hsteps | (pre & Hsteps & ->)];
      apply (forallb_weaken _ _ _ step_is_outside) in Hsteps.
    + exists (EvPrint MsgStartingRun ::
                (t0 ++
                 [EvPrint (MsgStep "Generating data");
                  EvRun "python3 modules/datagen.py";
                  EvOpenAppend (CONSUMER_LOG module);
                  EvPrint MsgStartingConsumer;
                  EvPopen (next_pid st0)] ++ t)), (report r).
      split; [|split; [apply report_outside|left; reflexivity]].
      simpl. rewrite forallb_app, Hsup. simpl. exact Hsteps.
    + exists (EvPrint MsgStartingRun ::
                (t0 ++
                 [EvPrint (MsgStep "Generating data");
                  EvRun "python3 modules/datagen.py";
                  EvOpenAppend (CONSUMER_LOG module);
                  EvPrint MsgStartingConsumer;
                  EvPopen (next_pid st0)] ++ pre)), (report r).
      split; [|split; [apply report_outside|right; exists (started st0)]].
      * simpl. rewrite forallb_app, Hsup. simpl. exact Hsteps.
      * simpl. repeat (rewrite <- app_assoc; simpl). reflexivity.
Qed.

(** A message handed to the transport by the evaluation is the alert for
    a ratio that was computed from the two artifacts, printed, and found
    above the threshold. *)
Lemma evaluate_model_message module env st msg :
  let t := events_of (evaluate_model module env st) in
  EvSmtp (SendMessage msg) ∈ t ->
  msg = alert_for module (msg_ratio msg) /\
  Float.ltb (RETRAIN_THRESHOLD module) (msg_ratio msg) = true /\
  (exists df total,
     read_csv env (FRAUD_OUTPUT module) = Ok df /\
     read_csv env non_fraud_transactions = Ok total /\
     int_truediv (len df) (shape0 total) = Ok (msg_ratio msg)) /\
  EvPrint (MsgRate (msg_ratio msg)) ∈ t /\
  smtp env StartTls = None /\
  smtp env (Login (EMAIL_USER module) (EMAIL_PASS module)) = None.
Proof.
  intros t. subst t.
  unfold evaluate_model, exists_, pd_read_csv, lift, print, emit, bind, ret.
  destruct (path_exists env (FRAUD_OUTPUT module)) eqn:Hex; simpl.
  2:{ intros Hin.
      repeat (apply elem_of_cons in Hin as [Hin | Hin]; [discriminate|]).
      inversion Hin. }
  destruct (read_csv env (FRAUD_OUTPUT module)) as [df|e] eqn:Hdf; simpl.
  2:{ intros Hin.
      repeat (apply elem_of_cons in Hin as [Hin | Hin]; [discriminate|]).
      inversion Hin. }
  destruct (empty df) eqn:Hem; simpl.
  { intros Hin.
    repeat (apply elem_of_cons in Hin as [Hin | Hin]; [discriminate|]).
    inversion Hin. }
  destruct (read_csv env non_fraud_transactions) as [total|e] eqn:Htot; simpl.
  2:{ intros Hin.
      repeat (apply elem_of_cons in Hin as [Hin | Hin]; [discriminate|]).
      inversion Hin. }
  destruct (int_truediv (len df) (shape0 total)) as [fraud_ratio|e] eqn:Hdiv;
    simpl.
  2:{ intros Hin.
      repeat (apply elem_of_cons in Hin as [Hin | Hin]; [discriminate|]).
      inversion Hin. }
  destruct (Float.ltb (RETRAIN_THRESHOLD module) fraud_ratio) eqn:Hlt; simpl.
  2:{ intros Hin.
      repeat (apply elem_of_cons in Hin as [Hin | Hin]; [discriminate|]).
      inversion Hin. }
  pose proof (send_alert_email_calls module env fraud_ratio st) as Hcalls.
  destruct (send_alert_email_returns module env fraud_ratio st)
    as (mail & Hsend & _).
  rewrite Hsend in *. unfold events_of in Hcalls. simpl in Hcalls.
  destruct Hcalls as (_ & _ & Hmsg & _).
  destruct (run_pipeline_step env "Retraining autoencoder model"
              "python3 modules/train_autoencoder.py" st)
    as [[r2 st2] t2] eqn:Hretrain.
  assert (Ht2 : t2 = [EvPrint (MsgStep "Retraining autoencoder model");
                      EvRun "python3 modules/train_autoencoder.py"]).
  { unfold run_pipeline_step, print, emit, bind, ret, raise in Hretrain.
    simpl in Hretrain.
    destruct (exit_status env "python3 modules/train_autoencoder.py" =? 0);
      injection Hretrain as _ _ <-; reflexivity. }
  subst t2. simpl. intros Hin.
  repeat (apply elem_of_cons in Hin as [Hin | Hin]; [discriminate|]).
  apply elem_of_app in Hin as [Hin | Hin].
  2:{ repeat (apply elem_of_cons in Hin as [Hin | Hin]; [discriminate|]).
      inversion Hin. }
  assert (Hcall : SendMessage msg ∈
                    smtp_calls (EvSmtp (Connect (SMTP_SERVER module)
                                          (SMTP_PORT module)) :: mail)).
  { apply list_elem_of_omap. exists (EvSmtp (SendMessage msg)).
    split; [|reflexivity]. apply elem_of_cons. right. exact Hin. }
  destruct (Hmsg msg Hcall) as (-> & Htls & Hlogin). simpl.
  repeat apply conj; try assumption; try reflexivity.
  - exists df, total. auto.
  - do 5 (apply elem_of_cons; right). apply elem_of_cons. left. reflexivity.
Qed.

(** X15: whatever leaves a cycle by mail is the alert of that cycle: from
    [EMAIL_USER] to [TO_EMAIL], for the ratio the cycle computed from its
    two artifacts and printed, a ratio above the threshold; and it leaves
    over a session on which STARTTLS and the login succeeded. *)
Theorem alert_content (module : Module) (env : Env) (st : State)
    (msg : MIMEText) :
  let t := events_of (run_monitoring_cycle module env st) in
  EvSmtp (SendMessage msg) ∈ t ->
  msg = alert_for module (msg_ratio msg) /\
  Float.ltb (RETRAIN_THRESHOLD module) (msg_ratio msg) = true /\
  (exists df total,
     read_csv env (FRAUD_OUTPUT module) = Ok df /\
     read_csv env non_fraud_transactions = Ok total /\
     int_truediv (len df) (shape0 total) = Ok (msg_ratio msg)) /\
  EvPrint (MsgRate (msg_ratio msg)) ∈ t /\
  smtp env StartTls = None /\
  smtp env (Login (EMAIL_USER module) (EMAIL_PASS module)) = None.
Proof.
  intros t. subst t.
  destruct (cycle_evaluation module env st)
    as (pre & post & Hpre & Hpost & [-> | (st1 & ->)]); intros Hin.
  - exfalso. rewrite forallb_forall in Hpre, Hpost.
    apply elem_of_app in Hin as [Hin | Hin]; apply list_elem_of_In in Hin;
      [apply Hpre in Hin | apply Hpost in Hin]; discriminate.
  - rewrite forallb_forall in Hpre, Hpost.
    apply elem_of_app in Hin as [Hin | Hin];
      [apply list_elem_of_In, Hpre in Hin; discriminate|].
    apply elem_of_app in Hin as [Hin | Hin];
      [|apply list_elem_of_In, Hpost in Hin; discriminate].
    destruct (evaluate_model_message module env st1 msg Hin)
      as (H1 & H2 & H3 & H4 & H5 & H6).
    repeat apply conj; try assumption.
    apply elem_of_app. right. apply elem_of_app. left. exact H4.
Qed.

Lemma alert_content_witness :
  let env := sample_env 40 (Ok {| nrows := 100; ncols := 12 |})
               (fun _ => None) in
  let ratio := Float.div (Float.exact_int 40) (Float.exact_int 100) in
  let t := events_of (run_monitoring_cycle bare_module env initial_state) in
  EvSmtp (SendMessage (alert_for bare_module ratio)) ∈ t /\
  Float.ltb (RETRAIN_THRESHOLD bare_module) ratio = true /\
  EvPrint (MsgRate ratio) ∈ t.
Proof.
  intros env ratio t.
  assert (Hin : EvSmtp (SendMessage (alert_for bare_module ratio)) ∈ t).
  { apply list_elem_of_In. vm_compute. tauto. }
  destruct (alert_content bare_module env initial_state _ Hin)
    as (_ & H1 & _ & H2 & _).
  repeat apply conj; assumption.
Defined.

(** ** More on the loop (lines 119-126) *)

(** A cycle neither reads the clock nor sleeps. *)
Lemma cycle_not_scheduler module env st :
  count is_scheduler (events_of (run_monitoring_cycle module env st)) = 0%nat.
Proof.
  assert (Hout : forall t, forallb is_outside t = true ->
                           count is_scheduler t = 0%nat).
  { intros t. apply count_class. unfold is_outside. by_cases. }
  destruct (cycle_evaluation module env st)
    as (pre & post & Hpre & Hpost & [-> | (st1 & ->)]);
    rewrite !count_app, (Hout pre Hpre), (Hout post Hpost); [reflexivity|].
  destruct (evaluate_model_spec module env st1) as (r & t & -> & Hev).
  unfold events_of; simpl snd.
  eval_cases Hev; try reflexivity.
  rewrite !count_app, (count_class is_mail _ mail) by (by_cases || assumption).
  reflexivity.
Qed.

Lemma scheduler_counts t :
  count is_scheduler t = 0%nat ->
  count is_sleep t = 0%nat /\ count is_clock t = 0%nat.
Proof.
  induction t as [|ev t IH]; [split; reflexivity|].
  rewrite !count_cons.
  destruct ev as [[]| | | | | | | | | |]; simpl; intros H;
    try discriminate; apply IH, H.
Qed.

(** X16: every pass of the loop reads the clock twice and sleeps once, also
    when its cycle failed: with the line that announces the wait, four
    effects of the loop for each pass.  A run of passes ends with a
    sleep. *)
Theorem main_paces (module : Module) (envs : list Env) (st : State) :
  let t := events_of (main module envs st) in
  count is_sleep t = length envs /\
  count is_clock t = (2 * length envs)%nat /\
  count is_scheduler t = (4 * length envs)%nat /\
  (envs <> [] -> exists w, last t = Some (EvSleep w)).
Proof.
  intros t. subst t. revert st.
  induction envs as [|env envs IH]; intros st.
  - repeat apply conj; try reflexivity. congruence.
  - destruct (main_body_spec module env st) as (st1 & t & Hcycle & Hbody).
    pose proof (cycle_not_scheduler module env st) as Hnone.
    rewrite Hcycle in Hnone. unfold events_of in Hnone; simpl in Hnone.
    destruct (scheduler_counts t Hnone) as [Hsleep Hclock].
    destruct (IH st1) as (IH1 & IH2 & IH3 & IH4).
    destruct (main module envs st1) as [[r2 st2] t2] eqn:Hrest.
    simpl main. rewrite (bind_Ok _ _ _ _ _ _ _ _ _ Hbody Hrest).
    unfold events_of in *; simpl snd in *.
    rewrite !count_cons, !count_app, !count_cons, !count_nil,
      Hnone, Hsleep, Hclock, IH1, IH2, IH3.
    repeat apply conj; try (simpl; lia).
    intros _. destruct envs as [|env' envs].
    + injection Hrest as _ _ <-. rewrite app_nil_r, last_cons, last_app.
      eexists. reflexivity.
    + destruct IH4 as (w & Hlast); [discriminate|]. exists w.
      rewrite last_cons, last_app, Hlast. reflexivity.
Qed.

(** X18: only the tracked child is ever running: this holds when the module
    is loaded, every cycle keeps it however it ends, and so does the
    loop.  A consumer is never left running untracked. *)
Theorem single_consumer_kept (module : Module) (envs : list Env) :
  single_consumer initial_state /\
  (forall env st,
     single_consumer st ->
     single_consumer (state_of (run_monitoring_cycle module env st))) /\
  (forall st,
     single_consumer st -> single_consumer (state_of (main module envs st))).
Proof.
  split; [exact single_consumer_initial|].
  split; [intros env st; apply run_monitoring_cycle_single_consumer|].
  induction envs as [|env envs IH]; intros st Hinv; [exact Hinv|].
  destruct (main_body_spec module env st) as (st1 & t & Hcycle & Hbody).
  pose proof (run_monitoring_cycle_single_consumer module env st Hinv) as H1.
  rewrite Hcycle in H1. unfold state_of in H1; simpl in H1.
  specialize (IH st1 H1).
  destruct (main module envs st1) as [[r2 st2] t2] eqn:Hrest.
  simpl main. rewrite (bind_Ok _ _ _ _ _ _ _ _ _ Hbody Hrest).
  exact IH.
Qed.

(** ** When output or sleep fails (lines 75, 114-117, 119-126) *)

Lemma bind_ext {A B} (m m' : M A) (k k' : A -> M B) st :
  (forall st, m st = m' st) -> (forall a st, k a st = k' a st) ->
  bind m k st = bind m' k' st.
Proof.
  intros Hm Hk. unfold bind. rewrite Hm.
  destruct (m' st) as [[[a|e] st1] t1]; [rewrite Hk|]; reflexivity.
Qed.

Lemma try_except_ext {A} (m m' : M A) (h h' : exn -> M A) st :
  (forall st, m st = m' st) -> (forall e st, h e st = h' e st) ->
  try_except m h st = try_except m' h' st.
Proof.
  intros Hm Hh. unfold try_except. rewrite Hm.
  destruct (m' st) as [[[a|e] st1] t1]; [|rewrite Hh]; reflexivity.
Qed.

Section Reliable.

Variable platform : Fallible.Platform.
Variable module : Module.

Hypothesis stdout_accepts : forall m, Fallible.stdout platform m = None.
Hypothesis timer_holds : forall w, Fallible.timer_overflow platform w = false.

Lemma print_reliable m : Fallible.print platform m = print m.
Proof. unfold Fallible.print. rewrite stdout_accepts. reflexivity. Qed.

Lemma time_sleep_reliable w st :
  Fallible.time_sleep platform w st = time_sleep w st.
Proof.
  unfold Fallible.time_sleep, time_sleep. rewrite timer_holds.
  destruct w as [z|f]; simpl.
  - reflexivity.
  - destruct (Float.is_nan f), (Float.ltb f Float.zero); reflexivity.
Qed.

Ltac same :=
  repeat first
    [ reflexivity
    | rewrite print_reliable
    | apply bind_ext; intros
    | apply try_except_ext; intros
    | match goal with
      | |- (if ?b then _ else _) _ = _ => destruct b
      | |- (match ?x with _ => _ end) _ = _ => destruct x
      end ].

Lemma run_pipeline_step_reliable env label command st :
  Fallible.run_pipeline_step platform env label command st =
    run_pipeline_step env label command st.
Proof. unfold Fallible.run_pipeline_step, run_pipeline_step. same. Qed.

Lemma start_consumer_background_reliable env st :
  Fallible.start_consumer_background platform module env st =
    start_consumer_background module env st.
Proof.
  unfold Fallible.start_consumer_background, start_consumer_background. same.
Qed.

Lemma stop_consumer_background_reliable env st :
  Fallible.stop_consumer_background platform env st =
    stop_consumer_background env st.
Proof.
  unfold Fallible.stop_consumer_background, stop_consumer_background. same.
Qed.

Lemma send_alert_email_reliable env ratio st :
  Fallible.send_alert_email platform module env ratio st =
    send_alert_email module env ratio st.
Proof. unfold Fallible.send_alert_email, send_alert_email. same. Qed.

Lemma evaluate_model_reliable env st :
  Fallible.evaluate_model platform module env st =
    evaluate_model module env st.
Proof.
  unfold Fallible.evaluate_model, evaluate_model.
  repeat first
    [ reflexivity
    | apply send_alert_email_reliable
    | apply run_pipeline_step_reliable
    | rewrite print_reliable
    | apply bind_ext; intros
    | match goal with
      | |- (if ?b then _ else _) _ = _ => destruct b
      end ].
Qed.

Lemma try_suite_reliable env st :
  Fallible.try_suite platform module env st = try_suite module env st.
Proof.
  unfold Fallible.try_suite, try_suite.
  repeat first
    [ apply evaluate_model_reliable
    | apply run_pipeline_step_reliable
    | apply start_consumer_background_reliable
    | apply stop_consumer_background_reliable
    | apply bind_ext; intros ].
Qed.

Lemma run_monitoring_cycle_reliable env st :
  Fallible.run_monitoring_cycle platform module env st =
    run_monitoring_cycle module env st.
Proof.
  unfold Fallible.run_monitoring_cycle, run_monitoring_cycle.
  rewrite print_reliable. apply bind_ext; [reflexivity|]. intros _ st'.
  apply try_except_ext; [apply try_suite_reliable|].
  intros e st''. unfold Fallible.except_clauses, except_clauses.
  destruct e; rewrite print_reliable; reflexivity.
Qed.

Lemma main_body_reliable env st :
  Fallible.main_body platform module env st = main_body module env st.
Proof.
  unfold Fallible.main_body, main_body.
  repeat first
    [ apply time_sleep_reliable
    | apply run_monitoring_cycle_reliable
    | rewrite print_reliable
    | apply bind_ext; intros
    | reflexivity ].
Qed.

Lemma main_reliable envs st :
  Fallible.main platform module envs st = main module envs st.
Proof.
  revert st. induction envs as [|env envs IH]; intros st; simpl.
  - reflexivity.
  - apply bind_ext; [apply main_body_reliable|]. intros _. exact IH.
Qed.

End Reliable.

(** What leaves a cycle: the exception of the opening line, or that of
    the report of the exception the [try] suite ended with. *)
Lemma cycle_escapes platform module env st :
  result_of (Fallible.run_monitoring_cycle platform module env st) =
    match Fallible.stdout platform MsgStartingRun with
    | Some e => Raise e
    | None =>
        match result_of (Fallible.try_suite platform module env st) with
        | Ok _ => Ok tt
        | Raise e =>
            let line :=
              match e with
              | CalledProcessError _ _ => MsgStepFailed e
              | _ => MsgUnexpected e
              end in
            match Fallible.stdout platform line with
            | Some e' => Raise e'
            | None => Ok tt
            end
        end
    end.
Proof.
  unfold Fallible.run_monitoring_cycle, try_except, bind, Fallible.print,
    emit, raise, result_of.
  destruct (Fallible.stdout platform MsgStartingRun); simpl; [reflexivity|].
  destruct (Fallible.try_suite platform module env st) as [[[[]|e] st1] t1];
    simpl; [reflexivity|].
  unfold Fallible.except_clauses, Fallible.print, emit, raise.
  destruct e; simpl;
    match goal with
    | |- context [Fallible.stdout platform ?m] =>
        destruct (Fallible.stdout platform m)
    end; reflexivity.
Qed.

(** [main] has no handler: what leaves a cycle leaves the loop. *)
Lemma main_left platform module env envs st e :
  result_of (Fallible.run_monitoring_cycle platform module env st) = Raise e ->
  result_of (Fallible.main platform module (env :: envs) st) = Raise e /\
  (count is_cycle_start
     (events_of (Fallible.main platform module (env :: envs) st)) <=
   count is_cycle_start
     (events_of (Fallible.run_monitoring_cycle platform module env st)))%nat.
Proof.
  simpl. unfold Fallible.main_body, time_time, bind, emit, ret, result_of,
    events_of.
  destruct (Fallible.run_monitoring_cycle platform module env st)
    as [[[[]|e'] st1] t1]; simpl; [discriminate|].
  intros [= ->]. split; [reflexivity|].
  rewrite count_cons. simpl. lia.
Qed.

(** C7 (as stated, refuted): not every exception of a cycle is caught.
    The [print] of line 75 is before the [try] and those of lines 115
    and 117 are in the handlers.  On a standard output that is closed
    the first cycle ends with the exception of its opening line, and so
    does the loop, no cycle begun.  On one that breaks once the first
    cycle has begun, the [print] of the first step raises inside the
    [try] and is caught, but the [print] of its report raises in the
    handler: the cycle ends with that exception and so does the loop,
    and the next cycle does not begin. *)
Lemma C7_print_failure_ends_loop :
  let a := Fallible.main Fallible.closed_stdout bare_module
             [quiet_env; quiet_env] initial_state in
  let b := Fallible.run_monitoring_cycle Fallible.broken_pipe bare_module
             quiet_env initial_state in
  let c := Fallible.main Fallible.broken_pipe bare_module
             [quiet_env; quiet_env] initial_state in
  (result_of a = Raise (OSError "Broken pipe") /\
   count is_cycle_start (events_of a) = 0%nat) /\
  (result_of (Fallible.try_suite Fallible.broken_pipe bare_module quiet_env
                initial_state) = Raise (OSError "Broken pipe") /\
   events_of b = [EvPrint MsgStartingRun] /\
   result_of b = Raise (OSError "Broken pipe")) /\
  (result_of c = Raise (OSError "Broken pipe") /\
   count is_cycle_start (events_of c) = 1%nat).
Proof. vm_compute. repeat apply conj; reflexivity. Qed.

(** C7 (amended): an exception raised inside the [try] suite, that of a
    [print] there included, is caught at the cycle boundary.  What
    leaves a cycle is the exception of the [print] of its opening line,
    which is before the [try], or that of the [print] of the report, which
    is in the handler; [main] has no handler, so such an exception ends
    the loop.  When no write to the standard output fails and the timer
    holds every wait, a cycle returns normally whatever its suite does,
    ending with the report of the exception of the suite, and the loop
    is never left: its run through any number of passes returns normally
    and has started that many cycles. *)
Theorem C7_cycle_failures_contained (platform : Fallible.Platform)
    (module : Module) (envs : list Env) (st : State) :
  (forall env st',
     result_of (Fallible.run_monitoring_cycle platform module env st') =
       match Fallible.stdout platform MsgStartingRun with
       | Some e => Raise e
       | None =>
           match result_of (Fallible.try_suite platform module env st') with
           | Ok _ => Ok tt
           | Raise e =>
               let line :=
                 match e with
                 | CalledProcessError _ _ => MsgStepFailed e
                 | _ => MsgUnexpected e
                 end in
               match Fallible.stdout platform line with
               | Some e' => Raise e'
               | None => Ok tt
               end
           end
       end) /\
  (forall env rest st' e,
     result_of (Fallible.run_monitoring_cycle platform module env st') =
       Raise e ->
     result_of (Fallible.main platform module (env :: rest) st') = Raise e) /\
  ((forall m, Fallible.stdout platform m = None) ->
   (forall w, Fallible.timer_overflow platform w = false) ->
   (forall env st',
      exists r st1 t,
        Fallible.try_suite platform module env st' = (r, st1, t) /\
        Fallible.run_monitoring_cycle platform module env st' =
          (Ok tt, st1, EvPrint MsgStartingRun :: t ++ report r)) /\
   result_of (Fallible.main platform module envs st) = Ok tt /\
   count is_cycle_start (events_of (Fallible.main platform module envs st)) =
     length envs).
Proof.
  split; [intros env st'; apply cycle_escapes|].
  split.
  { intros env rest st' e He.
    exact (proj1 (main_left platform module env rest st' e He)). }
  intros Hout Hsleep. split.
  - intros env st'.
    rewrite (try_suite_reliable platform module Hout),
      (run_monitoring_cycle_reliable platform module Hout).
    destruct (run_monitoring_cycle_spec module env st')
      as (r & st1 & t & Hrun & _ & Hcycle). eauto.
  - rewrite (main_reliable platform module Hout Hsleep).
    apply main_never_left.
Qed.

Lemma C7_cycle_failures_contained_witness :
  let failed := failing_env "python3 modules/combine.py" in
  let x := Fallible.main Fallible.reliable bare_module [failed; quiet_env]
             initial_state in
  result_of x = Ok tt /\ count is_cycle_start (events_of x) = 2%nat.
Proof.
  intros failed x.
  destruct (C7_cycle_failures_contained Fallible.reliable bare_module
              [failed; quiet_env] initial_state) as (_ & _ & H).
  destruct (H (fun _ => eq_refl) (fun _ => eq_refl)) as (_ & H1 & H2).
  split; assumption.
Defined.
